(** * a2a-dynatrace: the intent classifier, the gateway and the formatters

    A shallow embedding of the Python sources
    [agent_executor.py], [dynatrace_client.py] and [dynatrace_agent.py].

    Text is modelled by [string]: one [ascii] per character.  The model is
    exact for queries written in ASCII; glyphs of the source's literals
    that lie outside ASCII are carried as their UTF-8 bytes and no test of
    the code ever looks inside them.

    A decoded JSON object is a record whose fields are options ([None]
    for an absent key), typed as the monitoring API documents them.  The
    monitoring API and the language model are functions the code calls:
    their answers are inputs of the model, and the requests sent are
    logged.  Metric values are IEEE doubles. *)

From Stdlib Require Import String Ascii List ZArith NArith Lia Bool.
From Stdlib Require Import DecimalString Floats.
From Stdlib Require DecimalPos DecimalN.
Import ListNotations.
Open Scope string_scope.

(** ** Python's [str] primitives *)

Module PyStr.

Definition code (c : ascii) : nat := nat_of_ascii c.

Definition between (lo hi : nat) (c : ascii) : bool :=
  (lo <=? code c)%nat && (code c <=? hi)%nat.

Definition isupper (c : ascii) : bool := between 65 90 c.
Definition islower (c : ascii) : bool := between 97 122 c.
Definition isdigit (c : ascii) : bool := between 48 57 c.
Definition isalnum (c : ascii) : bool := isupper c || islower c || isdigit c.

(** [str.isspace] on the ASCII range: TAB..CR, FS..US and the blank. *)
Definition isspace (c : ascii) : bool :=
  between 9 13 c || between 28 32 c.

Definition lower_ascii (c : ascii) : ascii :=
  if isupper c then ascii_of_nat (code c + 32) else c.

Definition upper_ascii (c : ascii) : ascii :=
  if islower c then ascii_of_nat (code c - 32) else c.

Fixpoint lower (s : string) : string :=
  match s with
  | EmptyString => EmptyString
  | String c s' => String (lower_ascii c) (lower s')
  end.

Fixpoint upper (s : string) : string :=
  match s with
  | EmptyString => EmptyString
  | String c s' => String (upper_ascii c) (upper s')
  end.

Fixpoint lstrip (s : string) : string :=
  match s with
  | EmptyString => EmptyString
  | String c s' => if isspace c then lstrip s' else s
  end.

Fixpoint rstrip (s : string) : string :=
  match s with
  | EmptyString => EmptyString
  | String c s' =>
      match rstrip s' with
      | EmptyString => if isspace c then EmptyString else String c EmptyString
      | r => String c r
      end
  end.

Definition strip (s : string) : string := rstrip (lstrip s).

(** [s.startswith(p)] *)
Fixpoint startswith (p s : string) : bool :=
  match p, s with
  | EmptyString, _ => true
  | String a p', String b s' => Ascii.eqb a b && startswith p' s'
  | String _ _, EmptyString => false
  end.

(** [p in s] *)
Fixpoint contains (p s : string) : bool :=
  startswith p s ||
  match s with
  | EmptyString => false
  | String _ s' => contains p s'
  end.

(** [any(w in s for w in ws)] *)
Definition any_in (ws : list string) (s : string) : bool :=
  existsb (fun w => contains w s) ws.

(** [s[:n]] *)
Fixpoint take (n : nat) (s : string) : string :=
  match n, s with
  | O, _ => EmptyString
  | S n', String c s' => String c (take n' s')
  | S _, EmptyString => EmptyString
  end.

(** [s.replace(a, b)] for one-character [a] and [b]. *)
Fixpoint replace_char (a b : ascii) (s : string) : string :=
  match s with
  | EmptyString => EmptyString
  | String c s' => String (if Ascii.eqb c a then b else c) (replace_char a b s')
  end.

(** [sep.join(l)] *)
Fixpoint join (sep : string) (l : list string) : string :=
  match l with
  | [] => EmptyString
  | [x] => x
  | x :: rest => x ++ sep ++ join sep rest
  end.

(** [str(n)] for a non-negative integer. *)
Definition str_of_N (n : N) : string :=
  NilEmpty.string_of_uint (N.to_uint n).

(** [str(z)] for an integer. *)
Definition str_of_Z (z : Z) : string :=
  match z with
  | Zneg p => "-" ++ str_of_N (Npos p)
  | _ => str_of_N (Z.to_N z)
  end.

(** [int(s)] on a run of decimal digits (the only argument the code
    passes: the capture of a [\d+] group).  An interpreter that bounds
    the length of the digit strings it converts raises beyond its bound;
    the model converts every run. *)
Definition int_of_digits (s : string) : N :=
  (fix go (acc : N) (s : string) : N :=
     match s with
     | EmptyString => acc
     | String c s' => go (acc * 10 + N.of_nat (code c - 48))%N s'
     end) 0%N s.

(** Truth value of a [str | None]. *)
Definition truthy (o : option string) : bool :=
  match o with
  | Some (String _ _) => true
  | _ => false
  end.

(** [o or d] *)
Definition or_else (o : option string) (d : string) : string :=
  if truthy o then match o with Some s => s | None => d end else d.

Definition dquote : string := String (ascii_of_nat 34) EmptyString.
Definition nl : string := String (ascii_of_nat 10) EmptyString.

End PyStr.

Import PyStr.

(** ** The fragment of Python's [re] the executor uses

    A backtracking matcher in continuation-passing style.  Alternatives
    are tried in the order [re] tries them (greedy repetition first), the
    search takes the leftmost start, and every pattern is compiled with
    [re.IGNORECASE]. *)

Module Re.

Inductive regex : Type :=
| Eps
| Lit (c : ascii)
| Cls (p : ascii -> bool)
| Seq (r1 r2 : regex)
| Opt (r : regex)
| Star (p : ascii -> bool)
| WordB
| Group (r : regex).

Definition Plus (p : ascii -> bool) : regex := Seq (Cls p) (Star p).

Fixpoint Str (s : string) : regex :=
  match s with
  | EmptyString => Eps
  | String c s' => Seq (Lit c) (Str s')
  end.

Definition cat (l : list regex) : regex := fold_right Seq Eps l.

(** A literal under IGNORECASE. *)
Definition lit_ci (c x : ascii) : bool :=
  Ascii.eqb (lower_ascii c) (lower_ascii x).

(** A class under IGNORECASE: some case variant of [x] is in the class. *)
Definition cls_ci (p : ascii -> bool) (x : ascii) : bool :=
  p x || p (lower_ascii x) || p (upper_ascii x).

(** [\w] *)
Definition isword (c : ascii) : bool :=
  isalnum c || Ascii.eqb c "_"%char.

Definition isword_opt (o : option ascii) : bool :=
  match o with
  | Some c => isword c
  | None => false
  end.

Definition peek (s : string) : option ascii :=
  match s with
  | EmptyString => None
  | String c _ => Some c
  end.

Section Matcher.
Context {R : Type}.

(** A continuation receives the character before the position, the
    rest of the subject and the text of group 1, if set. *)
Definition cont : Type := option ascii -> string -> option string -> option R.

Fixpoint star_match (p : ascii -> bool) (k : cont)
    (prev : option ascii) (s : string) (g : option string) : option R :=
  match s with
  | String c s' =>
      if p c then
        match star_match p k (Some c) s' g with
        | Some r => Some r
        | None => k prev s g
        end
      else k prev s g
  | EmptyString => k prev s g
  end.

Fixpoint rmatch (r : regex) (k : cont)
    (prev : option ascii) (s : string) (g : option string) : option R :=
  match r with
  | Eps => k prev s g
  | Lit c =>
      match s with
      | String x s' => if lit_ci c x then k (Some x) s' g else None
      | EmptyString => None
      end
  | Cls p =>
      match s with
      | String x s' => if cls_ci p x then k (Some x) s' g else None
      | EmptyString => None
      end
  | Seq r1 r2 => rmatch r1 (rmatch r2 k) prev s g
  | Opt r1 =>
      match rmatch r1 k prev s g with
      | Some x => Some x
      | None => k prev s g
      end
  | Star p => star_match (cls_ci p) k prev s g
  | WordB =>
      if xorb (isword_opt prev) (isword_opt (peek s)) then k prev s g else None
  | Group r1 =>
      rmatch r1
        (fun prev' s' _ =>
           k prev' s' (Some (take (String.length s - String.length s') s)))
        prev s g
  end.
End Matcher.

(** A match object, reduced to what the callers read: [group(1)]. *)
Definition accept : @cont (option string) := fun _ _ g => Some g.

Fixpoint search_at (r : regex) (prev : option ascii) (s : string)
    : option (option string) :=
  match rmatch r accept prev s None with
  | Some g => Some g
  | None =>
      match s with
      | String c s' => search_at r (Some c) s'
      | EmptyString => None
      end
  end.

(** [re.search(pattern, s, re.IGNORECASE)] *)
Definition search (r : regex) (s : string) : option (option string) :=
  search_at r None s.

End Re.

Import Re.

(** ** agent_executor.py: [DynatraceAgentExecutor] *)

Module Executor.

Definition is_char (a : ascii) : ascii -> bool := fun c => Ascii.eqb c a.

(** The character set [[A-Z0-9_-]]. *)
Definition id_char (c : ascii) : bool :=
  isupper c || isdigit c || is_char "_" c || is_char "-" c.

(** The three patterns of [_extract_problem_id], in source order:
    [\b(P-\d+)\b], [\bproblem\s+(?:id\s+)?[#]?(\d+)\b] and
    [\b([A-Z0-9_-]+_\d+V\d+)\b]. *)
Definition problem_id_patterns : list regex :=
  [ cat [WordB; Group (cat [Str "P-"; Plus isdigit]); WordB];
    cat [WordB; Str "problem"; Plus isspace;
         Opt (cat [Str "id"; Plus isspace]); Opt (Cls (is_char "#"));
         Group (Plus isdigit); WordB];
    cat [WordB;
         Group (cat [Plus id_char; Lit "_"; Plus isdigit; Lit "V"; Plus isdigit]);
         WordB] ].

(** [for pattern in patterns: match = re.search(...); if match: return ...] *)
Fixpoint first_match {A : Type} (ps : list (regex * (option string -> A)))
    (query : string) : option A :=
  match ps with
  | [] => None
  | (r, f) :: rest =>
      match search r query with
      | Some g => Some (f g)
      | None => first_match rest query
      end
  end.

Definition _extract_problem_id (query : string) : option string :=
  match first_match (map (fun r => (r, fun g : option string => g))
                         problem_id_patterns) query with
  | Some g => g
  | None => None
  end.

(** [m.group(1)] of a pattern whose group takes part in every match. *)
Definition group1 (g : option string) : string :=
  match g with
  | Some t => t
  | None => "None"
  end.

Definition fmt_hours (g : option string) : string := group1 g ++ "h".
Definition fmt_days (g : option string) : string := group1 g ++ "d".
Definition fmt_weeks (g : option string) : string :=
  str_of_N (int_of_digits (group1 g) * 7) ++ "d".

Definition unit_re (u rest : string) : regex :=
  cat [Str u; Opt (Str rest); Opt (Str "s")].

(** The nine (pattern, formatter) pairs of [_extract_time_range]. *)
Definition time_range_patterns : list (regex * (option string -> string)) :=
  [ (cat [Str "last"; Plus isspace; Group (Plus isdigit); Star isspace;
          unit_re "h" "our"], fmt_hours);
    (cat [Str "last"; Plus isspace; Group (Plus isdigit); Star isspace;
          unit_re "d" "ay"], fmt_days);
    (cat [Str "last"; Plus isspace; Group (Plus isdigit); Star isspace;
          unit_re "w" "eek"], fmt_weeks);
    (cat [Str "past"; Plus isspace; Group (Plus isdigit); Star isspace;
          unit_re "h" "our"], fmt_hours);
    (cat [Str "past"; Plus isspace; Group (Plus isdigit); Star isspace;
          unit_re "d" "ay"], fmt_days);
    (cat [Group (Plus isdigit); Star isspace; unit_re "h" "our";
          Plus isspace; Str "ago"], fmt_hours);
    (cat [Group (Plus isdigit); Star isspace; unit_re "d" "ay";
          Plus isspace; Str "ago"], fmt_days);
    (Str "today", fun _ => "24h");
    (cat [Str "this"; Plus isspace; Str "week"], fun _ => "7d") ].

Definition _extract_time_range (query : string) : string :=
  match first_match time_range_patterns query with
  | Some t => t
  | None => "24h"
  end.

(** [for keyword, value in mapping.items(): if keyword in query_lower:
    return value] over a dict literal, in insertion order. *)
Fixpoint first_keyword (table : list (string * string)) (query_lower : string)
    : option string :=
  match table with
  | [] => None
  | (keyword, value) :: rest =>
      if contains keyword query_lower then Some value
      else first_keyword rest query_lower
  end.

Definition entity_mappings : list (string * string) :=
  [ ("service", "SERVICE"); ("services", "SERVICE");
    ("host", "HOST"); ("hosts", "HOST");
    ("server", "HOST"); ("servers", "HOST");
    ("process", "PROCESS_GROUP"); ("processes", "PROCESS_GROUP");
    ("application", "APPLICATION"); ("applications", "APPLICATION");
    ("database", "DATABASE"); ("databases", "DATABASE") ].

Definition _extract_entity_type (query : string) : option string :=
  first_keyword entity_mappings (lower query).

Definition metric_mappings : list (string * string) :=
  [ ("cpu", "cpu"); ("processor", "cpu");
    ("memory", "memory"); ("ram", "memory");
    ("disk", "disk"); ("storage", "disk");
    ("response time", "response_time"); ("latency", "response_time");
    ("error rate", "error_rate"); ("errors", "error_rate");
    ("throughput", "throughput"); ("requests", "throughput");
    ("availability", "availability"); ("uptime", "availability");
    ("network", "network"); ("traffic", "network") ].

Definition _extract_metric_type (query : string) : option string :=
  first_keyword metric_mappings (lower query).

(** The keyword lists of [_parse_intent]. *)
Definition analysis_verbs : list string :=
  ["analyze"; "detail"; "investigate"; "what"; "explain"; "tell me about"].
Definition root_cause_phrases : list string :=
  ["root cause"; "rca"; "why is"; "what caused"; "investigate"].
Definition problem_words : list string :=
  ["problem"; "problems"; "alert"; "alerts"; "issue"; "issues"; "incident"].
Definition topology_words : list string :=
  ["topology"; "dependencies"; "architecture"; "map"].
Definition topology_phrases : list string :=
  ["list services"; "show services"; "all services";
   "list hosts"; "show hosts"; "all hosts"].
Definition metric_words : list string :=
  ["metric"; "metrics"; "performance"; "usage"].
Definition deployment_words : list string :=
  ["deploy"; "deployment"; "deployments"; "release"; "releases";
   "change"; "changes"].
Definition health_phrases : list string :=
  ["health"; "status"; "overview"; "summary"; "how is"; "how's"; "dashboard"].

(** A parameter dict: keys in the order of the literal, [None] for Python's
    [None]. *)
Definition params : Type := list (string * option string).

Definition _parse_intent (query : string) : string * params :=
  let query_lower := strip (lower query) in
  let problem_id := _extract_problem_id query in
  if truthy problem_id && any_in analysis_verbs query_lower then
    ("analyze_problem", [("problem_id", problem_id)])
  else if any_in root_cause_phrases query_lower then
    let problem_id := _extract_problem_id query in
    let symptoms := if negb (truthy problem_id) then Some query else None in
    ("root_cause_analysis", [("problem_id", problem_id); ("symptoms", symptoms)])
  else if any_in problem_words query_lower then
    let status :=
      if contains "open" query_lower then Some "OPEN"
      else if contains "closed" query_lower then Some "CLOSED"
      else None in
    let severity :=
      if contains "critical" query_lower || contains "availability" query_lower
      then Some "AVAILABILITY"
      else if contains "error" query_lower then Some "ERROR"
      else if contains "performance" query_lower || contains "slow" query_lower
      then Some "PERFORMANCE"
      else None in
    let time_range := _extract_time_range query in
    ("list_problems",
     [("status", status); ("severity", severity); ("time_range", Some time_range)])
  else if any_in topology_words query_lower then
    let entity_type := or_else (_extract_entity_type query) "SERVICE" in
    ("get_topology", [("entity_type", Some entity_type)])
  else if any_in topology_phrases query_lower then
    let entity_type := or_else (_extract_entity_type query) "SERVICE" in
    ("get_topology", [("entity_type", Some entity_type)])
  else
    let metric_type := _extract_metric_type query in
    if truthy metric_type || any_in metric_words query_lower then
      let entity_type := _extract_entity_type query in
      let time_range := _extract_time_range query in
      ("query_metrics",
       [("metric", Some (or_else metric_type "cpu"));
        ("entity_type", entity_type);
        ("time_range", Some time_range)])
    else if any_in deployment_words query_lower then
      let time_range := _extract_time_range query in
      ("get_deployments", [("time_range", Some time_range)])
    else if any_in health_phrases query_lower then
      ("health_summary", [])
    else
      ("query", [("question", Some query)]).

End Executor.

Import Executor.


(** ** The monitoring API as the client sees it *)

Module Api.

(** A value of a query-string dict. *)
Inductive pval : Type :=
| VStr (s : string)
| VInt (z : Z).

Record request : Type := Request {
  method : string;
  endpoint : string;
  query_params : list (string * pval)
}.

(** A problem object.  A field is [None] when the key is absent; a key
    that is present holds a string, as the API documents. *)
Record problem : Type := Problem {
  problemId : option string;
  displayId : option string;
  title : option string;
  status : option string;
  severityLevel : option string
}.

Record problems_response : Type := ProblemsResponse {
  totalCount : option Z;
  problems : option (list problem)
}.

(** One series of a metric: JSON numbers are held as the doubles they
    decode to (exact for integers up to 2^53), [None] is JSON [null]. *)
Record series : Type := Series {
  dimensions : option (list string);
  timestamps : option (list Z);
  values : option (list (option float))
}.

Record metric : Type := Metric {
  metricId : option string;
  data : option (list series)
}.

Record metrics_response : Type := MetricsResponse {
  result : option (list metric)
}.

(** The decoded body of a response. *)
Inductive body : Type :=
| ProblemsBody (r : problems_response)
| ProblemBody (p : problem)
| MetricsBody (r : metrics_response)
| OtherBody.

Inductive exn : Type :=
| ValueError (msg : string)
| HTTPError (msg : string).

(** [str(e)] *)
Definition str_of_exn (e : exn) : string :=
  match e with
  | ValueError msg => msg
  | HTTPError msg => msg
  end.

Inductive outcome (A : Type) : Type :=
| Returns (a : A)
| Raises (e : exn).
Arguments Returns {A} a.
Arguments Raises {A} e.

(** [d.get(key, default)] on an optional field. *)
Definition get {A : Type} (field : option A) (default : A) : A :=
  match field with
  | Some a => a
  | None => default
  end.

(** A computation that talks to the API: it reads the log of the requests
    sent so far and extends it.  The server is a function of the request
    and of that log, so two equal requests may be answered differently. *)
Definition server : Type := list request -> request -> outcome body.
Definition api (A : Type) : Type := server -> list request -> list request * outcome A.

Definition ret {A : Type} (a : A) : api A := fun _ log => (log, Returns a).
Definition raise {A : Type} (e : exn) : api A := fun _ log => (log, Raises e).
Definition bind {A B : Type} (m : api A) (k : A -> api B) : api B :=
  fun srv log =>
    match m srv log with
    | (log', Returns a) => k a srv log'
    | (log', Raises e) => (log', Raises e)
    end.
(** [try: m except Exception as e: h(e)] *)
Definition try_except {A : Type} (m : api A) (h : exn -> api A) : api A :=
  fun srv log =>
    match m srv log with
    | (log', Returns a) => (log', Returns a)
    | (log', Raises e) => h e srv log'
    end.
Definition run {A : Type} (m : api A) (srv : server) : list request * outcome A :=
  m srv [].

End Api.

Import Api.

Declare Scope api_scope.
Delimit Scope api_scope with api.
Notation "x <- m ;; k" := (bind m (fun x => k))
  (at level 61, m at next level, right associativity) : api_scope.

(** ** dynatrace_client.py: [DynatraceClient] *)

Module Client.

Local Open Scope api_scope.

(** [_make_request]: send one request, [raise_for_status], decode. *)
Definition _make_request (method endpoint : string)
    (params : list (string * pval)) : api body :=
  fun srv log =>
    let req := Request method endpoint params in
    ((log ++ [req])%list, srv log req).

Definition problems_of (b : body) : list problem :=
  match b with
  | ProblemsBody r => get (problems r) []
  | _ => []
  end.

Definition default_fields : string :=
  "+evidenceDetails,+impactAnalysis,+recentComments".

Definition search_request (display_id : string) : request :=
  Request "GET" "/problems"
    [ ("problemSelector", VStr ("displayId(" ++ dquote ++ display_id ++ dquote ++ ")"));
      ("pageSize", VInt 1);
      ("from", VStr "now-90d") ].

Definition detail_request (problem_id fields : string) : request :=
  Request "GET" ("/problems/" ++ problem_id)
    (match fields with
     | EmptyString => []
     | _ => [("fields", VStr fields)]
     end).

Definition get_problem_details (problem_id fields : string) : api body :=
  problem_id <-
    (if startswith "P-" (upper problem_id) then
       let display_id := upper problem_id in
       search_result <- _make_request "GET" "/problems"
                          (query_params (search_request display_id)) ;;
       match problems_of search_result with
       | [] => raise (ValueError ("Problem " ++ display_id ++ " not found"))
       | first :: _ =>
           let internal_id := problemId first in
           if negb (truthy internal_id) then
             raise (ValueError ("Could not resolve internal ID for " ++ display_id))
           else ret (get internal_id EmptyString)
       end
     else ret problem_id) ;;
  _make_request "GET" ("/problems/" ++ problem_id)
    (query_params (detail_request problem_id fields)).

(** [query_metrics]: the request for data points. *)
Definition query_metrics (metric_selector : string) (entity_selector : option string)
    (from_time to_time resolution : string) : api body :=
  let params :=
    [ ("metricSelector", VStr metric_selector);
      ("from", VStr from_time);
      ("to", VStr to_time);
      ("resolution", VStr resolution) ] in
  let params :=
    if truthy entity_selector
    then (params ++ [("entitySelector", VStr (get entity_selector EmptyString))])%list
    else params in
  _make_request "GET" "/metrics/query" params.

(** *** Formatting helpers *)

Definition no_problems_message : string :=
  "✅ No problems found in the specified timeframe.".

Definition problem_line (p : problem) : string :=
  let status := get (status p) "UNKNOWN" in
  let severity := get (severityLevel p) EmptyString in
  let title := get (title p) "Unknown" in
  let display_id := get (displayId p) EmptyString in
  let status_emoji := if String.eqb status "OPEN" then "🔴" else "🟢" in
  status_emoji ++ " **" ++ display_id ++ "** - " ++ title ++ " [" ++ severity ++ "]".

Definition problem_list_header (total : Z) : string :=
  "# 🔍 Dynatrace Problems (" ++ str_of_Z total ++ " total)" ++ nl.

Definition more_problems_line (total : Z) : string :=
  nl ++ "... and " ++ str_of_Z (total - 10) ++ " more problems".

(** The pieces [format_problem_list] appends to [output]. *)
Definition problem_list_output (total : Z) (problems : list problem) : list string :=
  ([problem_list_header total]
   ++ map problem_line (firstn 10 problems)
   ++ (if (10 <? total)%Z then [more_problems_line total] else []))%list.

Definition format_problem_list (problems_response : problems_response) : string :=
  let total := get (totalCount problems_response) 0%Z in
  let problems := get (problems problems_response) [] in
  if (total =? 0)%Z then no_problems_message
  else join nl (problem_list_output total problems).

(** *** Numbers as [format_metrics_data] handles them *)

Definition float_of_Z (z : Z) : float :=
  SF2Prim (binary_normalize prec emax z 0 false).

(** The integer nearest to [n * 2^e], ties to the even one. *)
Definition round_half_even (n e : Z) : Z :=
  if (0 <=? e)%Z then (n * 2 ^ e)%Z
  else
    let d := (2 ^ (- e))%Z in
    let q := (n / d)%Z in
    let r := (n mod d)%Z in
    if (2 * r <? d)%Z then q
    else if (d <? 2 * r)%Z then (q + 1)%Z
    else if Z.even q then q else (q + 1)%Z.

Definition two_digits (n : Z) : string :=
  if (n <? 10)%Z then "0" ++ str_of_Z n else str_of_Z n.

Definition sign_text (negative : bool) : string :=
  if negative then "-" else EmptyString.

(** [f"{x:.2f}"]: the decimal with two places nearest to the double. *)
Definition format_2f (x : float) : string :=
  match Prim2SF x with
  | S754_zero s => sign_text s ++ "0.00"
  | S754_infinity s => sign_text s ++ "inf"
  | S754_nan => "nan"
  | S754_finite s m e =>
      let h := round_half_even (Z.pos m * 100) e in
      sign_text s ++ str_of_Z (h / 100) ++ "." ++ two_digits (h mod 100)
  end.

(** [min] and [max] of a non-empty list, scanning left to right. *)
Definition py_min (first : float) (rest : list float) : float :=
  fold_left (fun m x => if PrimFloat.ltb x m then x else m) rest first.
Definition py_max (first : float) (rest : list float) : float :=
  fold_left (fun m x => if PrimFloat.ltb m x then x else m) rest first.

(** [sum]: the additions from left to right, starting at 0 (interpreters
    that compensate the rounding error agree on every exact sum). *)
Definition py_sum (l : list float) : float :=
  fold_left PrimFloat.add l (float_of_Z 0).

(** [[v for v in values if v is not None]] *)
Fixpoint valid_values (values : list (option float)) : list float :=
  match values with
  | [] => []
  | Some v :: rest => v :: valid_values rest
  | None :: rest => valid_values rest
  end.

Definition nonempty {A : Type} (l : list A) : bool :=
  match l with
  | [] => false
  | _ :: _ => true
  end.

Section Formatting.
(** [datetime.fromtimestamp(ms / 1000).strftime("%H:%M:%S")]: the clock
    time of an epoch-millisecond stamp in the host's time zone. *)
Variable strftime_HMS : Z -> string.

Definition latest_output (values : list (option float)) (timestamps : list Z)
    : list string :=
  let latest_value := last values None in
  let latest_time := strftime_HMS (last timestamps 0%Z) in
  match latest_value with
  | Some v => ["**Latest (" ++ latest_time ++ "):** " ++ format_2f v]
  | None => []
  end.

Definition stats_output (values : list (option float)) : list string :=
  match valid_values values with
  | [] => []
  | v :: rest =>
      let n := float_of_Z (Z.of_nat (List.length (v :: rest))) in
      [ "**Range:** " ++ format_2f (py_min v rest) ++ " - "
          ++ format_2f (py_max v rest);
        "**Average:** " ++ format_2f (PrimFloat.div (py_sum (v :: rest)) n) ]
  end.

Definition dimensions_output (dimensions : list string) : list string :=
  if nonempty dimensions
  then ["**Dimensions:** " ++ join ", " dimensions] else [].

Definition series_output (s : series) : list string :=
  let dimensions := get (dimensions s) [] in
  let timestamps := get (timestamps s) [] in
  let values := get (values s) [] in
  (dimensions_output dimensions
   ++ (if nonempty values && nonempty timestamps
       then latest_output values timestamps ++ stats_output values
       else [])
   ++ [EmptyString])%list.

Definition metric_output (m : metric) : list string :=
  let metric_id := get (metricId m) "Unknown" in
  let data := get (data m) [] in
  ("## " ++ metric_id ++ nl) :: flat_map series_output (firstn 5 data).

Definition format_metrics_data (metrics_response : metrics_response) : string :=
  match get (result metrics_response) [] with
  | [] => "📊 No metric data found."
  | results =>
      join nl (("# 📊 Metrics Data" ++ nl) :: flat_map metric_output results)
  end.
End Formatting.

End Client.

(** ** dynatrace_agent.py: [DynatraceAgent] *)

Module Agent.

Local Open Scope api_scope.

(** *** The narrative augmenter *)

(** What one [generate_content] call does: it yields a response whose
    [text] is a string or [None], or it raises and [str(e)] is the text
    given here. *)
Inductive llm_reply : Type :=
| Response (text : option string)
| Failure (error_str : string).

(** The language-model endpoint: the reply to the [n]-th call of an
    invocation, for a model and a prompt. *)
Definition llm : Type := nat -> string -> string -> llm_reply.

Definition full_prompt (prompt context : string) : string :=
  "You are an expert SRE/DevOps engineer analyzing Dynatrace monitoring data."
  ++ nl ++ "Provide concise, actionable insights." ++ nl ++ nl
  ++ context ++ nl ++ nl ++ prompt.

Definition rate_limit_notice : string :=
  "⚠️ AI analysis temporarily unavailable (rate limit). Dynatrace data shown above.".

Definition unavailable_notice : string := "⚠️ AI analysis unavailable".

(** [str(e)] of the exception a call ends in, if it ends in one:
    [response.text.strip()] raises [AttributeError] on a [None] text. *)
Definition error_of (r : llm_reply) : option string :=
  match r with
  | Response (Some _) => None
  | Response None => Some "'NoneType' object has no attribute 'strip'"
  | Failure error_str => Some error_str
  end.

Definition is_rate_limit (error_str : string) : bool :=
  contains "429" error_str || contains "RESOURCE_EXHAUSTED" error_str.

Definition models_to_try (self_model : string) : list string :=
  [self_model; "gemini-1.5-flash"; "gemini-1.5-pro"].

Section Augmenter.
Variable generate_content : llm.
Variable full : string.

(** The [for model in models_to_try] loop from the [n]-th call on;
    [final] is [models_to_try[-1]].  The result is the list of models
    called and the text returned. *)
Fixpoint try_models (final : string) (n : nat) (models : list string)
    : list string * string :=
  match models with
  | [] => ([], unavailable_notice)
  | model :: rest =>
      match generate_content n model full with
      | Response (Some text) => ([model], strip text)
      | reply =>
          let error_str := get (error_of reply) EmptyString in
          if is_rate_limit error_str then
            if negb (String.eqb model final) then
              let (called, answer) := try_models final (S n) rest in
              (model :: called, answer)
            else ([model], rate_limit_notice)
          else ([model], "AI analysis error: " ++ take 100 error_str)
      end
  end.
End Augmenter.

Definition _ai_analyze_trace (generate_content : llm) (self_model : string)
    (prompt context : string) : list string * string :=
  let models := models_to_try self_model in
  try_models generate_content (full_prompt prompt context)
    (last models EmptyString) 0 models.

Definition _ai_analyze (generate_content : llm) (self_model : string)
    (prompt context : string) : string :=
  snd (_ai_analyze_trace generate_content self_model prompt context).

(** *** The prompts of the four skills that call the augmenter

    [json.dumps] is not modelled: a builder takes the serialized text. *)

Definition lines (l : list string) : string := join nl l.

(** [ai_context] of [analyze_problem]; [evidence_dump] is
    [json.dumps(evidence_list[:3], indent=2)], or [None] for an empty
    list. *)
Definition analyze_problem_context (title severity impact : string)
    (affected_count evidence_count : nat) (evidence_dump : option string) : string :=
  nl ++ "Problem: " ++ title ++ nl
  ++ "Severity: " ++ severity ++ nl
  ++ "Impact: " ++ impact ++ nl
  ++ "Affected Entities: " ++ str_of_N (N.of_nat affected_count) ++ nl
  ++ "Evidence Count: " ++ str_of_N (N.of_nat evidence_count) ++ nl
  ++ nl
  ++ "Evidence Details:" ++ nl
  ++ get evidence_dump "None" ++ nl.

Definition analyze_problem_instruction : string :=
  lines [ "Based on this Dynatrace problem data, provide:";
          "1. **Likely Root Cause** (1-2 sentences)";
          "2. **Recommended Actions** (2-3 bullet points)";
          "3. **Risk Assessment** (Low/Medium/High with brief explanation)" ].

(** [ai_prompt] of [root_cause_analysis]; [context_dump] is
    [json.dumps(context_data, indent=2, default=str)]. *)
Definition rca_head (symptoms : option string) : string :=
  lines [ EmptyString;
          "Analyze the following Dynatrace monitoring data and provide a comprehensive root cause analysis.";
          EmptyString;
          if truthy symptoms
          then "Symptoms reported: " ++ get symptoms EmptyString
          else EmptyString;
          EmptyString;
          "Monitoring Data:";
          EmptyString ].

Definition rca_tail : string :=
  lines [ EmptyString; EmptyString;
          "Provide a structured analysis with:"; EmptyString;
          "## 🔍 Root Cause Analysis"; EmptyString;
          "### Primary Cause";
          "[Identify the most likely root cause]"; EmptyString;
          "### Contributing Factors";
          "[List secondary factors that may have contributed]"; EmptyString;
          "### Evidence Chain";
          "[Connect the dots between symptoms and root cause]"; EmptyString;
          "## 📊 Impact Assessment";
          "[Describe the scope and severity of impact]"; EmptyString;
          "## 🛠️ Recommended Actions"; EmptyString;
          "### Immediate Actions (Next 15 minutes)";
          "[List critical steps to mitigate]"; EmptyString;
          "### Short-term Actions (Next 24 hours)";
          "[List follow-up remediation steps]"; EmptyString;
          "### Preventive Measures";
          "[Suggest ways to prevent recurrence]"; EmptyString;
          "## ⚠️ Risk Assessment";
          "[Rate overall risk and urgency]";
          EmptyString ].

Definition rca_prompt (symptoms : option string) (context_dump : string) : string :=
  rca_head symptoms ++ take 4000 context_dump ++ rca_tail.

(** [ai_prompt] of [query]. *)
Definition query_head (question : string) : string :=
  lines [ EmptyString;
          "Question: " ++ question;
          EmptyString;
          "Available Dynatrace Data:";
          EmptyString ].

Definition query_tail : string :=
  lines [ EmptyString; EmptyString;
          "Provide a helpful, conversational answer to the question based on the monitoring data.";
          "If the data doesn't contain enough information to fully answer the question,";
          "explain what data would be needed and provide what insights you can.";
          EmptyString ].

Definition query_prompt (question context_dump : string) : string :=
  query_head question ++ take 4000 context_dump ++ query_tail.

(** [ai_context] of [get_health_summary]; [severity_dump] is
    [json.dumps(severity_counts)]. *)
Definition health_context (open_count : Z) (severity_dump : string)
    (release_count : Z) : string :=
  nl ++ "Open Problems: " ++ str_of_Z open_count ++ nl
  ++ "Severity Distribution: " ++ severity_dump ++ nl
  ++ "Recent Deployments: " ++ str_of_Z release_count ++ nl.

Definition health_instruction : string :=
  "Provide a brief 2-3 sentence executive summary of the environment health status. "
  ++ "Highlight any critical concerns or positive trends.".

(** The text each skill hands to the language model. *)
Definition analyze_problem_sent (title severity impact : string)
    (affected_count evidence_count : nat) (evidence_dump : option string) : string :=
  full_prompt analyze_problem_instruction
    (analyze_problem_context title severity impact affected_count
       evidence_count evidence_dump).

Definition root_cause_analysis_sent (symptoms : option string)
    (context_dump : string) : string :=
  full_prompt (rca_prompt symptoms context_dump) EmptyString.

Definition query_sent (question context_dump : string) : string :=
  full_prompt (query_prompt question context_dump) EmptyString.

Definition get_health_summary_sent (open_count : Z) (severity_dump : string)
    (release_count : Z) : string :=
  full_prompt health_instruction
    (health_context open_count severity_dump release_count).

(** *** Skill 4: [query_metrics] *)

Definition metric_mappings : list (string * string) :=
  [ ("cpu", "builtin:host.cpu.usage:avg");
    ("memory", "builtin:host.mem.usage:avg");
    ("disk", "builtin:host.disk.usedPct:avg");
    ("response_time", "builtin:service.response.time:avg");
    ("error_rate", "builtin:service.errors.total.rate:avg");
    ("throughput", "builtin:service.requestCount.total:avg");
    ("availability", "builtin:host.availability:avg");
    ("network", "builtin:host.net.nic.trafficIn:avg") ].

(** [mapping.get(key, default)] on a dict literal. *)
Fixpoint dict_get (mapping : list (string * string)) (key default : string) : string :=
  match mapping with
  | [] => default
  | (k, v) :: rest => if String.eqb k key then v else dict_get rest key default
  end.

Definition metrics_of (b : body) : metrics_response :=
  match b with
  | MetricsBody r => r
  | _ => MetricsResponse None
  end.

Definition query_metrics (strftime_HMS : Z -> string) (metric : string)
    (entity_type entity_id : option string) (time_range : string) : api string :=
  try_except
    (let metric_lower := replace_char " " "_" (lower metric) in
     let metric_selector := dict_get metric_mappings metric_lower metric in
     let entity_selector :=
       if truthy entity_id
       then Some ("entityId(" ++ dquote ++ get entity_id EmptyString ++ dquote ++ ")")
       else if truthy entity_type
       then Some ("type(" ++ dquote ++ get entity_type EmptyString ++ dquote ++ ")")
       else None in
     response <- Client.query_metrics metric_selector entity_selector
                   ("now-" ++ time_range) "now"
                   (if existsb (String.eqb time_range) ["1h"; "2h"]
                    then "10m" else "1h") ;;
     ret (Client.format_metrics_data strftime_HMS (metrics_of response)))
    (fun e => ret ("❌ Error querying metrics: " ++ str_of_exn e)).

End Agent.

(** * Properties *)

(** ** Facts about the string primitives *)

Module PyStrFacts.

Lemma length_append (a b : string) :
  String.length (a ++ b) = String.length a + String.length b.
Proof.
  induction a as [|c a IH]; simpl; [reflexivity | now rewrite IH].
Qed.

Lemma append_assoc (a b c : string) : (a ++ b) ++ c = a ++ (b ++ c).
Proof.
  induction a as [|x a IH]; simpl; [reflexivity | now rewrite IH].
Qed.

Lemma append_empty_r (a : string) : a ++ EmptyString = a.
Proof.
  induction a as [|x a IH]; simpl; [reflexivity | now rewrite IH].
Qed.

Lemma length_take (n : nat) (s : string) :
  String.length (take n s) = Nat.min n (String.length s).
Proof.
  revert s; induction n as [|n IH]; intros [|c s]; simpl; auto.
Qed.

Lemma take_all (n : nat) (s : string) :
  String.length s <= n -> take n s = s.
Proof.
  revert s; induction n as [|n IH]; intros [|c s]; simpl; intros H;
    try reflexivity; try lia.
  f_equal. apply IH. lia.
Qed.

Lemma length_lower (s : string) : String.length (lower s) = String.length s.
Proof.
  induction s as [|c s IH]; simpl; congruence.
Qed.

(** [startswith] and [contains] as decompositions of the subject. *)
Lemma startswith_iff (p s : string) :
  startswith p s = true <-> exists y, s = p ++ y.
Proof.
  revert s; induction p as [|a p IH]; intros s; simpl.
  - split; [intros _; now exists s | reflexivity].
  - destruct s as [|b s].
    + split; [discriminate | intros [y Hy]; discriminate].
    + rewrite andb_true_iff, Ascii.eqb_eq, IH. split.
      * intros [-> [y ->]]. now exists y.
      * intros [y Hy]. injection Hy as -> ->. split; [reflexivity | now exists y].
Qed.

Lemma contains_iff (p s : string) :
  contains p s = true <-> exists x y, s = x ++ p ++ y.
Proof.
  induction s as [|c s IH].
  - simpl. rewrite orb_false_r, startswith_iff. split.
    + intros [y Hy]. now exists EmptyString, y.
    + intros [x [y Hxy]]. destruct x; simpl in Hxy; [now exists y | discriminate].
  - simpl. rewrite orb_true_iff, IH, startswith_iff. split.
    + intros [[y Hy] | [x [y Hxy]]].
      * now exists EmptyString, y.
      * exists (String c x), y. simpl. now rewrite Hxy.
    + intros [x [y Hxy]]. destruct x as [|a x]; simpl in Hxy.
      * left. now exists y.
      * right. injection Hxy as _ ->. now exists x, y.
Qed.

(** A phrase found inside a word is found wherever the word is. *)
Lemma contains_trans (a b s : string) :
  contains a b = true -> contains b s = true -> contains a s = true.
Proof.
  rewrite !contains_iff. intros [x1 [y1 ->]] [x2 [y2 ->]].
  exists (x2 ++ x1), (y1 ++ y2). now rewrite !append_assoc.
Qed.

Lemma any_in_intro (ws : list string) (w s : string) :
  In w ws -> contains w s = true -> any_in ws s = true.
Proof.
  intros Hin Hc. unfold any_in. apply existsb_exists. now exists w.
Qed.

(** *** [strip] never hides or creates a keyword *)

Definition starts_nonspace (p : string) : bool :=
  match p with
  | EmptyString => false
  | String a _ => negb (isspace a)
  end.

Fixpoint ends_nonspace (p : string) : bool :=
  match p with
  | EmptyString => false
  | String a EmptyString => negb (isspace a)
  | String _ p' => ends_nonspace p'
  end.

Definition trimmed (p : string) : bool := starts_nonspace p && ends_nonspace p.

Lemma contains_lstrip (p s : string) :
  starts_nonspace p = true -> contains p (lstrip s) = contains p s.
Proof.
  destruct p as [|a p]; [discriminate|]. simpl. intros Ha.
  induction s as [|c s IH]; [reflexivity|].
  cbn [lstrip]. destruct (isspace c) eqn:Hc; [|reflexivity].
  rewrite IH. cbn [contains startswith].
  destruct (Ascii.eqb a c) eqn:Hac; [|reflexivity].
  apply Ascii.eqb_eq in Hac. subst c. rewrite Hc in Ha. discriminate.
Qed.

Lemma startswith_empty_r (p : string) :
  ends_nonspace p = true -> startswith p EmptyString = false.
Proof. destruct p; [discriminate | reflexivity]. Qed.

Lemma startswith_rstrip (p s : string) :
  ends_nonspace p = true -> startswith p (rstrip s) = startswith p s.
Proof.
  revert p; induction s as [|c s IH]; intros p Hp; [reflexivity|].
  destruct p as [|a p]; [discriminate|].
  cbn [rstrip]. destruct p as [|a' p].
  - (* the phrase is its last character *)
    simpl in Hp. destruct (rstrip s) as [|d r]; simpl.
    + destruct (isspace c) eqn:Hc; simpl.
      * destruct (Ascii.eqb a c) eqn:Hac; [|reflexivity].
        apply Ascii.eqb_eq in Hac. subst c. rewrite Hc in Hp. discriminate.
      * now rewrite andb_true_r.
    + now rewrite !andb_true_r.
  - assert (Hp' : ends_nonspace (String a' p) = true) by exact Hp.
    specialize (IH _ Hp').
    destruct (rstrip s) as [|d r] eqn:Hr.
    + cbn [startswith] in *.
      destruct (isspace c); cbn [startswith];
        destruct s; cbn [startswith] in *; rewrite <- ?IH;
        now rewrite ?andb_false_r.
    + cbn [startswith] in *. now rewrite IH.
Qed.

Lemma contains_rstrip_step (p : string) (c : ascii) (s : string) :
  contains p (rstrip (String c s))
  = startswith p (rstrip (String c s)) || contains p (rstrip s).
Proof.
  cbn [rstrip]. destruct (rstrip s) as [|d r]; [|reflexivity].
  destruct (isspace c); simpl; now rewrite ?orb_false_r, ?orb_diag.
Qed.

Lemma contains_rstrip (p s : string) :
  ends_nonspace p = true -> contains p (rstrip s) = contains p s.
Proof.
  intros Hp. induction s as [|c s IH]; [reflexivity|].
  rewrite contains_rstrip_step, startswith_rstrip, IH by assumption.
  reflexivity.
Qed.

Lemma contains_strip (p s : string) :
  trimmed p = true -> contains p (strip s) = contains p s.
Proof.
  unfold trimmed, strip. rewrite andb_true_iff. intros [H1 H2].
  now rewrite contains_rstrip, contains_lstrip.
Qed.

Lemma any_in_strip (ws : list string) (s : string) :
  forallb trimmed ws = true -> any_in ws (strip s) = any_in ws s.
Proof.
  unfold any_in. induction ws as [|w ws IH]; simpl; [reflexivity|].
  rewrite andb_true_iff. intros [Hw Hws].
  now rewrite contains_strip, IH.
Qed.

End PyStrFacts.

Import PyStrFacts.

(** ** Facts about the matcher *)

Module ReFacts.

(** A property of all 256 characters, decided by enumeration. *)
Definition all_ascii (f : ascii -> bool) : bool :=
  forallb (fun n => f (ascii_of_nat n)) (seq 0 256).

Lemma all_ascii_spec (f : ascii -> bool) :
  all_ascii f = true -> forall x, f x = true.
Proof.
  unfold all_ascii. rewrite forallb_forall. intros H x.
  rewrite <- (ascii_nat_embedding x). apply H.
  apply in_seq. pose proof (nat_ascii_bounded x). lia.
Qed.

Definition within (q P : ascii -> bool) : bool :=
  all_ascii (fun x => implb (q x) (P x)).

Lemma within_spec (q P : ascii -> bool) (x : ascii) :
  within q P = true -> q x = true -> P x = true.
Proof.
  intros H Hq. unfold within in H.
  pose proof (all_ascii_spec (fun x => implb (q x) (P x)) H x) as Hx. simpl in Hx.
  now rewrite Hq in Hx.
Qed.

Fixpoint all_chars (P : ascii -> bool) (t : string) : bool :=
  match t with
  | EmptyString => true
  | String c t' => P c && all_chars P t'
  end.

Lemma all_chars_app (P : ascii -> bool) (a b : string) :
  all_chars P (a ++ b) = all_chars P a && all_chars P b.
Proof.
  induction a as [|c a IH]; simpl; [reflexivity | now rewrite IH, andb_assoc].
Qed.

(** The least number of characters a match of [r] takes. *)
Fixpoint min_len (r : regex) : nat :=
  match r with
  | Lit _ | Cls _ => 1
  | Seq r1 r2 => min_len r1 + min_len r2
  | Group r1 => min_len r1
  | Eps | Opt _ | Star _ | WordB => 0
  end.

Fixpoint group_free (r : regex) : bool :=
  match r with
  | Group _ => false
  | Seq r1 r2 => group_free r1 && group_free r2
  | Opt r1 => group_free r1
  | Eps | Lit _ | Cls _ | Star _ | WordB => true
  end.

(** Every character [r] can take satisfies [P]. *)
Fixpoint atoms_in (P : ascii -> bool) (r : regex) : bool :=
  match r with
  | Eps | WordB => true
  | Lit c => within (lit_ci c) P
  | Cls q | Star q => within (cls_ci q) P
  | Seq r1 r2 => atoms_in P r1 && atoms_in P r2
  | Opt r1 => atoms_in P r1
  | Group _ => false
  end.

(** [r] sets group 1 on every match, to a non-empty text made of
    characters that satisfy [P]. *)
Fixpoint group_ok (P : ascii -> bool) (r : regex) : bool :=
  match r with
  | Group r1 => group_free r1 && atoms_in P r1 && (1 <=? min_len r1)%nat
  | Seq r1 r2 => (group_ok P r1 && group_free r2) || group_ok P r2
  | _ => false
  end.

Section Invariants.
Context {R : Type}.
Implicit Types (k : @cont R) (x : R).

Lemma star_match_text (q : ascii -> bool) k prev s g x :
  star_match q k prev s g = Some x ->
  exists prev' t s',
    k prev' s' g = Some x /\ s = t ++ s' /\ all_chars q t = true.
Proof.
  revert prev. induction s as [|c s IH]; intros prev H; simpl in H.
  - now exists prev, EmptyString, EmptyString.
  - destruct (q c) eqn:Hq.
    + destruct (star_match q k (Some c) s g) as [y|] eqn:Hs.
      * injection H as ->.
        destruct (IH _ Hs) as (prev' & t & s' & Hk & -> & Ht).
        exists prev', (String c t), s'. simpl. now rewrite Hq, Ht.
      * now exists prev, EmptyString, (String c s).
    + now exists prev, EmptyString, (String c s).
Qed.

(** What a group-free expression hands to its continuation. *)
Lemma rmatch_text (r : regex) :
  forall k prev s g x,
    group_free r = true ->
    rmatch r k prev s g = Some x ->
    exists prev' t s',
      k prev' s' g = Some x /\ s = t ++ s' /\ min_len r <= String.length t
      /\ forall P, atoms_in P r = true -> all_chars P t = true.
Proof.
  induction r as [|c|q|r1 IH1 r2 IH2|r1 IH1|q| |r1 IH1];
    intros k prev s g x Hgf H; simpl in H.
  - exists prev, EmptyString, s. repeat split; auto.
  - destruct s as [|a s]; [discriminate|].
    destruct (lit_ci c a) eqn:Hc; [|discriminate].
    exists (Some a), (String a EmptyString), s. repeat split; auto.
    intros P HP. simpl in *. now rewrite (within_spec _ _ _ HP Hc).
  - destruct s as [|a s]; [discriminate|].
    destruct (cls_ci q a) eqn:Hc; [|discriminate].
    exists (Some a), (String a EmptyString), s. repeat split; auto.
    intros P HP. simpl in *. now rewrite (within_spec _ _ _ HP Hc).
  - simpl in Hgf. apply andb_true_iff in Hgf as [Hg1 Hg2].
    destruct (IH1 _ _ _ _ _ Hg1 H) as (p1 & t1 & s1 & Hk1 & -> & Hl1 & Ha1).
    destruct (IH2 _ _ _ _ _ Hg2 Hk1) as (p2 & t2 & s2 & Hk2 & -> & Hl2 & Ha2).
    exists p2, (t1 ++ t2), s2. repeat split; auto.
    + now rewrite append_assoc.
    + simpl. rewrite length_append. lia.
    + intros P HP. simpl in HP. apply andb_true_iff in HP as [HP1 HP2].
      now rewrite all_chars_app, Ha1, Ha2.
  - simpl in Hgf. destruct (rmatch r1 k prev s g) as [y|] eqn:Hr.
    + injection H as ->.
      destruct (IH1 _ _ _ _ _ Hgf Hr) as (p1 & t1 & s1 & Hk1 & -> & _ & Ha1).
      exists p1, t1, s1. repeat split; auto. simpl. lia.
    + exists prev, EmptyString, s. repeat split; auto.
  - destruct (star_match_text _ _ _ _ _ _ H) as (p1 & t1 & s1 & Hk1 & -> & Ha1).
    exists p1, t1, s1. repeat split; auto; [simpl; lia|].
    intros P HP. simpl in HP. clear - HP Ha1.
    induction t1 as [|a t1 IH]; [reflexivity|]. simpl in *.
    apply andb_true_iff in Ha1 as [Ha Ht].
    now rewrite (within_spec _ _ _ HP Ha), IH.
  - destruct (xorb _ _); [|discriminate].
    exists prev, EmptyString, s. repeat split; auto.
  - discriminate.
Qed.

Lemma take_prefix (t s' : string) :
  take (String.length (t ++ s') - String.length s') (t ++ s') = t.
Proof.
  rewrite length_append. replace (_ + _ - _) with (String.length t) by lia.
  induction t as [|c t IH]; simpl; [now destruct s' | now rewrite IH].
Qed.

(** Any expression that matches reaches its continuation. *)
Lemma rmatch_any (r : regex) :
  forall k prev s g x,
    rmatch r k prev s g = Some x ->
    exists prev' s' g', k prev' s' g' = Some x.
Proof.
  induction r as [|c|q|r1 IH1 r2 IH2|r1 IH1|q| |r1 IH1];
    intros k prev s g x H; simpl in H.
  - now exists prev, s, g.
  - destruct s as [|a s]; [discriminate|].
    destruct (lit_ci c a); [|discriminate]. now exists (Some a), s, g.
  - destruct s as [|a s]; [discriminate|].
    destruct (cls_ci q a); [|discriminate]. now exists (Some a), s, g.
  - destruct (IH1 _ _ _ _ _ H) as (p1 & s1 & g1 & H1).
    exact (IH2 _ _ _ _ _ H1).
  - destruct (rmatch r1 k prev s g) as [y|] eqn:Hr.
    + injection H as ->. exact (IH1 _ _ _ _ _ Hr).
    + now exists prev, s, g.
  - destruct (star_match_text _ _ _ _ _ _ H) as (p1 & t1 & s1 & Hk1 & _).
    now exists p1, s1, g.
  - destruct (xorb _ _); [|discriminate]. now exists prev, s, g.
  - destruct (IH1 _ _ _ _ _ H) as (p1 & s1 & g1 & H1). eauto.
Qed.

Lemma rmatch_group (P : ascii -> bool) (r : regex) :
  forall k prev s g x,
    group_ok P r = true ->
    rmatch r k prev s g = Some x ->
    exists prev' s' t,
      k prev' s' (Some t) = Some x /\ t <> EmptyString /\ all_chars P t = true.
Proof.
  induction r as [|c|q|r1 IH1 r2 IH2|r1 IH1|q| |r1 IH1];
    intros k prev s g x Hok H; simpl in Hok; try discriminate.
  - simpl in H. apply orb_true_iff in Hok as [Hok | Hok].
    + apply andb_true_iff in Hok as [Hok1 Hgf2].
      destruct (IH1 _ _ _ _ _ Hok1 H) as (p1 & s1 & t & H1 & Hne & Ht).
      destruct (rmatch_text _ _ _ _ _ _ Hgf2 H1) as (p2 & t2 & s2 & H2 & _).
      now exists p2, s2, t.
    + destruct (rmatch_any _ _ _ _ _ _ H) as (p1 & s1 & g1 & H1).
      exact (IH2 _ _ _ _ _ Hok H1).
  - simpl in H. apply andb_true_iff in Hok as [Hok Hlen].
    apply andb_true_iff in Hok as [Hgf Hat].
    destruct (rmatch_text _ _ _ _ _ _ Hgf H)
      as (p1 & t & s1 & H1 & -> & Hl & Ha).
    rewrite take_prefix in H1. exists p1, s1, t. repeat split; auto.
    destruct (min_len r1); [discriminate|].
    destruct t; [simpl in Hl; lia | discriminate].
Qed.
End Invariants.

Lemma search_at_group (P : ascii -> bool) (r : regex) (s : string) :
  forall prev g,
    group_ok P r = true ->
    search_at r prev s = Some g ->
    exists t, g = Some t /\ t <> EmptyString /\ all_chars P t = true.
Proof.
  induction s as [|c s IH]; intros prev g Hok H; simpl in H.
  - destruct (rmatch r accept prev EmptyString None) as [y|] eqn:Hr;
      [|discriminate].
    injection H as ->.
    destruct (rmatch_group _ _ _ _ _ _ _ Hok Hr) as (p & s' & t & Hk & Hne & Ht).
    injection Hk as <-. now exists t.
  - destruct (rmatch r accept prev (String c s) None) as [y|] eqn:Hr.
    + injection H as ->.
      destruct (rmatch_group _ _ _ _ _ _ _ Hok Hr) as (p & s' & t & Hk & Hne & Ht).
      injection Hk as <-. now exists t.
    + exact (IH _ _ Hok H).
Qed.

(** *** Matching does not depend on the case of the subject *)

Lemma lower_ascii_idem (x : ascii) : lower_ascii (lower_ascii x) = lower_ascii x.
Proof.
  apply Ascii.eqb_eq.
  exact (all_ascii_spec
           (fun x => Ascii.eqb (lower_ascii (lower_ascii x)) (lower_ascii x))
           eq_refl x).
Qed.

Lemma case_cases (x : ascii) :
  lower_ascii x = x \/ (upper_ascii (lower_ascii x) = x /\ upper_ascii x = x).
Proof.
  pose proof (all_ascii_spec
    (fun x => Ascii.eqb (lower_ascii x) x
              || (Ascii.eqb (upper_ascii (lower_ascii x)) x
                  && Ascii.eqb (upper_ascii x) x))
    eq_refl x) as H.
  simpl in H. apply orb_true_iff in H as [H | H].
  - left. now apply Ascii.eqb_eq.
  - right. apply andb_true_iff in H as [H1 H2].
    split; now apply Ascii.eqb_eq.
Qed.

Lemma lit_ci_lower (c x : ascii) : lit_ci c (lower_ascii x) = lit_ci c x.
Proof. unfold lit_ci. now rewrite lower_ascii_idem. Qed.

Lemma cls_ci_lower (p : ascii -> bool) (x : ascii) :
  cls_ci p (lower_ascii x) = cls_ci p x.
Proof.
  unfold cls_ci. destruct (case_cases x) as [H | [H1 H2]].
  - now rewrite !H.
  - rewrite lower_ascii_idem, H1, H2.
    destruct (p x), (p (lower_ascii x)); reflexivity.
Qed.

Lemma isword_lower (x : ascii) : isword (lower_ascii x) = isword x.
Proof.
  apply eqb_prop.
  exact (all_ascii_spec
           (fun x => Bool.eqb (isword (lower_ascii x)) (isword x)) eq_refl x).
Qed.

Lemma take_lower (n : nat) (s : string) : take n (lower s) = lower (take n s).
Proof.
  revert s; induction n as [|n IH]; intros [|c s]; simpl; auto.
  now rewrite IH.
Qed.

Lemma lower_digits (t : string) : all_chars isdigit t = true -> lower t = t.
Proof.
  induction t as [|c t IH]; simpl; [reflexivity|].
  rewrite andb_true_iff. intros [Hc Ht]. rewrite IH by assumption. f_equal.
  pose proof (all_ascii_spec
    (fun x => implb (isdigit x) (Ascii.eqb (lower_ascii x) x)) eq_refl c) as H.
  simpl in H. rewrite Hc in H. now apply Ascii.eqb_eq.
Qed.

Section CaseInvariance.
Context {R R' : Type} (h : R -> R').

(** [k'] does on the lowered subject what [k] does on the subject. *)
Definition follows (k : @cont R) (k' : @cont R') : Prop :=
  forall prev s g,
    k' (option_map lower_ascii prev) (lower s) (option_map lower g)
    = option_map h (k prev s g).

Lemma star_match_lower (q : ascii -> bool) (k : @cont R) (k' : @cont R') :
  follows k k' ->
  forall s prev g,
    star_match (cls_ci q) k' (option_map lower_ascii prev) (lower s)
      (option_map lower g)
    = option_map h (star_match (cls_ci q) k prev s g).
Proof.
  intros Hk. induction s as [|c s IH]; intros prev g.
  - apply (Hk prev EmptyString g).
  - cbn [lower star_match]. rewrite cls_ci_lower.
    destruct (cls_ci q c); [|apply (Hk prev (String c s) g)].
    specialize (IH (Some c) g). cbn [option_map] in IH. rewrite IH.
    destruct (star_match (cls_ci q) k (Some c) s g); [reflexivity|].
    apply (Hk prev (String c s) g).
Qed.
End CaseInvariance.

Lemma rmatch_lower (r : regex) :
  forall (R R' : Type) (h : R -> R') (k : @cont R) (k' : @cont R'),
    follows h k k' ->
    forall prev s g,
      rmatch r k' (option_map lower_ascii prev) (lower s) (option_map lower g)
      = option_map h (rmatch r k prev s g).
Proof.
  induction r as [|c|q|r1 IH1 r2 IH2|r1 IH1|q| |r1 IH1];
    intros R R' h k k' Hk prev s g; cbn [rmatch].
  - apply Hk.
  - destruct s as [|a s]; [reflexivity|]. cbn [lower]. rewrite lit_ci_lower.
    destruct (lit_ci c a); [|reflexivity]. apply (Hk (Some a) s g).
  - destruct s as [|a s]; [reflexivity|]. cbn [lower]. rewrite cls_ci_lower.
    destruct (cls_ci q a); [|reflexivity]. apply (Hk (Some a) s g).
  - apply IH1. intros p1 s1 g1. now apply IH2.
  - rewrite (IH1 _ _ h k k' Hk).
    destruct (rmatch r1 k prev s g); [reflexivity | apply Hk].
  - now apply star_match_lower.
  - replace (isword_opt (option_map lower_ascii prev)) with (isword_opt prev)
      by (destruct prev; simpl; now rewrite ?isword_lower).
    replace (isword_opt (peek (lower s))) with (isword_opt (peek s))
      by (destruct s; simpl; now rewrite ?isword_lower).
    destruct (xorb _ _); [apply Hk | reflexivity].
  - apply IH1. intros p1 s1 g1.
    rewrite !length_lower, take_lower.
    apply (Hk p1 s1 (Some (take (String.length s - String.length s1) s))).
Qed.

Lemma search_at_lower (r : regex) (s : string) :
  forall prev,
    search_at r (option_map lower_ascii prev) (lower s)
    = option_map (option_map lower) (search_at r prev s).
Proof.
  assert (Hacc : follows (option_map lower) accept accept)
    by (intros p s0 g; reflexivity).
  induction s as [|c s IH]; intros prev.
  - cbn [search_at lower].
    pose proof (rmatch_lower r _ _ _ _ _ Hacc prev EmptyString None) as H.
    cbn [lower option_map] in H. rewrite H.
    now destruct (rmatch r accept prev EmptyString None).
  - cbn [search_at lower].
    pose proof (rmatch_lower r _ _ _ _ _ Hacc prev (String c s) None) as H.
    cbn [lower option_map] in H. rewrite H.
    destruct (rmatch r accept prev (String c s) None); [reflexivity|].
    apply (IH (Some c)).
Qed.

Lemma search_lower (r : regex) (s : string) :
  search r (lower s) = option_map (option_map lower) (search r s).
Proof. apply (search_at_lower r s None). Qed.

End ReFacts.

Import ReFacts.

(** ** Facts about the executor *)

Module ExecutorFacts.

Lemma first_match_none {A : Type} (ps : list (regex * (option string -> A)))
    (query : string) :
  (forall r f, In (r, f) ps -> search r query = None) ->
  first_match ps query = None.
Proof.
  induction ps as [|[r f] ps IH]; intros H; simpl; [reflexivity|].
  rewrite (H r f) by now left.
  apply IH. intros r' f' Hin. apply (H r' f'). now right.
Qed.

(** The first pattern of the list that matches decides, wherever in the
    text the later ones would match. *)
Lemma first_match_priority {A : Type}
    (before after : list (regex * (option string -> A)))
    (r : regex) (f : option string -> A) (query : string) (g : option string) :
  (forall r' f', In (r', f') before -> search r' query = None) ->
  search r query = Some g ->
  first_match (before ++ (r, f) :: after) query = Some (f g).
Proof.
  induction before as [|[r0 f0] before IH]; intros Hb Hr; simpl.
  - now rewrite Hr.
  - rewrite (Hb r0 f0) by now left.
    apply IH; [|assumption]. intros r' f' Hin. apply (Hb r' f'). now right.
Qed.

Lemma first_match_group (P : ascii -> bool) (rs : list regex) (query : string)
    (g : option string) :
  forallb (group_ok P) rs = true ->
  first_match (map (fun r => (r, fun g : option string => g)) rs) query = Some g ->
  exists t, g = Some t /\ t <> EmptyString /\ all_chars P t = true.
Proof.
  induction rs as [|r rs IH]; simpl; [discriminate|].
  rewrite andb_true_iff. intros [Hr Hrs].
  destruct (search r query) as [g0|] eqn:Hs.
  - intros H. injection H as <-. exact (search_at_group P r query None g0 Hr Hs).
  - now apply IH.
Qed.

(** An extracted problem identifier is never the empty string, so it
    counts as true in [if problem_id and ...]. *)
Lemma problem_id_truthy (query pid : string) :
  _extract_problem_id query = Some pid -> truthy (Some pid) = true.
Proof.
  unfold _extract_problem_id.
  destruct (first_match _ query) as [g|] eqn:Hm; [|discriminate].
  intros ->.
  destruct (first_match_group (fun _ => true) problem_id_patterns query
              (Some pid)) as (t & Ht & Hne & _); [now vm_compute | exact Hm |].
  injection Ht as ->. now destruct t.
Qed.

Lemma parse_intent_analyze (query : string) :
  truthy (_extract_problem_id query) && any_in analysis_verbs (lower query) = true ->
  _parse_intent query
  = ("analyze_problem", [("problem_id", _extract_problem_id query)]).
Proof.
  intros H. unfold _parse_intent.
  rewrite (any_in_strip analysis_verbs) by reflexivity.
  now rewrite H.
Qed.

Lemma parse_intent_root_cause (query : string) :
  truthy (_extract_problem_id query) && any_in analysis_verbs (lower query) = false ->
  any_in root_cause_phrases (lower query) = true ->
  _parse_intent query
  = ("root_cause_analysis",
     [("problem_id", _extract_problem_id query);
      ("symptoms",
       if negb (truthy (_extract_problem_id query)) then Some query else None)]).
Proof.
  intros H1 H2. unfold _parse_intent.
  rewrite (any_in_strip analysis_verbs) by reflexivity.
  rewrite (any_in_strip root_cause_phrases) by reflexivity.
  now rewrite H1, H2.
Qed.

Lemma analyze_rule_off (query : string) :
  _extract_problem_id query = None \/ any_in analysis_verbs (lower query) = false ->
  truthy (_extract_problem_id query) && any_in analysis_verbs (lower query) = false.
Proof.
  intros [-> | ->]; [reflexivity | apply andb_false_r].
Qed.

(** Which formatters may see the case of the text they are given. *)
Definition case_blind (p : regex * (option string -> string)) : Prop :=
  group_ok isdigit (fst p) = true \/ forall g g', snd p g = snd p g'.

Lemma time_range_patterns_case_blind : Forall case_blind time_range_patterns.
Proof.
  unfold time_range_patterns.
  repeat (apply Forall_cons;
          [first [left; vm_compute; reflexivity | right; reflexivity]|]).
  apply Forall_nil.
Qed.

Lemma first_match_lower (ps : list (regex * (option string -> string)))
    (query : string) :
  Forall case_blind ps ->
  first_match ps (lower query) = first_match ps query.
Proof.
  induction 1 as [|[r f] ps Hp _ IH]; simpl; [reflexivity|].
  rewrite search_lower.
  destruct (search r query) as [g|] eqn:Hs; simpl; [|exact IH].
  f_equal. destruct Hp as [Hok | Hconst]; [|apply Hconst]. simpl in Hok.
  destruct (search_at_group isdigit r query None g Hok Hs) as (t & -> & _ & Ht).
  simpl. now rewrite lower_digits.
Qed.

Lemma extract_time_range_lower (query : string) :
  _extract_time_range (lower query) = _extract_time_range query.
Proof.
  unfold _extract_time_range.
  now rewrite first_match_lower by exact time_range_patterns_case_blind.
Qed.

End ExecutorFacts.

Import ExecutorFacts.

(** ** The classifier's claims *)

(** C1. Rule priority.  A query whose lowercased text holds a root-cause
    phrase and problem vocabulary, and that does not satisfy the
    analyze-problem rule (no problem identifier is extracted, or no
    analysis verb occurs), is classified root_cause_analysis and not
    list_problems.  A query from which a problem identifier is extracted
    and whose lowercased text holds the word investigate is classified
    analyze_problem with that identifier, because that rule is tried
    first. *)
Theorem C1_rule_priority (query : string) :
  (any_in root_cause_phrases (lower query) = true ->
   any_in problem_words (lower query) = true ->
   _extract_problem_id query = None
   \/ any_in analysis_verbs (lower query) = false ->
   fst (_parse_intent query) = "root_cause_analysis"
   /\ fst (_parse_intent query) <> "list_problems")
  /\ (forall pid,
        _extract_problem_id query = Some pid ->
        contains "investigate" (lower query) = true ->
        _parse_intent query = ("analyze_problem", [("problem_id", Some pid)])
        /\ fst (_parse_intent query) <> "root_cause_analysis").
Proof.
  split.
  - intros Hrc _ Hoff.
    rewrite (parse_intent_root_cause query (analyze_rule_off query Hoff) Hrc).
    split; [reflexivity | discriminate].
  - intros pid Hid Hinv.
    assert (H : truthy (_extract_problem_id query)
                && any_in analysis_verbs (lower query) = true).
    { rewrite Hid, (problem_id_truthy query pid Hid). simpl.
      apply (any_in_intro analysis_verbs "investigate"); [|exact Hinv].
      simpl. tauto. }
    rewrite (parse_intent_analyze query H), Hid.
    split; [reflexivity | discriminate].
Qed.

Lemma C1_rule_priority_witness :
  (fst (_parse_intent "why is there a problem") = "root_cause_analysis"
   /\ fst (_parse_intent "why is there a problem") <> "list_problems")
  /\ (_parse_intent "investigate P-12345"
      = ("analyze_problem", [("problem_id", Some "P-12345")])
      /\ fst (_parse_intent "investigate P-12345") <> "root_cause_analysis").
Proof.
  split.
  - apply (proj1 (C1_rule_priority "why is there a problem"));
      [reflexivity | reflexivity | left; reflexivity].
  - apply (proj2 (C1_rule_priority "investigate P-12345") "P-12345");
      reflexivity.
Defined.

(** C2. The query "Show me open problems from last 24 hours" is classified
    list_problems with status OPEN, time_range 24h and severity None. *)
Theorem C2_open_problems_last_24_hours :
  _parse_intent "Show me open problems from last 24 hours"
  = ("list_problems",
     [("status", Some "OPEN"); ("severity", None); ("time_range", Some "24h")]).
Proof. vm_compute. reflexivity. Qed.

(** ** The conversions an interpreter may refuse

    [int(...)] and the formatting of an integer raise [ValueError] in an
    interpreter that bounds the length of the digit strings it converts
    ([sys.get_int_max_str_digits()], 4300 by default where it exists).
    The definitions of this part take the bound as a parameter and keep
    the exception; they are what [_extract_time_range] does on a query
    written in ASCII. *)

Module Checked.

(** The text is made of ASCII characters. *)
Definition is_ascii (s : string) : bool :=
  all_chars (fun c => (code c <? 128)%nat) s.

Section Limit.
(** The longest digit string the interpreter converts; 0 for no bound,
    as in an interpreter that knows none.  (CPython takes 0 or a bound of
    at least 640; the definitions are written for every bound.) *)
Variable int_max_str_digits : nat.
(** The exception of [int(s)] for a run of that many digits, and the one
    of the conversion of an integer to text. *)
Variable int_error : nat -> exn.
Variable str_error : exn.

Definition exceeds (digits : nat) : bool :=
  (0 <? int_max_str_digits)%nat && (int_max_str_digits <? digits)%nat.

(** [int(s)] on a run of decimal digits. *)
Definition int (s : string) : outcome N :=
  if exceeds (String.length s) then Raises (int_error (String.length s))
  else Returns (int_of_digits s).

(** [str(n)], as an f-string applies it. *)
Definition str (n : N) : outcome string :=
  if exceeds (String.length (str_of_N n)) then Raises str_error
  else Returns (str_of_N n).

Definition fmt_hours (g : option string) : outcome string :=
  Returns (group1 g ++ "h").
Definition fmt_days (g : option string) : outcome string :=
  Returns (group1 g ++ "d").
(** [f"{int(m.group(1))*7}d"] *)
Definition fmt_weeks (g : option string) : outcome string :=
  match int (group1 g) with
  | Raises e => Raises e
  | Returns n =>
      match str (n * 7) with
      | Raises e => Raises e
      | Returns days => Returns (days ++ "d")
      end
  end.

(** The nine (pattern, formatter) pairs of [_extract_time_range]. *)
Definition time_range_patterns : list (regex * (option string -> outcome string)) :=
  [ (cat [Str "last"; Plus isspace; Group (Plus isdigit); Star isspace;
          unit_re "h" "our"], fmt_hours);
    (cat [Str "last"; Plus isspace; Group (Plus isdigit); Star isspace;
          unit_re "d" "ay"], fmt_days);
    (cat [Str "last"; Plus isspace; Group (Plus isdigit); Star isspace;
          unit_re "w" "eek"], fmt_weeks);
    (cat [Str "past"; Plus isspace; Group (Plus isdigit); Star isspace;
          unit_re "h" "our"], fmt_hours);
    (cat [Str "past"; Plus isspace; Group (Plus isdigit); Star isspace;
          unit_re "d" "ay"], fmt_days);
    (cat [Group (Plus isdigit); Star isspace; unit_re "h" "our";
          Plus isspace; Str "ago"], fmt_hours);
    (cat [Group (Plus isdigit); Star isspace; unit_re "d" "ay";
          Plus isspace; Str "ago"], fmt_days);
    (Str "today", fun _ => Returns "24h");
    (cat [Str "this"; Plus isspace; Str "week"], fun _ => Returns "7d") ].

Definition _extract_time_range (query : string) : outcome string :=
  match first_match time_range_patterns query with
  | Some result => result
  | None => Returns "24h"
  end.
End Limit.

(** The [ValueError]s of CPython's conversions under a bound, and the
    bound of an interpreter that was not told otherwise. *)
Definition int_value_error (limit digits : nat) : exn :=
  ValueError
    ("Exceeds the limit (" ++ str_of_N (N.of_nat limit)
     ++ " digits) for integer string conversion: value has "
     ++ str_of_N (N.of_nat digits)
     ++ " digits; use sys.set_int_max_str_digits() to increase the limit").

Definition str_value_error (limit : nat) : exn :=
  ValueError
    ("Exceeds the limit (" ++ str_of_N (N.of_nat limit)
     ++ " digits) for integer string conversion; "
     ++ "use sys.set_int_max_str_digits() to increase the limit").

Definition default_max_str_digits : nat := 4300.

(** [c * n]: a character written [n] times. *)
Fixpoint repeat_char (c : ascii) (n : nat) : string :=
  match n with
  | O => EmptyString
  | S n' => String c (repeat_char c n')
  end.

End Checked.

Module CheckedFacts.

Import Checked.

(** *** [int] reads what [str] writes *)

(** The value of a digit list read after [acc]. *)
Fixpoint read (d : Decimal.uint) (acc : N) : N :=
  match d with
  | Decimal.Nil => acc
  | Decimal.D0 d' => read d' (acc * 10 + 0)
  | Decimal.D1 d' => read d' (acc * 10 + 1)
  | Decimal.D2 d' => read d' (acc * 10 + 2)
  | Decimal.D3 d' => read d' (acc * 10 + 3)
  | Decimal.D4 d' => read d' (acc * 10 + 4)
  | Decimal.D5 d' => read d' (acc * 10 + 5)
  | Decimal.D6 d' => read d' (acc * 10 + 6)
  | Decimal.D7 d' => read d' (acc * 10 + 7)
  | Decimal.D8 d' => read d' (acc * 10 + 8)
  | Decimal.D9 d' => read d' (acc * 10 + 9)
  end%N.

Definition int_from (acc : N) (s : string) : N :=
  (fix go (acc : N) (s : string) : N :=
     match s with
     | EmptyString => acc
     | String c s' => go (acc * 10 + N.of_nat (code c - 48))%N s'
     end) acc s.

Lemma int_from_read (d : Decimal.uint) (acc : N) :
  int_from acc (NilEmpty.string_of_uint d) = read d acc.
Proof.
  revert acc. induction d; intros acc; simpl; try reflexivity; apply IHd.
Qed.

Lemma read_pos (d : Decimal.uint) (acc : positive) :
  read d (Npos acc) = Npos (Pos.of_uint_acc d acc).
Proof.
  revert acc. induction d; intros acc; cbn [read Pos.of_uint_acc];
    try reflexivity; rewrite <- IHd; f_equal; lia.
Qed.

Lemma read_zero (d : Decimal.uint) : read d 0 = Pos.of_uint d.
Proof.
  induction d; cbn [read Pos.of_uint]; try reflexivity; try exact IHd;
    rewrite <- read_pos; f_equal.
Qed.

Lemma int_of_str (n : N) : int_of_digits (str_of_N n) = n.
Proof.
  unfold int_of_digits, str_of_N.
  change ((fix go (acc : N) (s : string) : N :=
             match s with
             | EmptyString => acc
             | String c s' => go (acc * 10 + N.of_nat (code c - 48))%N s'
             end) 0%N (NilEmpty.string_of_uint (N.to_uint n)))
    with (int_from 0 (NilEmpty.string_of_uint (N.to_uint n))).
  rewrite int_from_read, read_zero.
  apply DecimalN.Unsigned.of_to.
Qed.

(** *** The checked extraction against the unchecked one *)

Section Limit.
Variable int_max_str_digits : nat.
Variable int_error : nat -> exn.
Variable str_error : exn.


(** A checked formatter returns what the unchecked one computes. *)
Definition refines (cp : regex * (option string -> outcome string))
    (p : regex * (option string -> string)) : Prop :=
  fst cp = fst p
  /\ forall g t, snd cp g = Returns t -> snd p g = t.

Lemma fmt_weeks_refines (g : option string) (t : string) :
  Checked.fmt_weeks int_max_str_digits int_error str_error g = Returns t ->
  Executor.fmt_weeks g = t.
Proof.
  unfold Checked.fmt_weeks, Checked.int, Checked.str, Executor.fmt_weeks.
  destruct (exceeds _ (String.length (group1 g))); [discriminate|].
  destruct (exceeds int_max_str_digits
              (String.length (str_of_N (int_of_digits (group1 g) * 7))));
    [discriminate|].
  now intros [= <-].
Qed.

Lemma patterns_refine :
  Forall2 refines (Checked.time_range_patterns int_max_str_digits int_error str_error) Executor.time_range_patterns.
Proof.
  unfold Checked.time_range_patterns, Executor.time_range_patterns.
  repeat (apply Forall2_cons;
          [split; [reflexivity|]; intros g t; cbn [snd];
           first [ apply fmt_weeks_refines
                 | unfold Checked.fmt_hours, Checked.fmt_days,
                     Executor.fmt_hours, Executor.fmt_days;
                   now intros [= <-] ]|]).
  apply Forall2_nil.
Qed.

Lemma first_match_refines
    (cps : list (regex * (option string -> outcome string)))
    (ps : list (regex * (option string -> string))) (query : string) :
  Forall2 refines cps ps ->
  match first_match cps query with
  | Some (Returns t) => first_match ps query = Some t
  | Some (Raises _) => True
  | None => first_match ps query = None
  end.
Proof.
  induction 1 as [|[cr cf] [r f] cps ps [Hr Hf] _ IH]; simpl; [reflexivity|].
  simpl in Hr, Hf. subst cr.
  destruct (search r query) as [g|]; [|exact IH].
  destruct (cf g) as [t|e] eqn:Hc; [|exact I].
  now rewrite (Hf g t Hc).
Qed.

(** Whenever the checked extraction returns, it returns the range of
    [Executor._extract_time_range]. *)
Lemma extract_time_range_refines (query t : string) :
  Checked._extract_time_range int_max_str_digits int_error str_error query = Returns t -> Executor._extract_time_range query = t.
Proof.
  unfold Checked._extract_time_range, Executor._extract_time_range.
  pose proof (first_match_refines _ _ query patterns_refine) as H.
  destruct (first_match (Checked.time_range_patterns int_max_str_digits int_error str_error) query) as [[t'|e]|].
  - intros [= <-]. now rewrite H.
  - discriminate.
  - intros [= <-]. now rewrite H.
Qed.

(** It raises only where a conversion exceeds a bound that is set. *)
Definition conversion_error (e : exn) : Prop :=
  (0 < int_max_str_digits)%nat
  /\ ((exists digits, (int_max_str_digits < digits)%nat /\ e = int_error digits)
      \/ e = str_error).

Lemma exceeds_true (digits : nat) :
  exceeds int_max_str_digits digits = true ->
  (0 < int_max_str_digits)%nat /\ (int_max_str_digits < digits)%nat.
Proof.
  unfold exceeds. rewrite andb_true_iff, !Nat.ltb_lt. auto.
Qed.

Lemma fmt_weeks_raises (g : option string) (e : exn) :
  Checked.fmt_weeks int_max_str_digits int_error str_error g = Raises e ->
  conversion_error e.
Proof.
  unfold Checked.fmt_weeks, Checked.int, Checked.str.
  destruct (exceeds _ (String.length (group1 g))) eqn:E1.
  - intros [= <-]. apply exceeds_true in E1 as [H0 H1]. split; [exact H0|].
    left. eauto.
  - destruct (exceeds int_max_str_digits
                (String.length (str_of_N (int_of_digits (group1 g) * 7))))
      eqn:E2; [|discriminate].
    intros [= <-]. apply exceeds_true in E2 as [H0 _]. split; [exact H0|].
    now right.
Qed.

Lemma extract_time_range_raises (query : string) (e : exn) :
  Checked._extract_time_range int_max_str_digits int_error str_error query = Raises e -> conversion_error e.
Proof.
  unfold Checked._extract_time_range.
  assert (H : Forall (fun cp => forall g e, snd cp g = Raises e ->
                                            conversion_error e)
                (Checked.time_range_patterns int_max_str_digits int_error str_error)).
  { unfold Checked.time_range_patterns.
    repeat (apply Forall_cons;
            [intros g e'; cbn [snd];
             first [ apply fmt_weeks_raises
                   | unfold Checked.fmt_hours, Checked.fmt_days; discriminate ]|]).
    apply Forall_nil. }
  induction H as [|[r f] ps Hp _ IH]; simpl; [discriminate|].
  destruct (search r query) as [g|]; [|exact IH].
  apply Hp.
Qed.

(** *** The case of the query *)

Definition case_blind_checked (p : regex * (option string -> outcome string))
    : Prop :=
  group_ok isdigit (fst p) = true \/ forall g g', snd p g = snd p g'.

Lemma checked_patterns_case_blind : Forall case_blind_checked (Checked.time_range_patterns int_max_str_digits int_error str_error).
Proof.
  unfold Checked.time_range_patterns.
  repeat (apply Forall_cons;
          [first [left; vm_compute; reflexivity | right; reflexivity]|]).
  apply Forall_nil.
Qed.

Lemma first_match_lower_checked
    (ps : list (regex * (option string -> outcome string))) (query : string) :
  Forall case_blind_checked ps ->
  first_match ps (lower query) = first_match ps query.
Proof.
  induction 1 as [|[r f] ps Hp _ IH]; simpl; [reflexivity|].
  rewrite search_lower.
  destruct (search r query) as [g|] eqn:Hs; simpl; [|exact IH].
  f_equal. destruct Hp as [Hok | Hconst]; [|apply Hconst]. simpl in Hok.
  destruct (search_at_group isdigit r query None g Hok Hs) as (t & -> & _ & Ht).
  simpl. now rewrite lower_digits.
Qed.

Lemma extract_time_range_lower_checked (query : string) :
  Checked._extract_time_range int_max_str_digits int_error str_error (lower query) = Checked._extract_time_range int_max_str_digits int_error str_error query.
Proof.
  unfold Checked._extract_time_range.
  now rewrite first_match_lower_checked by exact checked_patterns_case_blind.
Qed.

End Limit.

End CheckedFacts.

Module WeeksFacts.

(** The character before the position that follows [t]. *)
Fixpoint last_char (prev : option ascii) (t : string) : option ascii :=
  match t with
  | EmptyString => prev
  | String c t' => last_char (Some c) t'
  end.

Section Runs.
Context {R : Type}.
Implicit Types (k : @cont R).

(** A repetition takes a whole run when what follows matches there. *)
Lemma star_run_some (q : ascii -> bool) k (s : string) (g : option string) (x : R) :
  forall t prev,
    all_chars q t = true ->
    star_match q k (last_char prev t) s g = Some x ->
    star_match q k prev (t ++ s) g = Some x.
Proof.
  induction t as [|c t IH]; intros prev Hq Hs; [exact Hs|].
  simpl in Hq. apply andb_true_iff in Hq as [Hc Ht].
  cbn [append star_match]. rewrite Hc.
  now rewrite (IH (Some c) Ht Hs).
Qed.

(** It fails when what follows fails after every part of the run. *)
Lemma star_run_none (q : ascii -> bool) k (s : string) (g : option string) :
  forall t prev,
    all_chars q t = true ->
    (forall t1 c t2, t = t1 ++ String c t2 ->
                     k (last_char prev t1) (String c t2 ++ s) g = None) ->
    star_match q k (last_char prev t) s g = None ->
    star_match q k prev (t ++ s) g = None.
Proof.
  induction t as [|c t IH]; intros prev Hq Hk Hs; [exact Hs|].
  simpl in Hq. apply andb_true_iff in Hq as [Hc Ht].
  cbn [append star_match]. rewrite Hc.
  rewrite (IH (Some c) Ht); [apply (Hk EmptyString c t eq_refl) | | exact Hs].
  intros t1 c' t2 Hsplit. apply (Hk (String c t1) c' t2). simpl. now rewrite Hsplit.
Qed.
End Runs.

(** A search passes over a run of characters at which the pattern cannot
    start. *)
Lemma search_at_skip (r : regex) (q : ascii -> bool) (s : string) :
  (forall c prev s', q c = true -> rmatch r accept prev (String c s') None = None) ->
  forall t prev,
    all_chars q t = true ->
    search_at r prev (t ++ s) = search_at r (last_char prev t) s.
Proof.
  intros Hr. induction t as [|c t IH]; intros prev Hq; [reflexivity|].
  simpl in Hq. apply andb_true_iff in Hq as [Hc Ht].
  cbn [append search_at]. rewrite (Hr c prev _ Hc). apply (IH _ Ht).
Qed.

Lemma digit_facts (d : ascii) :
  isdigit d = true ->
  cls_ci isdigit d = true /\ cls_ci isspace d = false
  /\ lit_ci "l" d = false /\ lit_ci "h" d = false /\ lit_ci "d" d = false
  /\ lit_ci "w" d = false.
Proof.
  intros Hd.
  pose proof (all_ascii_spec
    (fun x => implb (isdigit x)
                (cls_ci isdigit x && negb (cls_ci isspace x)
                 && negb (lit_ci "l" x) && negb (lit_ci "h" x)
                 && negb (lit_ci "d" x) && negb (lit_ci "w" x)))
    eq_refl d) as H.
  simpl in H. rewrite Hd in H. cbn [implb] in H.
  repeat (apply andb_true_iff in H as [H ?]).
  repeat split; try assumption; now apply negb_true_iff.
Qed.

Lemma all_digits_cls (t : string) :
  all_chars isdigit t = true -> all_chars (cls_ci isdigit) t = true.
Proof.
  induction t as [|c t IH]; simpl; [reflexivity|].
  rewrite andb_true_iff. intros [Hc Ht].
  now rewrite (proj1 (digit_facts c Hc)), IH.
Qed.

Lemma search_at_here (r : regex) (prev : option ascii) (s : string)
    (g : option string) :
  rmatch r accept prev s None = Some g -> search_at r prev s = Some g.
Proof. intros H. destruct s; simpl; now rewrite H. Qed.

Lemma search_at_next (r : regex) (prev : option ascii) (c : ascii) (s : string) :
  rmatch r accept prev (String c s) None = None ->
  search_at r prev (String c s) = search_at r (Some c) s.
Proof. intros H. cbn [search_at]. now rewrite H. Qed.

(** Evaluation of the matcher on the characters that are known. *)
Ltac known_chars :=
  repeat
    (cbn [rmatch star_match cat fold_right Str Plus unit_re append accept];
     match goal with
     | |- context [lit_ci ?a (Ascii ?b0 ?b1 ?b2 ?b3 ?b4 ?b5 ?b6 ?b7)] =>
         let v := eval vm_compute in (lit_ci a (Ascii b0 b1 b2 b3 b4 b5 b6 b7)) in
         change (lit_ci a (Ascii b0 b1 b2 b3 b4 b5 b6 b7)) with v
     | |- context [cls_ci ?p (Ascii ?b0 ?b1 ?b2 ?b3 ?b4 ?b5 ?b6 ?b7)] =>
         let v := eval vm_compute in (cls_ci p (Ascii b0 b1 b2 b3 b4 b5 b6 b7)) in
         change (cls_ci p (Ascii b0 b1 b2 b3 b4 b5 b6 b7)) with v
     end);
  cbn [rmatch star_match cat fold_right Str Plus unit_re append accept].

Definition last_number (u rest : string) : regex :=
  cat [Str "last"; Plus isspace; Group (Plus isdigit); Star isspace;
       unit_re u rest].

(** "last N weeks": the week pattern finds N. *)
Lemma search_last_weeks (digits : string) :
  digits <> EmptyString ->
  all_chars isdigit digits = true ->
  search (last_number "w" "eek") ("last " ++ digits ++ " weeks")
  = Some (Some digits).
Proof.
  intros Hne Hd. destruct digits as [|d ds]; [now elim Hne|].
  simpl in Hd. apply andb_true_iff in Hd as [Hd Hds].
  destruct (digit_facts d Hd) as (Hcls & Hsp & _).
  unfold search. apply search_at_here. unfold last_number.
  known_chars. rewrite Hsp. known_chars. rewrite Hcls.
  apply star_run_some; [now apply all_digits_cls|].
  known_chars.
  change (String d (ds ++ " weeks")) with (String d ds ++ " weeks").
  now rewrite take_prefix.
Qed.

(** "last N weeks": the hour pattern and the day pattern find nothing. *)
Lemma search_last_other (u rest digits : string) :
  (u = "h" /\ rest = "our") \/ (u = "d" /\ rest = "ay") ->
  digits <> EmptyString ->
  all_chars isdigit digits = true ->
  search (last_number u rest) ("last " ++ digits ++ " weeks") = None.
Proof.
  intros Hu Hne Hd. destruct digits as [|d ds]; [now elim Hne|].
  pose proof Hd as Hall.
  simpl in Hd. apply andb_true_iff in Hd as [Hd Hds].
  destruct (digit_facts d Hd) as (Hcls & Hsp & Hl & Hh & Hdd & Hw).
  unfold search.
  change ("last " ++ String d ds ++ " weeks")
    with (String "l" (String "a" (String "s" (String "t" (String " "
            (String d ds ++ " weeks")))))).
  rewrite search_at_next.
  2: { unfold last_number. known_chars. cbn [append]. rewrite Hsp. known_chars.
       rewrite Hcls.
       apply star_run_none; [now apply all_digits_cls | |].
       - intros t1 c t2 Hsplit.
         assert (Hc : isdigit c = true).
         { rewrite Hsplit, all_chars_app in Hds. simpl in Hds.
           apply andb_true_iff in Hds as [_ Hds].
           now apply andb_true_iff in Hds as [Hds _]. }
         destruct (digit_facts c Hc) as (_ & Hsp' & _ & Hh' & Hdd' & _).
         cbn [append star_match]. rewrite Hsp'.
         destruct Hu as [[-> ->] | [-> ->]]; known_chars;
           now rewrite ?Hh', ?Hdd'.
       - destruct Hu as [[-> ->] | [-> ->]]; known_chars; reflexivity. }
  assert (Hstart : forall c prev s',
             lit_ci "l" c = false ->
             rmatch (last_number u rest) accept prev (String c s') None = None).
  { intros c prev s' Hc. unfold last_number.
    cbn [rmatch cat fold_right Str]. now rewrite Hc. }
  do 4 (rewrite search_at_next by (apply Hstart; reflexivity)).
  rewrite (search_at_skip _ isdigit);
    [ | intros c prev s' Hc; apply Hstart; apply (digit_facts c Hc) | exact Hall ].
  change " weeks" with (String " " (String "w" (String "e" (String "e"
                          (String "k" (String "s" EmptyString)))))).
  do 6 (rewrite search_at_next by (apply Hstart; reflexivity)).
  cbn [search_at]. unfold last_number. cbn [rmatch cat fold_right Str].
  reflexivity.
Qed.
End WeeksFacts.

Module RangeFacts.

Import Checked CheckedFacts WeeksFacts.

Lemma string_of_uint_digits (d : Decimal.uint) :
  all_chars isdigit (NilEmpty.string_of_uint d) = true.
Proof. induction d; simpl; auto. Qed.

Lemma string_of_uint_nonempty (d : Decimal.uint) :
  d <> Decimal.Nil -> NilEmpty.string_of_uint d <> EmptyString.
Proof. destruct d; simpl; congruence. Qed.

Lemma str_of_N_digits (n : N) :
  str_of_N n <> EmptyString /\ all_chars isdigit (str_of_N n) = true.
Proof.
  unfold str_of_N. split; [|apply string_of_uint_digits].
  apply string_of_uint_nonempty. destruct n as [|p]; simpl; [discriminate|].
  apply DecimalPos.Unsigned.to_uint_nonnil.
Qed.

(** "last N weeks" is answered by the week formatter, for every run of
    digits N. *)
Lemma last_digits_weeks_range (int_max_str_digits : nat)
    (int_error : nat -> exn) (str_error : exn) (digits : string) :
  digits <> EmptyString ->
  all_chars isdigit digits = true ->
  Checked._extract_time_range int_max_str_digits int_error str_error
    ("last " ++ digits ++ " weeks")
  = if exceeds int_max_str_digits (String.length digits)
    then Raises (int_error (String.length digits))
    else if exceeds int_max_str_digits
              (String.length (str_of_N (int_of_digits digits * 7)))
         then Raises str_error
         else Returns (str_of_N (int_of_digits digits * 7) ++ "d").
Proof.
  intros Hne Hd.
  unfold Checked._extract_time_range, Checked.time_range_patterns.
  cbn [first_match].
  change (cat [Str "last"; Plus isspace; Group (Plus isdigit); Star isspace;
               unit_re "h" "our"]) with (last_number "h" "our").
  change (cat [Str "last"; Plus isspace; Group (Plus isdigit); Star isspace;
               unit_re "d" "ay"]) with (last_number "d" "ay").
  change (cat [Str "last"; Plus isspace; Group (Plus isdigit); Star isspace;
               unit_re "w" "eek"]) with (last_number "w" "eek").
  rewrite (search_last_other "h" "our") by auto.
  rewrite (search_last_other "d" "ay") by auto.
  rewrite search_last_weeks by auto.
  unfold Checked.fmt_weeks, Checked.int, Checked.str. cbn [group1].
  destruct (exceeds _ (String.length digits)); [reflexivity|].
  now destruct (exceeds _ (String.length (str_of_N (int_of_digits digits * 7)))).
Qed.

Lemma last_weeks_range (int_max_str_digits : nat) (int_error : nat -> exn)
    (str_error : exn) (n : N) :
  Checked._extract_time_range int_max_str_digits int_error str_error
    ("last " ++ str_of_N n ++ " weeks")
  = if exceeds int_max_str_digits (String.length (str_of_N n))
    then Raises (int_error (String.length (str_of_N n)))
    else if exceeds int_max_str_digits (String.length (str_of_N (n * 7)))
         then Raises str_error
         else Returns (str_of_N (n * 7) ++ "d").
Proof.
  destruct (str_of_N_digits n) as [Hne Hd].
  rewrite last_digits_weeks_range by assumption.
  now rewrite int_of_str.
Qed.

Lemma exceeds_one (int_max_str_digits : nat) : exceeds int_max_str_digits 1 = false.
Proof. unfold exceeds. now destruct int_max_str_digits as [|[|l]]. Qed.

End RangeFacts.

(** C3. Time-range extraction, for every bound an interpreter puts on
    integer conversions: "last 2 hours" and "past 2 hours" give 2h, "last
    1 week" gives 7d; a query that none of the nine patterns matches gives
    the default 24h; two queries written in ASCII that differ only in
    letter case give the same result; the first pattern of the list that
    matches decides, whatever the later patterns match and wherever in the
    text (so "2 days ago, last 3 hours" gives 3h); and weeks are
    multiplied by 7: "last N weeks" gives the decimal text of 7 N followed
    by d for every number N, also one written with leading zeros, unless
    N or 7 N has more digits than the interpreter converts, in which case
    the conversion's exception is raised.  Where this function returns,
    the function without the bound returns the same text. *)
Theorem C3_extract_time_range (int_max_str_digits : nat)
    (int_error : nat -> exn) (str_error : exn) :
  let range :=
    Checked._extract_time_range int_max_str_digits int_error str_error in
  let patterns :=
    Checked.time_range_patterns int_max_str_digits int_error str_error in
  (range "last 2 hours" = Returns "2h"
   /\ range "past 2 hours" = Returns "2h"
   /\ range "last 1 week" = Returns "7d"
   /\ range "2 days ago, last 3 hours" = Returns "3h")
  /\ List.length patterns = 9
  /\ (forall query,
        (forall r f, In (r, f) patterns -> search r query = None) ->
        range query = Returns "24h")
  /\ (forall q1 q2,
        Checked.is_ascii q1 = true -> Checked.is_ascii q2 = true ->
        lower q1 = lower q2 ->
        range q1 = range q2)
  /\ (forall query before r f after g,
        patterns = (before ++ (r, f) :: after)%list ->
        (forall r' f', In (r', f') before -> search r' query = None) ->
        search r query = Some g ->
        range query = f g)
  /\ (forall n : N,
        range ("last " ++ str_of_N n ++ " weeks")
        = if Checked.exceeds int_max_str_digits (String.length (str_of_N n))
          then Raises (int_error (String.length (str_of_N n)))
          else if Checked.exceeds int_max_str_digits
                    (String.length (str_of_N (n * 7)))
               then Raises str_error
               else Returns (str_of_N (n * 7) ++ "d"))
  /\ (forall digits,
        digits <> EmptyString ->
        all_chars isdigit digits = true ->
        range ("last " ++ digits ++ " weeks")
        = if Checked.exceeds int_max_str_digits (String.length digits)
          then Raises (int_error (String.length digits))
          else if Checked.exceeds int_max_str_digits
                    (String.length (str_of_N (int_of_digits digits * 7)))
               then Raises str_error
               else Returns (str_of_N (int_of_digits digits * 7) ++ "d"))
  /\ (forall query t,
        range query = Returns t -> Executor._extract_time_range query = t).
Proof.
  cbv zeta.
  split; [|split; [reflexivity|split; [|split; [|split; [|split; [|split]]]]]].
  - repeat split; vm_compute; try reflexivity.
    now destruct int_max_str_digits as [|[|l]].
  - intros query H. unfold Checked._extract_time_range.
    now rewrite (first_match_none _ query H).
  - intros q1 q2 _ _ H.
    rewrite <- (CheckedFacts.extract_time_range_lower_checked _ _ _ q1),
      <- (CheckedFacts.extract_time_range_lower_checked _ _ _ q2).
    now rewrite H.
  - intros query before r f after g Hsplit Hb Hr.
    unfold Checked._extract_time_range. rewrite Hsplit.
    now rewrite (first_match_priority before after r f query g Hb Hr).
  - apply RangeFacts.last_weeks_range.
  - apply RangeFacts.last_digits_weeks_range.
  - apply CheckedFacts.extract_time_range_refines.
Qed.

Lemma C3_extract_time_range_witness :
  let range :=
    Checked._extract_time_range Checked.default_max_str_digits
      (Checked.int_value_error Checked.default_max_str_digits)
      (Checked.str_value_error Checked.default_max_str_digits) in
  range "what is up" = Returns "24h"
  /\ range "LAST 2 Hours" = range "last 2 hours"
  /\ range "2 days ago, last 3 hours" = Returns "3h"
  /\ range "last 012 weeks" = Returns "84d"
  /\ Executor._extract_time_range "last 3 weeks" = "21d".
Proof.
  pose proof (C3_extract_time_range Checked.default_max_str_digits
                (Checked.int_value_error Checked.default_max_str_digits)
                (Checked.str_value_error Checked.default_max_str_digits))
    as (_ & _ & Hdefault & Hcase & Hprio & _ & Hweeks & Hrefines).
  cbv zeta. split; [|split; [|split; [|split]]].
  - apply Hdefault. intros r f Hin.
    repeat (destruct Hin as [Hin | Hin];
            [injection Hin as <- _; vm_compute; reflexivity|]).
    destruct Hin.
  - apply Hcase; reflexivity.
  - apply (Hprio "2 days ago, last 3 hours" []
             (fst (hd (Eps, Checked.fmt_hours)
                     (Checked.time_range_patterns Checked.default_max_str_digits
                        (Checked.int_value_error Checked.default_max_str_digits)
                        (Checked.str_value_error Checked.default_max_str_digits))))
             Checked.fmt_hours
             (tl (Checked.time_range_patterns Checked.default_max_str_digits
                    (Checked.int_value_error Checked.default_max_str_digits)
                    (Checked.str_value_error Checked.default_max_str_digits)))
             (Some "3"));
      [reflexivity | intros r' f' [] | vm_compute; reflexivity].
  - apply (Hweeks "012"); [discriminate | reflexivity].
  - apply Hrefines. vm_compute. reflexivity.
Defined.



(** ** Facts about the client and the agent *)

Module ClientFacts.




(** The parameter [name] of the only request of a log. *)
Fixpoint lookup (name : string) (params : list (string * pval)) : option pval :=
  match params with
  | [] => None
  | (k, v) :: rest => if String.eqb k name then Some v else lookup name rest
  end.

Definition sent_param (name : string) (log : list request) : option pval :=
  match log with
  | [r] => lookup name (query_params r)
  | _ => None
  end.

Lemma dict_get_default (mapping : list (string * string)) (key default : string) :
  (forall v, ~ In (key, v) mapping) -> Agent.dict_get mapping key default = default.
Proof.
  induction mapping as [|[k v] mapping IH]; intros H; simpl; [reflexivity|].
  destruct (String.eqb k key) eqn:Hk.
  - apply String.eqb_eq in Hk. subst k. exfalso. apply (H v). now left.
  - apply IH. intros v' Hin. apply (H v'). now right.
Qed.

(** The one request [query_metrics] sends, whatever the answer. *)
Lemma query_metrics_log (strftime_HMS : Z -> string) (srv : server)
    (metric : string) (entity_type entity_id : option string) (time_range : string) :
  exists extra,
    fst (run (Agent.query_metrics strftime_HMS metric entity_type entity_id
                time_range) srv)
    = [ Request "GET" "/metrics/query"
          ([ ("metricSelector",
              VStr (Agent.dict_get Agent.metric_mappings
                      (replace_char " " "_" (lower metric)) metric));
             ("from", VStr ("now-" ++ time_range));
             ("to", VStr "now");
             ("resolution",
              VStr (if existsb (String.eqb time_range) ["1h"; "2h"]
                    then "10m" else "1h")) ] ++ extra)%list ].
Proof.
  unfold run, Agent.query_metrics, try_except, bind, Client.query_metrics,
    Client._make_request, ret.
  destruct (truthy entity_id); [|destruct (truthy entity_type)];
    cbn [truthy app];
    match goal with
    | |- context [srv [] ?req] => destruct (srv [] req)
    end; cbn [fst]; eexists; cbn [app]; reflexivity.
Qed.

End ClientFacts.

Import ClientFacts.

Module AgentFacts.

Import Agent.

(** A failure that is not a rate limit ends the loop with the placeholder. *)
Lemma try_models_other_error (generate_content : llm) (full final model : string)
    (n : nat) (rest : list string) (error_str : string) :
  error_of (generate_content n model full) = Some error_str ->
  is_rate_limit error_str = false ->
  try_models generate_content full final n (model :: rest)
  = ([model], "AI analysis error: " ++ take 100 error_str).
Proof.
  intros He Hr. cbn [try_models].
  destruct (generate_content n model full) as [[text|]|e]; simpl in He;
    try discriminate; injection He as <-; cbn [get error_of]; now rewrite Hr.
Qed.

(** A rate limit on a model that is not equal to the last entry moves on
    to the next entry. *)
Lemma try_models_rate_limit_next (generate_content : llm) (full final model : string)
    (n : nat) (rest : list string) (error_str : string) :
  error_of (generate_content n model full) = Some error_str ->
  is_rate_limit error_str = true ->
  model <> final ->
  try_models generate_content full final n (model :: rest)
  = (model :: fst (try_models generate_content full final (S n) rest),
     snd (try_models generate_content full final (S n) rest)).
Proof.
  intros He Hr Hne. cbn [try_models].
  apply String.eqb_neq in Hne.
  destruct (generate_content n model full) as [[text|]|e]; simpl in He;
    try discriminate; injection He as <-; cbn [get error_of];
    rewrite Hr, Hne; cbn [negb];
    now destruct (try_models generate_content full final (S n) rest).
Qed.

(** A rate limit on a model equal to the last entry ends the loop. *)
Lemma try_models_rate_limit_final (generate_content : llm) (full final : string)
    (n : nat) (rest : list string) (error_str : string) :
  error_of (generate_content n final full) = Some error_str ->
  is_rate_limit error_str = true ->
  try_models generate_content full final n (final :: rest)
  = ([final], rate_limit_notice).
Proof.
  intros He Hr. cbn [try_models]. rewrite String.eqb_refl.
  destruct (generate_content n final full) as [[text|]|e]; simpl in He;
    try discriminate; injection He as <-; cbn [get error_of negb];
    now rewrite Hr.
Qed.

(** The length of the persona lines and the blank lines around the
    context. *)
Definition preamble_length : nat :=
  Eval vm_compute in String.length (full_prompt EmptyString EmptyString).

Lemma length_full_prompt (prompt context : string) :
  String.length (full_prompt prompt context)
  = preamble_length + String.length context + String.length prompt.
Proof.
  unfold full_prompt, preamble_length. rewrite !length_append. simpl. lia.
Qed.

(** With a configured model other than the last entry, three rate limits
    in a row go through the whole list and end with the notice. *)
Lemma ai_analyze_all_rate_limited (generate_content : llm)
    (self_model prompt context : string) :
  self_model <> "gemini-1.5-pro" ->
  (forall n model,
      exists error_str,
        error_of (generate_content n model (full_prompt prompt context))
        = Some error_str
        /\ is_rate_limit error_str = true) ->
  _ai_analyze_trace generate_content self_model prompt context
  = ([self_model; "gemini-1.5-flash"; "gemini-1.5-pro"], rate_limit_notice).
Proof.
  intros Hne Hall. unfold _ai_analyze_trace, models_to_try. cbn [last].
  destruct (Hall 0 self_model) as (e0 & He0 & Hr0).
  destruct (Hall 1 "gemini-1.5-flash") as (e1 & He1 & Hr1).
  destruct (Hall 2 "gemini-1.5-pro") as (e2 & He2 & Hr2).
  rewrite (try_models_rate_limit_next _ _ _ _ _ _ _ He0 Hr0 Hne).
  rewrite (try_models_rate_limit_next _ _ _ _ _ _ _ He1 Hr1)
    by discriminate.
  now rewrite (try_models_rate_limit_final _ _ _ _ _ _ He2 Hr2).
Qed.

End AgentFacts.

Import AgentFacts.

(** ** The gateway's and the formatter's claims *)


Definition no_such_problem : server :=
  fun _ _ => Returns (ProblemsBody (ProblemsResponse (Some 0%Z) (Some []))).


(** C8. Problem-list formatting.  A response whose totalCount is 0 gives
    the fixed no-problems message, whatever its problems list holds.  A
    response with totalCount 15 and 15 problems gives the header, one line
    for each of the first 10 problems and the piece "... and 5 more
    problems", joined by newlines. *)
Theorem C8_format_problem_list :
  (forall r,
      totalCount r = Some 0%Z ->
      Client.format_problem_list r
      = "✅ No problems found in the specified timeframe.")
  /\ (forall r ps,
        totalCount r = Some 15%Z ->
        problems r = Some ps ->
        List.length ps = 15 ->
        Client.format_problem_list r
        = join nl (("# 🔍 Dynatrace Problems (15 total)" ++ nl)
                   :: app (map Client.problem_line (firstn 10 ps))
                        [nl ++ "... and 5 more problems"])
        /\ List.length (map Client.problem_line (firstn 10 ps)) = 10).
Proof.
  split.
  - intros r H. unfold Client.format_problem_list. now rewrite H.
  - intros r ps Ht Hp Hlen. unfold Client.format_problem_list.
    rewrite Ht, Hp. split; [reflexivity|].
    rewrite length_map, length_firstn, Hlen. reflexivity.
Qed.

Definition sample_problem : problem :=
  Problem (Some "-1_1V2") (Some "P-1") (Some "High CPU") (Some "OPEN")
    (Some "PERFORMANCE").

Lemma C8_format_problem_list_witness :
  Client.format_problem_list
    (ProblemsResponse (Some 0%Z) (Some [sample_problem]))
  = Client.no_problems_message
  /\ List.length
       (map Client.problem_line (firstn 10 (repeat sample_problem 15))) = 10.
Proof.
  split.
  - apply (proj1 C8_format_problem_list). reflexivity.
  - apply (proj2 C8_format_problem_list
             (ProblemsResponse (Some 15%Z) (Some (repeat sample_problem 15))));
      reflexivity.
Defined.

(** ** The order of the doubles, as [min] and [max] use it *)

Module FloatOrder.

Import Client.










End FloatOrder.

Module FormatFacts.

Import Client.










End FormatFacts.



(** ** The agent's claims *)

Module Spec.

(** The words of the specification, to compare the code with. *)

Fixpoint split_last (s : string) : option (string * ascii) :=
  match s with
  | EmptyString => None
  | String c EmptyString => Some (EmptyString, c)
  | String c s' =>
      match split_last s' with
      | Some (init, final) => Some (String c init, final)
      | None => None
      end
  end.

(** The length in hours of the window a TimeRange token stands for: the
    data model has it a relative duration token, n hours for [<n>h] and
    n days for [<n>d]. *)
Definition window_hours (token : string) : option N :=
  match split_last token with
  | Some (String d ds, unit) =>
      if all_chars isdigit (String d ds) then
        if Ascii.eqb unit "h" then Some (int_of_digits (String d ds))
        else if Ascii.eqb unit "d" then Some (24 * int_of_digits (String d ds))%N
        else None
      else None
  | _ => None
  end.

(** "resolution 10m for sub-2h windows else 1h" *)
Definition resolution_as_stated : Prop :=
  forall strftime_HMS srv metric entity_type entity_id token hours,
    window_hours token = Some hours ->
    sent_param "resolution"
      (fst (run (Agent.query_metrics strftime_HMS metric entity_type entity_id
                   token) srv))
    = Some (VStr (if (hours <? 2)%N then "10m" else "1h")).

(** "context data embedded as serialized structure truncated to a fixed
    character budget - 4000 characters": whatever the serialized data,
    the text sent is at most 4000 characters longer than with none. *)
Definition within_budget (sent : string -> string) : Prop :=
  forall dump,
    String.length (sent dump) <= String.length (sent EmptyString) + 4000.

End Spec.

Definition no_clock : Z -> string := fun _ => "00:00:00".

Definition long_dump : string :=
  string_of_list_ascii (repeat "x"%char 4001).

(** C5, as stated, fails: for the token 2h, a window of two hours and so
    not shorter than two hours, the request carries the resolution 10m. *)
Lemma C5_counterexample :
  Spec.window_hours "2h" = Some 2%N
  /\ sent_param "resolution"
       (fst (run (Agent.query_metrics no_clock "cpu" None None "2h")
               no_such_problem))
     = Some (VStr "10m")
  /\ ~ Spec.resolution_as_stated.
Proof.
  split; [reflexivity|]. split; [reflexivity|].
  intros H.
  specialize (H no_clock no_such_problem "cpu" None None "2h" 2%N eq_refl).
  discriminate H.
Qed.

(** C5, amended.  [query_metrics] sends one GET to /metrics/query.  Its
    metricSelector is the table's selector when the lowercased metric
    name, blanks replaced by underscores, is a key of the table, and the
    metric name as given otherwise.  Its resolution is 10m when the time
    range is the token 1h or the token 2h, and 1h for every other
    token. *)
Theorem C5_metric_query (strftime_HMS : Z -> string) (srv : server)
    (metric : string) (entity_type entity_id : option string) (time_range : string) :
  (exists params,
      fst (run (Agent.query_metrics strftime_HMS metric entity_type entity_id
                  time_range) srv)
      = [Request "GET" "/metrics/query" params])
  /\ (forall selector,
        In (replace_char " " "_" (lower metric), selector) Agent.metric_mappings ->
        sent_param "metricSelector"
          (fst (run (Agent.query_metrics strftime_HMS metric entity_type
                       entity_id time_range) srv))
        = Some (VStr selector))
  /\ ((forall selector,
          ~ In (replace_char " " "_" (lower metric), selector)
               Agent.metric_mappings) ->
      sent_param "metricSelector"
        (fst (run (Agent.query_metrics strftime_HMS metric entity_type
                     entity_id time_range) srv))
      = Some (VStr metric))
  /\ (time_range = "1h" \/ time_range = "2h" ->
      sent_param "resolution"
        (fst (run (Agent.query_metrics strftime_HMS metric entity_type
                     entity_id time_range) srv))
      = Some (VStr "10m"))
  /\ (time_range <> "1h" -> time_range <> "2h" ->
      sent_param "resolution"
        (fst (run (Agent.query_metrics strftime_HMS metric entity_type
                     entity_id time_range) srv))
      = Some (VStr "1h")).
Proof.
  destruct (query_metrics_log strftime_HMS srv metric entity_type entity_id
              time_range) as [extra ->].
  split; [eexists; reflexivity|].
  cbn [sent_param query_params app lookup String.eqb Ascii.eqb Bool.eqb].
  split; [|split; [|split]].
  - intros selector Hin. do 2 f_equal.
    set (key := replace_char " " "_" (lower metric)) in *. clearbody key.
    simpl in Hin.
    repeat (destruct Hin as [Hin | Hin];
            [injection Hin as <- <-; reflexivity|]).
    destruct Hin.
  - intros Hnot. do 2 f_equal. now apply dict_get_default.
  - intros [-> | ->]; reflexivity.
  - intros H1 H2. cbn [existsb].
    apply String.eqb_neq in H1, H2. now rewrite H1, H2.
Qed.

Lemma C5_metric_query_witness :
  sent_param "metricSelector"
    (fst (run (Agent.query_metrics no_clock "CPU" None None "24h")
            no_such_problem))
  = Some (VStr "builtin:host.cpu.usage:avg")
  /\ sent_param "resolution"
       (fst (run (Agent.query_metrics no_clock "CPU" None None "24h")
               no_such_problem))
     = Some (VStr "1h").
Proof.
  pose proof (C5_metric_query no_clock no_such_problem "CPU" None None "24h")
    as (_ & Hmap & _ & _ & Hres).
  split.
  - apply Hmap. simpl. tauto.
  - apply Hres; discriminate.
Defined.

(** C4, as stated, fails: [analyze_problem] embeds the serialized evidence
    whole, so a dump of 4001 characters makes the text sent 4001
    characters longer. *)
Lemma C4_counterexample :
  String.length
    (Agent.analyze_problem_sent "High CPU" "PERFORMANCE" "SERVICE" 1 1
       (Some long_dump))
  = String.length
      (Agent.analyze_problem_sent "High CPU" "PERFORMANCE" "SERVICE" 1 1
         (Some EmptyString)) + 4001
  /\ ~ (forall title severity impact affected_count evidence_count,
           Spec.within_budget
             (fun dump =>
                Agent.analyze_problem_sent title severity impact
                  affected_count evidence_count (Some dump))).
Proof.
  assert (H : String.length
                (Agent.analyze_problem_sent "High CPU" "PERFORMANCE" "SERVICE"
                   1 1 (Some long_dump))
              = String.length
                  (Agent.analyze_problem_sent "High CPU" "PERFORMANCE"
                     "SERVICE" 1 1 (Some EmptyString)) + 4001)
    by (vm_compute; reflexivity).
  split; [exact H|].
  intros Hb.
  specialize (Hb "High CPU" "PERFORMANCE" "SERVICE" 1 1 long_dump).
  cbv beta in Hb. rewrite H in Hb. lia.
Qed.

(** C4, amended.  [root_cause_analysis] and [query] embed the first 4000
    characters of the serialized context data, so the text they send
    grows by the length of the data up to 4000 characters and no further.
    [_ai_analyze] embeds the context it is given whole, and
    [analyze_problem] and [get_health_summary] hand it their serialized
    data whole: the text they send grows by the full length of the
    data. *)
Theorem C4_prompt_budget :
  (forall symptoms dump,
      Agent.rca_prompt symptoms dump
      = Agent.rca_head symptoms ++ take 4000 dump ++ Agent.rca_tail
      /\ String.length (take 4000 dump) <= 4000
      /\ String.length (Agent.root_cause_analysis_sent symptoms dump)
         = String.length (Agent.root_cause_analysis_sent symptoms EmptyString)
           + Nat.min 4000 (String.length dump))
  /\ (forall question dump,
        Agent.query_prompt question dump
        = Agent.query_head question ++ take 4000 dump ++ Agent.query_tail
        /\ String.length (Agent.query_sent question dump)
           = String.length (Agent.query_sent question EmptyString)
             + Nat.min 4000 (String.length dump))
  /\ (forall symptoms question,
        Spec.within_budget (Agent.root_cause_analysis_sent symptoms)
        /\ Spec.within_budget (Agent.query_sent question))
  /\ (forall prompt context,
        String.length (Agent.full_prompt prompt context)
        = String.length (Agent.full_prompt prompt EmptyString)
          + String.length context)
  /\ (forall title severity impact affected_count evidence_count dump,
        String.length
          (Agent.analyze_problem_sent title severity impact affected_count
             evidence_count (Some dump))
        = String.length
            (Agent.analyze_problem_sent title severity impact affected_count
               evidence_count (Some EmptyString))
          + String.length dump)
  /\ (forall open_count dump release_count,
        String.length (Agent.get_health_summary_sent open_count dump release_count)
        = String.length
            (Agent.get_health_summary_sent open_count EmptyString release_count)
          + String.length dump).
Proof.
  assert (Hrca : forall symptoms dump,
             String.length (Agent.root_cause_analysis_sent symptoms dump)
             = String.length (Agent.root_cause_analysis_sent symptoms EmptyString)
               + Nat.min 4000 (String.length dump)).
  { intros. unfold Agent.root_cause_analysis_sent, Agent.rca_prompt.
    rewrite !length_full_prompt, !length_append, !length_take.
    cbn [String.length]. lia. }
  assert (Hq : forall question dump,
             String.length (Agent.query_sent question dump)
             = String.length (Agent.query_sent question EmptyString)
               + Nat.min 4000 (String.length dump)).
  { intros. unfold Agent.query_sent, Agent.query_prompt.
    rewrite !length_full_prompt, !length_append, !length_take.
    cbn [String.length]. lia. }
  split; [|split; [|split; [|split; [|split]]]].
  - intros symptoms dump. split; [reflexivity|].
    split; [rewrite length_take; lia | apply Hrca].
  - intros question dump. split; [reflexivity | apply Hq].
  - intros symptoms question. split; intros dump.
    + rewrite Hrca. lia.
    + rewrite Hq. lia.
  - intros prompt context. rewrite !length_full_prompt.
    cbn [String.length]. lia.
  - intros title severity impact affected_count evidence_count dump.
    unfold Agent.analyze_problem_sent, Agent.analyze_problem_context.
    rewrite !length_full_prompt, !length_append. cbn [get String.length]. lia.
  - intros open_count dump release_count.
    unfold Agent.get_health_summary_sent, Agent.health_context.
    rewrite !length_full_prompt, !length_append. cbn [String.length]. lia.
Qed.

(** The endpoint refuses the first call of an invocation with a rate-limit
    error and answers every later call. *)
Definition busy_once : Agent.llm :=
  fun n _ _ =>
    match n with
    | O => Agent.Failure "429 RESOURCE_EXHAUSTED"
    | S _ => Agent.Response (Some "All services are healthy.")
    end.

(** C7, at the input where the code departs from it.  With the configured
    model equal to the last entry of the fallback list, a rate limit on
    the first call ends [_ai_analyze] with the rate-limit notice after
    that one call, while gemini-1.5-flash, next in the list, has not been
    tried; with another configured model the same endpoint is asked again
    and answers. *)
Theorem C7_rate_limit_on_configured_last_model (prompt context : string) :
  Agent._ai_analyze_trace busy_once "gemini-1.5-pro" prompt context
  = (["gemini-1.5-pro"], Agent.rate_limit_notice)
  /\ Agent.models_to_try "gemini-1.5-pro"
     = ["gemini-1.5-pro"; "gemini-1.5-flash"; "gemini-1.5-pro"]
  /\ Agent._ai_analyze_trace busy_once "gemini-2.0-flash" prompt context
     = (["gemini-2.0-flash"; "gemini-1.5-flash"], "All services are healthy.").
Proof.
  split; [reflexivity | split; reflexivity].
Qed.


(** * Further properties of the code *)


(** ** Where a match lies in its subject *)

Module MatcherMore.

Section Position.
Context {R : Type}.
Implicit Types (k : @cont R) (x : R).

(** A continuation is only ever handed a suffix of the subject. *)
Lemma rmatch_suffix (r : regex) :
  forall k prev s g x,
    rmatch r k prev s g = Some x ->
    exists prev' s' g' a, k prev' s' g' = Some x /\ s = a ++ s'.
Proof.
  induction r as [|c|q|r1 IH1 r2 IH2|r1 IH1|q| |r1 IH1];
    intros k prev s g x H; simpl in H.
  - now exists prev, s, g, EmptyString.
  - destruct s as [|b s]; [discriminate|].
    destruct (lit_ci c b); [|discriminate].
    now exists (Some b), s, g, (String b EmptyString).
  - destruct s as [|b s]; [discriminate|].
    destruct (cls_ci q b); [|discriminate].
    now exists (Some b), s, g, (String b EmptyString).
  - destruct (IH1 _ _ _ _ _ H) as (p1 & s1 & g1 & a1 & H1 & ->).
    destruct (IH2 _ _ _ _ _ H1) as (p2 & s2 & g2 & a2 & H2 & ->).
    exists p2, s2, g2, (a1 ++ a2). split; [exact H2 | now rewrite append_assoc].
  - destruct (rmatch r1 k prev s g) as [y|] eqn:Hr.
    + injection H as ->. exact (IH1 _ _ _ _ _ Hr).
    + now exists prev, s, g, EmptyString.
  - destruct (star_match_text _ _ _ _ _ _ H) as (p1 & t & s1 & H1 & -> & _).
    now exists p1, s1, g, t.
  - destruct (xorb _ _); [|discriminate]. now exists prev, s, g, EmptyString.
  - destruct (IH1 _ _ _ _ _ H) as (p1 & s1 & g1 & a1 & H1 & Hs).
    cbv beta in H1. eauto 6.
Qed.

(** The text of group 1 is a piece of the subject. *)
Lemma rmatch_group_within (P : ascii -> bool) (r : regex) :
  forall k prev s g x,
    group_ok P r = true ->
    rmatch r k prev s g = Some x ->
    exists prev' s' t a b,
      k prev' s' (Some t) = Some x /\ s = a ++ t ++ b.
Proof.
  induction r as [|c|q|r1 IH1 r2 IH2|r1 IH1|q| |r1 IH1];
    intros k prev s g x Hok H; simpl in Hok; try discriminate.
  - simpl in H. apply orb_true_iff in Hok as [Hok | Hok].
    + apply andb_true_iff in Hok as [Hok1 Hgf2].
      destruct (IH1 _ _ _ _ _ Hok1 H) as (p1 & s1 & t & a & b & H1 & Hs).
      destruct (rmatch_text _ _ _ _ _ _ Hgf2 H1) as (p2 & t2 & s2 & H2 & _).
      now exists p2, s2, t, a, b.
    + destruct (rmatch_suffix _ _ _ _ _ _ H) as (p1 & s1 & g1 & a1 & H1 & ->).
      destruct (IH2 _ _ _ _ _ Hok H1) as (p2 & s2 & t & a & b & H2 & ->).
      exists p2, s2, t, (a1 ++ a), b. split; [exact H2|].
      now rewrite append_assoc.
  - simpl in H. apply andb_true_iff in Hok as [Hok _].
    apply andb_true_iff in Hok as [Hgf _].
    destruct (rmatch_text _ _ _ _ _ _ Hgf H) as (p1 & t & s1 & H1 & -> & _).
    rewrite take_prefix in H1. now exists p1, s1, t, EmptyString, s1.
Qed.
End Position.

Lemma search_at_within (P : ascii -> bool) (r : regex) (s : string) :
  forall prev g,
    group_ok P r = true ->
    search_at r prev s = Some g ->
    exists t a b, g = Some t /\ s = a ++ t ++ b.
Proof.
  induction s as [|c s IH]; intros prev g Hok H; simpl in H.
  - destruct (rmatch r accept prev EmptyString None) as [y|] eqn:Hr;
      [|discriminate].
    injection H as ->.
    destruct (rmatch_group_within _ _ _ _ _ _ _ Hok Hr)
      as (p & s' & t & a & b & Hk & Hs).
    injection Hk as <-. now exists t, a, b.
  - destruct (rmatch r accept prev (String c s) None) as [y|] eqn:Hr.
    + injection H as ->.
      destruct (rmatch_group_within _ _ _ _ _ _ _ Hok Hr)
        as (p & s' & t & a & b & Hk & Hs).
      injection Hk as <-. now exists t, a, b.
    + destruct (IH _ _ Hok H) as (t & a & b & -> & ->).
      now exists t, (String c a), b.
Qed.

Lemma first_match_within (P : ascii -> bool) (rs : list regex) (query : string)
    (g : option string) :
  forallb (group_ok P) rs = true ->
  first_match (map (fun r => (r, fun g : option string => g)) rs) query = Some g ->
  exists t, g = Some t /\ contains t query = true.
Proof.
  induction rs as [|r rs IH]; simpl; [discriminate|].
  rewrite andb_true_iff. intros [Hr Hrs].
  destruct (search r query) as [g0|] eqn:Hs; [|now apply IH].
  intros H. injection H as <-.
  destruct (search_at_within P r query None g0 Hr Hs) as (t & a & b & -> & Hq).
  exists t. split; [reflexivity|]. apply contains_iff. now exists a, b.
Qed.

Lemma extract_problem_id_within (query pid : string) :
  _extract_problem_id query = Some pid ->
  pid <> EmptyString /\ contains pid query = true.
Proof.
  intros H. split.
  - pose proof (problem_id_truthy query pid H) as Ht.
    intros ->. discriminate Ht.
  - unfold _extract_problem_id in H.
    destruct (first_match _ query) as [g|] eqn:Hm; [|discriminate]. subst g.
    destruct (first_match_within (fun _ => true) problem_id_patterns query
                (Some pid)) as (t & Ht & Hc); [now vm_compute | exact Hm |].
    now injection Ht as ->.
Qed.

End MatcherMore.

Import MatcherMore.

(** X1. A problem identifier that [_extract_problem_id] returns is never
    the empty string and occurs in the query as it is returned, letter
    case included. *)
Theorem X1_problem_id_verbatim (query pid : string) :
  _extract_problem_id query = Some pid ->
  pid <> EmptyString /\ contains pid query = true.
Proof. exact (extract_problem_id_within query pid). Qed.

Lemma X1_problem_id_verbatim_witness :
  "p-77" <> EmptyString /\ contains "p-77" "Investigate p-77 now" = true.
Proof.
  apply (X1_problem_id_verbatim "Investigate p-77 now" "p-77"). reflexivity.
Defined.

(** ** The time-range token *)

Module TimeRangeMore.

Import RangeFacts.

(** A count followed by its unit: what the callers splice after [now-]. *)
Definition time_token (t : string) : Prop :=
  exists count unit,
    t = count ++ unit /\ count <> EmptyString
    /\ all_chars isdigit count = true /\ (unit = "h" \/ unit = "d").

(** A (pattern, formatter) pair that can only produce a token. *)
Definition yields_token (p : regex * (option string -> string)) : Prop :=
  (group_ok isdigit (fst p) = true
   /\ forall t, t <> EmptyString -> all_chars isdigit t = true ->
                time_token (snd p (Some t)))
  \/ forall g, time_token (snd p g).

Lemma fmt_hours_token (t : string) :
  t <> EmptyString -> all_chars isdigit t = true -> time_token (fmt_hours (Some t)).
Proof. intros Hne Hd. exists t, "h". auto. Qed.

Lemma fmt_days_token (t : string) :
  t <> EmptyString -> all_chars isdigit t = true -> time_token (fmt_days (Some t)).
Proof. intros Hne Hd. exists t, "d". auto. Qed.

Lemma fmt_weeks_token (t : string) :
  t <> EmptyString -> all_chars isdigit t = true -> time_token (fmt_weeks (Some t)).
Proof.
  intros _ _. unfold fmt_weeks.
  destruct (str_of_N_digits (int_of_digits (group1 (Some t)) * 7)) as [Hne Hd].
  exists (str_of_N (int_of_digits (group1 (Some t)) * 7)), "d". auto.
Qed.

Lemma constant_token (count unit : string) :
  count <> EmptyString -> all_chars isdigit count = true ->
  unit = "h" \/ unit = "d" -> time_token (count ++ unit).
Proof. intros. now exists count, unit. Qed.

Lemma time_range_patterns_yield : Forall yields_token time_range_patterns.
Proof.
  unfold time_range_patterns.
  repeat (apply Forall_cons;
    [first
       [ left; split; [vm_compute; reflexivity|];
         first [exact fmt_hours_token | exact fmt_days_token | exact fmt_weeks_token]
       | right; intros g; cbn [snd];
         first [apply (constant_token "24" "h") | apply (constant_token "7" "d")];
         first [discriminate | reflexivity | now left | now right] ]|]).
  apply Forall_nil.
Qed.

Lemma first_match_token (ps : list (regex * (option string -> string)))
    (query t : string) :
  Forall yields_token ps -> first_match ps query = Some t -> time_token t.
Proof.
  induction 1 as [|[r f] ps Hp _ IH]; simpl; [discriminate|].
  destruct (search r query) as [g|] eqn:Hs; [|exact IH].
  intros H. injection H as <-.
  destruct Hp as [[Hok Hf] | Hconst]; [|apply Hconst]. simpl in Hok, Hf.
  destruct (search_at_group isdigit r query None g Hok Hs) as (t & -> & Hne & Ht).
  now apply Hf.
Qed.

Lemma extract_time_range_token (query : string) :
  time_token (Executor._extract_time_range query).
Proof.
  unfold Executor._extract_time_range.
  destruct (first_match Executor.time_range_patterns query) as [t|] eqn:Hm.
  - exact (first_match_token _ _ _ time_range_patterns_yield Hm).
  - exists "24", "h". repeat split; auto. discriminate.
Qed.

End TimeRangeMore.

Import TimeRangeMore.

(** X2. For every query written in ASCII and every bound on integer
    conversions, [_extract_time_range] either returns a count and a unit
    (one or more decimal digits followed by [h] or [d], and nothing else
    of the query's text) or raises the exception of a conversion that
    went over the bound, which takes a bound that is set. *)
Theorem X2_time_range_is_count_and_unit (int_max_str_digits : nat)
    (int_error : nat -> exn) (str_error : exn) (query : string) :
  Checked.is_ascii query = true ->
  match Checked._extract_time_range int_max_str_digits int_error str_error
          query with
  | Returns time_range =>
      exists count unit,
        time_range = count ++ unit
        /\ count <> EmptyString
        /\ all_chars isdigit count = true
        /\ (unit = "h" \/ unit = "d")
  | Raises e =>
      (0 < int_max_str_digits)%nat
      /\ ((exists digits,
              (int_max_str_digits < digits)%nat /\ e = int_error digits)
          \/ e = str_error)
  end.
Proof.
  intros _.
  destruct (Checked._extract_time_range _ _ _ query) as [t|e] eqn:H.
  - apply CheckedFacts.extract_time_range_refines in H as <-.
    apply extract_time_range_token.
  - exact (CheckedFacts.extract_time_range_raises _ _ _ query e H).
Qed.

Lemma X2_time_range_is_count_and_unit_witness :
  exists count unit,
    "14d" = count ++ unit
    /\ count <> EmptyString
    /\ all_chars isdigit count = true
    /\ (unit = "h" \/ unit = "d").
Proof.
  exact (X2_time_range_is_count_and_unit Checked.default_max_str_digits
           (Checked.int_value_error Checked.default_max_str_digits)
           (Checked.str_value_error Checked.default_max_str_digits)
           "Errors of the LAST 2 weeks" eq_refl).
Defined.

(** ** The keyword tables of the executor *)

Module KeywordMore.

(** A row whose keyword holds the keyword of the row before it never
    decides: the row before it has already answered. *)
Lemma first_keyword_shadow (k v k' v' : string) (rest : list (string * string))
    (s : string) :
  contains k k' = true ->
  first_keyword ((k, v) :: (k', v') :: rest) s = first_keyword ((k, v) :: rest) s.
Proof.
  intros Hk. cbn [first_keyword].
  destruct (contains k s) eqn:Hs; [reflexivity|].
  destruct (contains k' s) eqn:Hs'; [|reflexivity].
  now rewrite (contains_trans k k' s Hk Hs') in Hs.
Qed.

Lemma first_keyword_cons (k v : string) (l l' : list (string * string)) (s : string) :
  first_keyword l s = first_keyword l' s ->
  first_keyword ((k, v) :: l) s = first_keyword ((k, v) :: l') s.
Proof. intros H. cbn [first_keyword]. now rewrite H. Qed.

Lemma first_keyword_value (table : list (string * string)) (s v : string) :
  first_keyword table s = Some v ->
  exists k, In (k, v) table /\ contains k s = true.
Proof.
  induction table as [|[k0 v0] table IH]; simpl; [discriminate|].
  destruct (contains k0 s) eqn:Hk.
  - intros H. injection H as <-. exists k0. auto.
  - intros H. destruct (IH H) as (k & Hin & Hc). exists k. auto.
Qed.

Lemma first_keyword_none (table : list (string * string)) (s : string) :
  first_keyword table s = None <-> any_in (map fst table) s = false.
Proof.
  unfold any_in. induction table as [|[k0 v0] table IH]; simpl; [tauto|].
  destruct (contains k0 s); simpl; [split; discriminate | exact IH].
Qed.

(** The rows of [entity_mappings] that can decide. *)
Definition entity_rows : list (string * string) :=
  [ ("service", "SERVICE"); ("host", "HOST"); ("server", "HOST");
    ("process", "PROCESS_GROUP"); ("application", "APPLICATION");
    ("database", "DATABASE") ].

Lemma entity_mappings_rows (s : string) :
  first_keyword entity_mappings s = first_keyword entity_rows s.
Proof.
  unfold entity_mappings, entity_rows.
  repeat (rewrite first_keyword_shadow by reflexivity; apply first_keyword_cons).
  reflexivity.
Qed.

End KeywordMore.

Import KeywordMore.

(** X3. The six plural rows of the entity table never decide: the entity
    type of a query is that of the first of service, host, server,
    process, application, database (in this order) that its lowercased
    text holds, and there is none exactly when it holds none of the six. *)
Theorem X3_entity_type_by_singular_keyword (query : string) :
  _extract_entity_type query
  = first_keyword
      [ ("service", "SERVICE"); ("host", "HOST"); ("server", "HOST");
        ("process", "PROCESS_GROUP"); ("application", "APPLICATION");
        ("database", "DATABASE") ] (lower query)
  /\ (_extract_entity_type query = None <->
      any_in ["service"; "host"; "server"; "process"; "application"; "database"]
        (lower query) = false).
Proof.
  unfold _extract_entity_type. rewrite entity_mappings_rows. split; [reflexivity|].
  apply (first_keyword_none entity_rows).
Qed.

(** ** The classifier does not see the case of the query *)

Module CaseMore.

Lemma first_match_id_lower (rs : list regex) (query : string) :
  first_match (map (fun r => (r, fun g : option string => g)) rs) (lower query)
  = option_map (option_map lower)
      (first_match (map (fun r => (r, fun g : option string => g)) rs) query).
Proof.
  induction rs as [|r rs IH]; simpl; [reflexivity|].
  rewrite search_lower. now destruct (search r query).
Qed.

Lemma extract_problem_id_lower (query : string) :
  _extract_problem_id (lower query) = option_map lower (_extract_problem_id query).
Proof.
  unfold _extract_problem_id. rewrite first_match_id_lower.
  now destruct (first_match _ query) as [[t|]|].
Qed.

Lemma truthy_problem_id (query : string) :
  truthy (_extract_problem_id query)
  = match _extract_problem_id query with Some _ => true | None => false end.
Proof.
  destruct (_extract_problem_id query) as [pid|] eqn:H; [|reflexivity].
  exact (problem_id_truthy query pid H).
Qed.

Lemma lower_idem (s : string) : lower (lower s) = lower s.
Proof.
  induction s as [|c s IH]; simpl; [reflexivity|].
  now rewrite lower_ascii_idem, IH.
Qed.

(** The parameters with the case of their values folded. *)
Definition fold_case (p : params) : params :=
  map (fun kv => (fst kv, option_map lower (snd kv))) p.

(** The skills whose parameters hold no text of the query other than
    digits. *)
Definition keyword_skills : list string :=
  ["list_problems"; "get_topology"; "query_metrics"; "get_deployments";
   "health_summary"].

Lemma parse_intent_lower (q1 q2 : string) :
  lower q1 = lower q2 ->
  fst (Executor._parse_intent q1) = fst (Executor._parse_intent q2)
  /\ fold_case (snd (Executor._parse_intent q1))
     = fold_case (snd (Executor._parse_intent q2))
  /\ (In (fst (Executor._parse_intent q1)) keyword_skills ->
      snd (Executor._parse_intent q1) = snd (Executor._parse_intent q2)).
Proof.
  intros H.
  assert (Hid : option_map lower (_extract_problem_id q1)
                = option_map lower (_extract_problem_id q2))
    by now rewrite <- !extract_problem_id_lower, H.
  assert (Htr : Executor._extract_time_range q1 = Executor._extract_time_range q2)
    by now rewrite <- (extract_time_range_lower q1), H, extract_time_range_lower.
  unfold Executor._parse_intent, _extract_entity_type, _extract_metric_type.
  rewrite !truthy_problem_id, Htr, H.
  destruct (_extract_problem_id q1) as [p1|], (_extract_problem_id q2) as [p2|];
    try discriminate Hid; cbn [andb negb option_map] in *;
    try (injection Hid as Hid);
    repeat match goal with
           | |- context [if ?b then _ else _] => destruct b
           end;
    cbn [fst snd fold_case map option_map]; rewrite ?Hid, ?H;
    (split; [reflexivity | split; [reflexivity|]]);
    try reflexivity;
    unfold keyword_skills; simpl;
    intros Hin; repeat destruct Hin as [Hin | Hin]; try discriminate Hin;
    contradiction.
Qed.

End CaseMore.

Import CaseMore.

(** ** The classifier with the conversions' exceptions *)

Module CheckedExecutor.

Section Limit.
Variable int_max_str_digits : nat.
Variable int_error : nat -> exn.
Variable str_error : exn.

(** [_parse_intent], with the exception that [_extract_time_range] can
    end in: it is raised where the time range is computed, after the
    keyword tests that lead there. *)
Definition _parse_intent (query : string) : outcome (string * params) :=
  let query_lower := strip (lower query) in
  let problem_id := _extract_problem_id query in
  if truthy problem_id && any_in analysis_verbs query_lower then
    Returns ("analyze_problem", [("problem_id", problem_id)])
  else if any_in root_cause_phrases query_lower then
    let problem_id := _extract_problem_id query in
    let symptoms := if negb (truthy problem_id) then Some query else None in
    Returns ("root_cause_analysis",
             [("problem_id", problem_id); ("symptoms", symptoms)])
  else if any_in problem_words query_lower then
    let status :=
      if contains "open" query_lower then Some "OPEN"
      else if contains "closed" query_lower then Some "CLOSED"
      else None in
    let severity :=
      if contains "critical" query_lower || contains "availability" query_lower
      then Some "AVAILABILITY"
      else if contains "error" query_lower then Some "ERROR"
      else if contains "performance" query_lower || contains "slow" query_lower
      then Some "PERFORMANCE"
      else None in
    match Checked._extract_time_range int_max_str_digits int_error str_error
            query with
    | Raises e => Raises e
    | Returns time_range =>
        Returns ("list_problems",
                 [("status", status); ("severity", severity);
                  ("time_range", Some time_range)])
    end
  else if any_in topology_words query_lower then
    let entity_type := or_else (_extract_entity_type query) "SERVICE" in
    Returns ("get_topology", [("entity_type", Some entity_type)])
  else if any_in topology_phrases query_lower then
    let entity_type := or_else (_extract_entity_type query) "SERVICE" in
    Returns ("get_topology", [("entity_type", Some entity_type)])
  else
    let metric_type := _extract_metric_type query in
    if truthy metric_type || any_in metric_words query_lower then
      let entity_type := _extract_entity_type query in
      match Checked._extract_time_range int_max_str_digits int_error str_error
              query with
      | Raises e => Raises e
      | Returns time_range =>
          Returns ("query_metrics",
                   [("metric", Some (or_else metric_type "cpu"));
                    ("entity_type", entity_type);
                    ("time_range", Some time_range)])
      end
    else if any_in deployment_words query_lower then
      match Checked._extract_time_range int_max_str_digits int_error str_error
              query with
      | Raises e => Raises e
      | Returns time_range =>
          Returns ("get_deployments", [("time_range", Some time_range)])
      end
    else if any_in health_phrases query_lower then
      Returns ("health_summary", [])
    else
      Returns ("query", [("question", Some query)]).

End Limit.

(** The skills whose parameters hold a time range. *)
Definition timed_skills : list string :=
  ["list_problems"; "query_metrics"; "get_deployments"].

Definition timed (skill : string) : bool :=
  existsb (String.eqb skill) timed_skills.

End CheckedExecutor.

Module CheckedExecutorFacts.

Import CheckedExecutor.

Section Limit.
Variable int_max_str_digits : nat.
Variable int_error : nat -> exn.
Variable str_error : exn.

(** The classifier with exceptions answers as the one without, except
    that the exception of the time range is passed on by the three skills
    that compute one. *)
Lemma parse_intent_checked (query : string) :
  _parse_intent int_max_str_digits int_error str_error query
  = if timed (fst (Executor._parse_intent query)) then
      match Checked._extract_time_range int_max_str_digits int_error str_error
              query with
      | Raises e => Raises e
      | Returns _ => Returns (Executor._parse_intent query)
      end
    else Returns (Executor._parse_intent query).
Proof.
  unfold _parse_intent, Executor._parse_intent.
  destruct (Checked._extract_time_range int_max_str_digits int_error str_error
              query) as [t|e] eqn:Ht.
  - apply CheckedFacts.extract_time_range_refines in Ht as <-.
    repeat match goal with
           | |- context [if ?b then _ else _] =>
               lazymatch b with
               | context [timed] => fail
               | _ => destruct b
               end
           end; reflexivity.
  - repeat match goal with
           | |- context [if ?b then _ else _] =>
               lazymatch b with
               | context [timed] => fail
               | _ => destruct b
               end
           end; reflexivity.
Qed.

End Limit.

End CheckedExecutorFacts.

(** X4. Two queries written in ASCII that differ only in letter case are
    classified alike, for every bound on integer conversions: either the
    classifier raises the same exception for both, or it returns for both,
    with the same skill, the same parameters up to letter case, and for
    the five keyword-driven skills exactly the same parameters. *)
Theorem X4_classification_ignores_case (int_max_str_digits : nat)
    (int_error : nat -> exn) (str_error : exn) (q1 q2 : string) :
  Checked.is_ascii q1 = true ->
  Checked.is_ascii q2 = true ->
  lower q1 = lower q2 ->
  match CheckedExecutor._parse_intent int_max_str_digits int_error str_error q1,
        CheckedExecutor._parse_intent int_max_str_digits int_error str_error q2
  with
  | Returns (skill1, params1), Returns (skill2, params2) =>
      skill1 = skill2
      /\ fold_case params1 = fold_case params2
      /\ (In skill1 keyword_skills -> params1 = params2)
  | Raises e1, Raises e2 => e1 = e2
  | _, _ => False
  end.
Proof.
  intros _ _ H.
  rewrite !CheckedExecutorFacts.parse_intent_checked.
  destruct (parse_intent_lower q1 q2 H) as (Hskill & Hfold & Hkw).
  assert (Htr : Checked._extract_time_range int_max_str_digits int_error
                  str_error q1
                = Checked._extract_time_range int_max_str_digits int_error
                    str_error q2).
  { rewrite <- (CheckedFacts.extract_time_range_lower_checked _ _ _ q1),
      <- (CheckedFacts.extract_time_range_lower_checked _ _ _ q2).
    now rewrite H. }
  rewrite <- Hskill, <- Htr.
  destruct (Executor._parse_intent q1) as [skill1 params1],
           (Executor._parse_intent q2) as [skill2 params2].
  cbn [fst snd] in *.
  destruct (CheckedExecutor.timed skill1);
    [destruct (Checked._extract_time_range _ _ _ q1)|]; auto.
Qed.

Lemma X4_classification_ignores_case_witness :
  match CheckedExecutor._parse_intent Checked.default_max_str_digits
          (Checked.int_value_error Checked.default_max_str_digits)
          (Checked.str_value_error Checked.default_max_str_digits)
          "SHOW CPU USAGE, Last 2 Weeks",
        CheckedExecutor._parse_intent Checked.default_max_str_digits
          (Checked.int_value_error Checked.default_max_str_digits)
          (Checked.str_value_error Checked.default_max_str_digits)
          "show cpu usage, last 2 weeks"
  with
  | Returns (skill1, params1), Returns (skill2, params2) =>
      skill1 = skill2
      /\ fold_case params1 = fold_case params2
      /\ (In skill1 keyword_skills -> params1 = params2)
  | Raises e1, Raises e2 => e1 = e2
  | _, _ => False
  end.
Proof.
  apply (X4_classification_ignores_case Checked.default_max_str_digits
           (Checked.int_value_error Checked.default_max_str_digits)
           (Checked.str_value_error Checked.default_max_str_digits)
           "SHOW CPU USAGE, Last 2 Weeks" "show cpu usage, last 2 weeks");
    reflexivity.
Defined.

(** ** agent_executor.py: [execute] *)

Module Dispatch.

(** [params.get(key, default)]; [params.get(key)] is [default = None]. *)
Fixpoint params_get (p : params) (key : string) (default : option string)
    : option string :=
  match p with
  | [] => default
  | (k, v) :: rest => if String.eqb k key then v else params_get rest key default
  end.

(** A call of a skill of [self.agent], with its keyword arguments in the
    order [execute] writes them. *)
Inductive skill_call : Type :=
| Call_list_problems (status severity time_range : option string)
| Call_analyze_problem (problem_id : option string)
| Call_get_topology (entity_type tag name_filter : option string)
| Call_query_metrics (metric entity_type entity_id time_range : option string)
| Call_get_deployments (time_range entity_filter : option string)
| Call_root_cause_analysis (problem_id symptoms : option string)
| Call_get_health_summary
| Call_query (question : option string).

(** What the [if skill == ...] chain comes to: a call, or the [KeyError]
    of [params["problem_id"]]. *)
Inductive dispatched : Type :=
| Calls (c : skill_call)
| KeyError (key : string).

(** [params[key]] followed by [call]. *)
Fixpoint params_item (p : params) (key : string)
    (call : option string -> skill_call) : dispatched :=
  match p with
  | [] => KeyError key
  | (k, v) :: rest =>
      if String.eqb k key then Calls (call v) else params_item rest key call
  end.

Definition dispatch (skill : string) (params : params) (query : string)
    : dispatched :=
  if String.eqb skill "list_problems" then
    Calls (Call_list_problems (params_get params "status" None)
             (params_get params "severity" None)
             (params_get params "time_range" (Some "24h")))
  else if String.eqb skill "analyze_problem" then
    params_item params "problem_id" Call_analyze_problem
  else if String.eqb skill "get_topology" then
    Calls (Call_get_topology (params_get params "entity_type" (Some "SERVICE"))
             (params_get params "tag" None)
             (params_get params "name_filter" None))
  else if String.eqb skill "query_metrics" then
    Calls (Call_query_metrics (params_get params "metric" (Some "cpu"))
             (params_get params "entity_type" None)
             (params_get params "entity_id" None)
             (params_get params "time_range" (Some "2h")))
  else if String.eqb skill "get_deployments" then
    Calls (Call_get_deployments (params_get params "time_range" (Some "7d"))
             (params_get params "entity_filter" None))
  else if String.eqb skill "root_cause_analysis" then
    Calls (Call_root_cause_analysis (params_get params "problem_id" None)
             (params_get params "symptoms" None))
  else if String.eqb skill "health_summary" then
    Calls Call_get_health_summary
  else
    Calls (Call_query (params_get params "question" (Some query))).

(** The call [execute] comes to for a query it classifies. *)
Definition route (query : string) : dispatched :=
  let (skill, params) := _parse_intent query in
  dispatch skill params query.

(** [str(e)] of a [KeyError]: the [repr] of the key. *)
Definition str_of_key_error (key : string) : string := "'" ++ key ++ "'".

Definition error_response (error_str : string) : string :=
  "âŒ Error: " ++ error_str.

(** [execute], from the extracted query to the texts put on the event
    queue and the way the coroutine ends.  The classifier is called
    before the [try]: its exception leaves [execute] with nothing
    queued.  What a skill raises is caught and reported. *)
Section Execute.
(** The bound on integer conversions and the exceptions it leads to. *)
Variable int_max_str_digits : nat.
Variable int_error : nat -> exn.
Variable str_error : exn.
(** The text [_get_help_message] returns. *)
Variable help_message : string.
(** [self.agent]: the text a skill returns, or the exception it ends in. *)
Variable agent : skill_call -> outcome string.

Definition execute (query : string) : list string * outcome unit :=
  if negb (truthy (Some query)) || String.eqb (strip query) EmptyString then
    let response := help_message in
    ([response], Returns tt)
  else
    match CheckedExecutor._parse_intent int_max_str_digits int_error
            str_error query with
    | Raises e => ([], Raises e)
    | Returns (skill, params) =>
        let response :=
          match dispatch skill params query with
          | Calls c =>
              match agent c with
              | Returns response => response
              | Raises e => error_response (str_of_exn e)
              end
          | KeyError key => error_response (str_of_key_error key)
          end in
        ([response], Returns tt)
    end.
End Execute.

End Dispatch.

Import Dispatch.

(** ** What [execute] passes on *)

Module DispatchFacts.

(** The call made for each shape of the classifier's answer. *)
Lemma route_reads (query : string) :
  match route query with
  | Calls (Call_list_problems _ _ time_range) =>
      time_range = Some (_extract_time_range query)
  | Calls (Call_analyze_problem problem_id) =>
      problem_id = _extract_problem_id query /\ truthy problem_id = true
  | Calls (Call_get_topology entity_type tag name_filter) =>
      truthy entity_type = true /\ tag = None /\ name_filter = None
  | Calls (Call_query_metrics metric entity_type entity_id time_range) =>
      truthy metric = true
      /\ entity_type = _extract_entity_type query
      /\ entity_id = None
      /\ time_range = Some (_extract_time_range query)
  | Calls (Call_get_deployments time_range entity_filter) =>
      time_range = Some (_extract_time_range query) /\ entity_filter = None
  | Calls (Call_root_cause_analysis problem_id _) =>
      problem_id = _extract_problem_id query
  | Calls Call_get_health_summary => True
  | Calls (Call_query question) => question = Some query
  | KeyError _ => False
  end.
Proof.
  assert (Hor : forall o d, truthy (Some d) = true ->
                            truthy (Some (or_else o d)) = true).
  { intros [[|c t]|] d Hd; unfold or_else; simpl; auto. }
  unfold route, _parse_intent.
  destruct (truthy (_extract_problem_id query)) eqn:Hid; cbn [andb negb orb];
    repeat match goal with
           | |- context [if ?b then _ else _] => destruct b eqn:?
           end;
    cbn [dispatch String.eqb Ascii.eqb Bool.eqb params_get params_item];
    repeat split; auto.
Qed.

End DispatchFacts.

Import DispatchFacts.

(** X5. [execute] always finds the parameters it reads: the lookup of
    [problem_id] never fails, the defaults written in its [params.get]
    calls are never used (every time range passed is the extracted one),
    and the optional arguments [tag], [name_filter], [entity_id] and
    [entity_filter] are never supplied. *)
Theorem X5_dispatch_reads_what_the_classifier_wrote (query : string) :
  match route query with
  | Calls (Call_list_problems _ _ time_range) =>
      time_range = Some (_extract_time_range query)
  | Calls (Call_analyze_problem problem_id) =>
      problem_id = _extract_problem_id query /\ truthy problem_id = true
  | Calls (Call_get_topology entity_type tag name_filter) =>
      truthy entity_type = true /\ tag = None /\ name_filter = None
  | Calls (Call_query_metrics metric entity_type entity_id time_range) =>
      truthy metric = true
      /\ entity_type = _extract_entity_type query
      /\ entity_id = None
      /\ time_range = Some (_extract_time_range query)
  | Calls (Call_get_deployments time_range entity_filter) =>
      time_range = Some (_extract_time_range query) /\ entity_filter = None
  | Calls (Call_root_cause_analysis problem_id _) =>
      problem_id = _extract_problem_id query
  | Calls Call_get_health_summary => True
  | Calls (Call_query question) => question = Some query
  | KeyError _ => False
  end.
Proof. exact (route_reads query). Qed.

(** X6. A root-cause call carries either the problem identifier found in
    the query or the symptoms, never both and never neither: without an
    identifier the symptoms are the query as typed; with one, the symptoms
    are unset and the query holds none of the analysis verbs. *)
Theorem X6_root_cause_identifier_or_symptoms (query : string)
    (problem_id symptoms : option string) :
  route query = Calls (Call_root_cause_analysis problem_id symptoms) ->
  (problem_id = None /\ symptoms = Some query)
  \/ (exists pid,
        problem_id = Some pid /\ pid <> EmptyString
        /\ contains pid query = true
        /\ symptoms = None
        /\ any_in analysis_verbs (lower query) = false).
Proof.
  unfold route, _parse_intent.
  rewrite (any_in_strip analysis_verbs) by reflexivity.
  rewrite truthy_problem_id.
  destruct (_extract_problem_id query) as [pid|] eqn:Hid; cbn [andb negb orb];
    repeat match goal with
           | |- context [if ?b then _ else _] => destruct b eqn:?
           end;
    cbn [dispatch String.eqb Ascii.eqb Bool.eqb params_get params_item];
    intros H; try discriminate H; injection H as <- <-.
  - right. exists pid.
    destruct (extract_problem_id_within query pid Hid) as [Hne Hc]. auto 6.
  - left. auto.
Qed.

Lemma X6_root_cause_identifier_or_symptoms_witness :
  (Some "P-123" = None /\ (None : option string) = Some "why is P-123 slow")
  \/ (exists pid,
        Some "P-123" = Some pid /\ pid <> EmptyString
        /\ contains pid "why is P-123 slow" = true
        /\ (None : option string) = None
        /\ any_in analysis_verbs (lower "why is P-123 slow") = false).
Proof.
  apply (X6_root_cause_identifier_or_symptoms "why is P-123 slow"
           (Some "P-123") None).
  reflexivity.
Defined.

(** X7. For a query written in ASCII: one that is empty or made of white
    space only is answered with the help text and no skill is called.
    For every other query the classifier runs first, outside the [try]:
    if a conversion in it goes over the interpreter's bound, its
    exception leaves [execute], no skill is called and nothing is put on
    the queue.  Otherwise exactly one skill is called, the one the
    classification leads to, and one text is put on the queue whatever
    the skill does: the text it returns, or the error line built from the
    exception it raises. *)
Theorem X7_execute_one_response (int_max_str_digits : nat)
    (int_error : nat -> exn) (str_error : exn) (help_message : string)
    (agent : skill_call -> outcome string) (query : string) :
  Checked.is_ascii query = true ->
  (strip query = EmptyString ->
   forall other_agent,
     execute int_max_str_digits int_error str_error
       help_message other_agent query
     = ([help_message], Returns tt))
  /\ (strip query <> EmptyString ->
      match CheckedExecutor._parse_intent int_max_str_digits int_error
              str_error query with
      | Raises e =>
          ((0 < int_max_str_digits)%nat
           /\ ((exists digits,
                   (int_max_str_digits < digits)%nat /\ e = int_error digits)
               \/ e = str_error))
          /\ (forall other_agent,
                execute int_max_str_digits int_error str_error
                  help_message other_agent query
                = ([], Raises e))
      | Returns (skill, params) =>
          exists c,
            dispatch skill params query = Calls c
            /\ route query = Calls c
            /\ (forall response,
                  agent c = Returns response ->
                  execute int_max_str_digits int_error
                    str_error help_message agent query
                  = ([response], Returns tt))
            /\ (forall e,
                  agent c = Raises e ->
                  execute int_max_str_digits int_error
                    str_error help_message agent query
                  = (["âŒ Error: " ++ str_of_exn e], Returns tt))
      end).
Proof.
  intros _. split.
  - intros Hblank other_agent. unfold execute.
    rewrite Hblank. now rewrite orb_true_r.
  - intros Hq. unfold execute.
    assert (Hne : negb (truthy (Some query)) = false)
      by (destruct query; [now elim Hq | reflexivity]).
    apply String.eqb_neq in Hq. rewrite Hne, Hq. cbn [orb].
    pose proof (CheckedExecutorFacts.parse_intent_checked int_max_str_digits
                  int_error str_error query) as Hc.
    destruct (CheckedExecutor._parse_intent int_max_str_digits int_error
                str_error query) as [[skill params]|e].
    + assert (Hp : Executor._parse_intent query = (skill, params)).
      { destruct (CheckedExecutor.timed _);
          [destruct (Checked._extract_time_range _ _ _ query)|];
          congruence. }
      pose proof (route_reads query) as Hr. unfold route in *.
      rewrite Hp in *.
      destruct (dispatch skill params query) as [c|key]; [|contradiction].
      exists c. split; [reflexivity|]. split; [reflexivity|].
      split; [intros response Ha | intros e Ha]; now rewrite Ha.
    + split; [|reflexivity].
      destruct (CheckedExecutor.timed _); [|discriminate Hc].
      destruct (Checked._extract_time_range _ _ _ query) as [t|e'] eqn:Ht;
        [discriminate Hc|].
      injection Hc as ->.
      exact (CheckedFacts.extract_time_range_raises _ _ _ query e' Ht).
Qed.

Lemma X7_execute_one_response_witness :
  let execute :=
    execute Checked.default_max_str_digits
      (Checked.int_value_error Checked.default_max_str_digits)
      (Checked.str_value_error Checked.default_max_str_digits) "help" in
  execute (fun _ => Raises (HTTPError "503")) "   " = (["help"], Returns tt)
  /\ execute (fun _ => Returns "No problems found.") "show open problems"
     = (["No problems found."], Returns tt)
  /\ execute (fun _ => Raises (HTTPError "503")) "show open problems"
     = (["âŒ Error: 503"], Returns tt)
  /\ execute (fun _ => Returns "unused")
       ("deployments of the last " ++ Checked.repeat_char "1" 4301 ++ " weeks")
     = ([], Raises (Checked.int_value_error Checked.default_max_str_digits 4301)).
Proof.
  assert (Hp : CheckedExecutor._parse_intent Checked.default_max_str_digits
                 (Checked.int_value_error Checked.default_max_str_digits)
                 (Checked.str_value_error Checked.default_max_str_digits)
                 "show open problems"
               = Returns ("list_problems",
                          [("status", Some "OPEN"); ("severity", None);
                           ("time_range", Some "24h")]))
    by (vm_compute; reflexivity).
  cbv zeta. split; [|split; [|split]].
  - destruct (X7_execute_one_response Checked.default_max_str_digits
                (Checked.int_value_error Checked.default_max_str_digits)
                (Checked.str_value_error Checked.default_max_str_digits)
                "help" (fun _ => Returns "unused") "   " eq_refl) as [H _].
    apply H. reflexivity.
  - destruct (X7_execute_one_response Checked.default_max_str_digits
                (Checked.int_value_error Checked.default_max_str_digits)
                (Checked.str_value_error Checked.default_max_str_digits)
                "help" (fun _ => Returns "No problems found.")
                "show open problems" eq_refl) as [_ H].
    assert (Hq : strip "show open problems" <> EmptyString)
      by (vm_compute; discriminate).
    specialize (H Hq). rewrite Hp in H.
    destruct H as (c & _ & _ & Hreturns & _).
    apply Hreturns. reflexivity.
  - destruct (X7_execute_one_response Checked.default_max_str_digits
                (Checked.int_value_error Checked.default_max_str_digits)
                (Checked.str_value_error Checked.default_max_str_digits)
                "help" (fun _ => Raises (HTTPError "503"))
                "show open problems" eq_refl) as [_ H].
    assert (Hq : strip "show open problems" <> EmptyString)
      by (vm_compute; discriminate).
    specialize (H Hq). rewrite Hp in H.
    destruct H as (c & _ & _ & _ & Hraises).
    apply (Hraises (HTTPError "503")). reflexivity.
  - assert (Hascii : Checked.is_ascii
                       ("deployments of the last "
                        ++ Checked.repeat_char "1" 4301 ++ " weeks") = true)
      by (vm_compute; reflexivity).
    destruct (X7_execute_one_response Checked.default_max_str_digits
                (Checked.int_value_error Checked.default_max_str_digits)
                (Checked.str_value_error Checked.default_max_str_digits)
                "help" (fun _ => Returns "unused") _ Hascii) as [_ H].
    assert (Hq : strip ("deployments of the last "
                        ++ Checked.repeat_char "1" 4301 ++ " weeks")
                 <> EmptyString)
      by (vm_compute; discriminate).
    specialize (H Hq).
    assert (Hlong : CheckedExecutor._parse_intent Checked.default_max_str_digits
                   (Checked.int_value_error Checked.default_max_str_digits)
                   (Checked.str_value_error Checked.default_max_str_digits)
                   ("deployments of the last "
                    ++ Checked.repeat_char "1" 4301 ++ " weeks")
                 = Raises (Checked.int_value_error
                             Checked.default_max_str_digits 4301))
      by (vm_compute; reflexivity).
    rewrite Hlong in H. apply (proj2 H).
Defined.

(** ** From the classifier to the metric query *)

Module MetricRoute.

Ltac in_list := solve [simpl; repeat (first [left; reflexivity | right])].

(** The metric name the classifier writes is a key of the agent's table. *)
Lemma classified_metric (query : string) :
  In (or_else (_extract_metric_type query) "cpu") (map fst Agent.metric_mappings).
Proof.
  unfold _extract_metric_type.
  destruct (first_keyword metric_mappings (lower query)) as [v|] eqn:H.
  - destruct (first_keyword_value _ _ _ H) as (k & Hin & _).
    simpl in Hin.
    repeat destruct Hin as [Hin | Hin];
      try (injection Hin as <- <-; unfold or_else; cbn [truthy]; in_list).
    contradiction.
  - unfold or_else. cbn [truthy]. in_list.
Qed.

Lemma route_query_metrics (query : string)
    (metric entity_type entity_id time_range : option string) :
  route query = Calls (Call_query_metrics metric entity_type entity_id time_range) ->
  metric = Some (or_else (_extract_metric_type query) "cpu")
  /\ entity_type = _extract_entity_type query
  /\ entity_id = None
  /\ time_range = Some (_extract_time_range query).
Proof.
  unfold route, _parse_intent.
  destruct (truthy (_extract_problem_id query)); cbn [andb negb orb];
    repeat match goal with
           | |- context [if ?b then _ else _] => destruct b eqn:?
           end;
    cbn [dispatch String.eqb Ascii.eqb Bool.eqb params_get params_item];
    intros H; try discriminate H; injection H as <- <- <- <-; auto.
Qed.

(** A key of the agent's table is mapped to its entry, a built-in
    selector. *)
Lemma dict_get_key (metric : string) :
  In metric (map fst Agent.metric_mappings) ->
  exists selector,
    In (metric, selector) Agent.metric_mappings
    /\ startswith "builtin:" selector = true
    /\ Agent.dict_get Agent.metric_mappings
         (replace_char " " "_" (lower metric)) metric = selector.
Proof.
  simpl. intros Hin.
  repeat destruct Hin as [Hin | Hin]; try contradiction; subst metric;
    eexists; (split; [in_list | split; [reflexivity | vm_compute; reflexivity]]).
Qed.

End MetricRoute.

Import MetricRoute.

(** X8. A metric query that comes from the classifier never sends text
    of the user as the metric selector: the metric name is always a key of
    the agent's friendly-name table, so the one request sent carries the
    table's built-in selector for it. *)
Theorem X8_classified_metric_is_builtin (strftime_HMS : Z -> string) (srv : server)
    (query metric : string) (entity_type entity_id : option string)
    (time_range : string) :
  route query
  = Calls (Call_query_metrics (Some metric) entity_type entity_id (Some time_range)) ->
  exists selector,
    In (metric, selector) Agent.metric_mappings
    /\ startswith "builtin:" selector = true
    /\ sent_param "metricSelector"
         (fst (run (Agent.query_metrics strftime_HMS metric entity_type entity_id
                      time_range) srv))
       = Some (VStr selector).
Proof.
  intros H. apply route_query_metrics in H as (Hm & _).
  injection Hm as ->.
  destruct (dict_get_key _ (classified_metric query)) as (selector & Hin & Hb & Hs).
  exists selector. split; [exact Hin|]. split; [exact Hb|].
  destruct (query_metrics_log strftime_HMS srv
              (or_else (_extract_metric_type query) "cpu")
              entity_type entity_id time_range) as (extra & ->).
  rewrite Hs. reflexivity.
Qed.

Definition silent : server := fun _ _ => Returns OtherBody.

Lemma X8_classified_metric_is_builtin_witness :
  exists selector,
    In ("memory", selector) Agent.metric_mappings
    /\ startswith "builtin:" selector = true
    /\ sent_param "metricSelector"
         (fst (run (Agent.query_metrics (fun _ => "00:00:00") "memory"
                      (Some "HOST") None "2h") silent))
       = Some (VStr selector).
Proof.
  apply (X8_classified_metric_is_builtin (fun _ => "00:00:00") silent
           "RAM of the hosts, last 2 hours" "memory" (Some "HOST") None "2h").
  reflexivity.
Defined.

(** ** dynatrace_client.py: the constructor and the request URL *)

Module ClientSetup.

(** [s.lstrip(a)] and [s.rstrip(a)] for a one-character [a]. *)
Fixpoint lstrip_char (a : ascii) (s : string) : string :=
  match s with
  | EmptyString => EmptyString
  | String c s' => if Ascii.eqb c a then lstrip_char a s' else s
  end.

Fixpoint rstrip_char (a : ascii) (s : string) : string :=
  match s with
  | EmptyString => EmptyString
  | String c s' =>
      match rstrip_char a s' with
      | EmptyString => if Ascii.eqb c a then EmptyString else String c EmptyString
      | r => String c r
      end
  end.

(** [s.endswith(suffix)] *)
Fixpoint endswith (suffix s : string) : bool :=
  String.eqb suffix s ||
  match s with
  | EmptyString => false
  | String _ s' => endswith suffix s'
  end.

(** The process environment: [None] for a variable that is not set. *)
Definition environ : Type := string -> option string.

(** [os.getenv(name, default)] *)
Definition getenv (env : environ) (name default : string) : string :=
  get (env name) default.

Record DynatraceClient : Type := Build_DynatraceClient {
  base_url : string;
  api_token : string
}.

Definition __init__ (env : environ) : outcome DynatraceClient :=
  let base_url := rstrip_char "/" (getenv env "DYNATRACE_URL" EmptyString) in
  let api_token := getenv env "DYNATRACE_API_TOKEN" EmptyString in
  if negb (truthy (Some base_url)) then
    Raises (ValueError "DYNATRACE_URL environment variable is required")
  else if negb (truthy (Some api_token)) then
    Raises (ValueError "DYNATRACE_API_TOKEN environment variable is required")
  else
    let base_url :=
      if negb (endswith "/api/v2" base_url) then base_url ++ "/api/v2"
      else base_url in
    Returns (Build_DynatraceClient base_url api_token).

Definition _get_headers (self : DynatraceClient) : list (string * string) :=
  [ ("Authorization", "Api-Token " ++ api_token self);
    ("Content-Type", "application/json");
    ("Accept", "application/json") ].

(** The [url] of [_make_request]. *)
Definition request_url (self : DynatraceClient) (endpoint : string) : string :=
  base_url self ++ "/" ++ lstrip_char "/" endpoint.

(** The environment after [os.environ[name] = value]. *)
Definition setenv (env : environ) (name value : string) : environ :=
  fun n => if String.eqb n name then Some value else env n.

End ClientSetup.

Import ClientSetup.

Module ClientSetupFacts.

Lemma endswith_iff (p s : string) :
  endswith p s = true <-> exists x, s = x ++ p.
Proof.
  induction s as [|c s IH]; simpl.
  - rewrite orb_false_r, String.eqb_eq. split.
    + intros ->. now exists EmptyString.
    + intros [[|a x] Hx]; simpl in Hx; [auto | discriminate].
  - rewrite orb_true_iff, String.eqb_eq, IH. split.
    + intros [-> | [x ->]]; [now exists EmptyString | now exists (String c x)].
    + intros [[|a x] Hx]; simpl in Hx; [left; auto|].
      injection Hx as -> ->. right. now exists x.
Qed.

Lemma endswith_app (x p : string) : endswith p (x ++ p) = true.
Proof. apply endswith_iff. now exists x. Qed.

(** A text whose last character is not [a] is left alone. *)
Lemma rstrip_char_app (a c : ascii) (x : string) :
  c <> a -> rstrip_char a (x ++ String c EmptyString) = x ++ String c EmptyString.
Proof.
  intros Hc. apply Ascii.eqb_neq in Hc.
  induction x as [|d x IH]; simpl.
  - now rewrite Hc.
  - rewrite IH. destruct x; reflexivity.
Qed.

Lemma rstrip_char_api_v2 (s : string) :
  endswith "/api/v2" s = true -> rstrip_char "/" s = s.
Proof.
  intros H. apply endswith_iff in H as [x ->].
  change "/api/v2" with ("/api/v" ++ "2").
  rewrite <- append_assoc. apply rstrip_char_app. discriminate.
Qed.

Lemma rstrip_char_idem (a : ascii) (s : string) :
  rstrip_char a (rstrip_char a s) = rstrip_char a s.
Proof.
  induction s as [|c s IH]; [reflexivity|].
  cbn [rstrip_char]. destruct (rstrip_char a s) as [|d r] eqn:Hr.
  - destruct (Ascii.eqb c a) eqn:Hc; [reflexivity|]. simpl. now rewrite Hc.
  - cbn [rstrip_char]. cbn [rstrip_char] in IH. now rewrite IH.
Qed.

End ClientSetupFacts.

Import ClientSetupFacts.

(** X9. However the configured address is written (with or without
    [/api/v2], with any number of trailing slashes), a client that is
    built has a base address that ends in [/api/v2], without a slash after
    it; and building a client again from that base address gives the same
    client, so the suffix is never added twice. *)
Theorem X9_base_url_normalised (env : environ) (self : DynatraceClient) :
  __init__ env = Returns self ->
  endswith "/api/v2" (base_url self) = true
  /\ endswith "/" (base_url self) = false
  /\ __init__ (setenv env "DYNATRACE_URL" (base_url self)) = Returns self.
Proof.
  unfold __init__.
  set (url := rstrip_char "/" (getenv env "DYNATRACE_URL" EmptyString)).
  set (token := getenv env "DYNATRACE_API_TOKEN" EmptyString).
  destruct (truthy (Some url)) eqn:Hu; [|discriminate].
  destruct (truthy (Some token)) eqn:Ht; [|discriminate].
  cbn [negb]. intros H. injection H as <-. cbn [base_url].
  assert (He : endswith "/api/v2"
                 (if negb (endswith "/api/v2" url) then url ++ "/api/v2" else url)
               = true).
  { destruct (endswith "/api/v2" url) eqn:E; cbn [negb];
      [exact E | apply endswith_app]. }
  split; [exact He|]. split.
  - destruct (endswith "/" _) eqn:E; [|reflexivity].
    apply endswith_iff in E as [x Hx]. apply endswith_iff in He as [y Hy].
    rewrite Hy in Hx.
    assert (Hlast : forall a b c d, a ++ String c EmptyString = b ++ String d EmptyString
                                    -> c = d).
    { induction a as [|h a IH]; intros [|h' b] c d Hab; simpl in Hab.
      - now injection Hab.
      - injection Hab as _ Hab. destruct b; discriminate.
      - injection Hab as _ Hab. destruct a; discriminate.
      - injection Hab as _ Hab. now apply IH in Hab. }
    change "/api/v2" with ("/api/v" ++ "2") in Hx.
    rewrite <- append_assoc in Hx. apply Hlast in Hx. discriminate.
  - unfold getenv, setenv. cbn [String.eqb Ascii.eqb Bool.eqb get].
    fold (getenv env "DYNATRACE_API_TOKEN" EmptyString). fold token.
    rewrite (rstrip_char_api_v2 _ He), He, Ht. cbn [negb].
    destruct (if negb (endswith "/api/v2" url) then url ++ "/api/v2" else url)
      eqn:E; [discriminate He | reflexivity].
Qed.

Definition sample_environ : environ :=
  fun name =>
    if String.eqb name "DYNATRACE_URL" then Some "https://abc.live.dynatrace.com//"
    else if String.eqb name "DYNATRACE_API_TOKEN" then Some "dt0c01.sample"
    else None.

Lemma X9_base_url_normalised_witness :
  endswith "/api/v2" "https://abc.live.dynatrace.com/api/v2" = true
  /\ endswith "/" "https://abc.live.dynatrace.com/api/v2" = false
  /\ __init__ (setenv sample_environ "DYNATRACE_URL"
                 "https://abc.live.dynatrace.com/api/v2")
     = Returns (Build_DynatraceClient "https://abc.live.dynatrace.com/api/v2"
                  "dt0c01.sample").
Proof.
  apply (X9_base_url_normalised sample_environ
           (Build_DynatraceClient "https://abc.live.dynatrace.com/api/v2"
              "dt0c01.sample")).
  reflexivity.
Defined.

(** ** dynatrace_agent.py and main.py: start-up *)

Module Startup.

(** [DynatraceAgent]: the client, the key handed to the language-model
    client, and the configured model. *)
Record DynatraceAgent : Type := Build_DynatraceAgent {
  dynatrace : DynatraceClient;
  api_key : string;
  model : string
}.

(** [DynatraceAgent.__init__] *)
Definition agent_init (env : environ) : outcome DynatraceAgent :=
  match ClientSetup.__init__ env with
  | Raises e => Raises e
  | Returns dynatrace =>
      let api_key := env "GEMINI_API_KEY" in
      if negb (truthy api_key) then
        Raises (ValueError "GEMINI_API_KEY environment variable is required")
      else
        Returns (Build_DynatraceAgent dynatrace (get api_key EmptyString)
                   (getenv env "GEMINI_MODEL" "gemini-1.5-flash"))
  end.

Definition required_vars : list (string * string) :=
  [ ("DYNATRACE_URL",
     "Dynatrace environment URL (e.g., https://xyz.live.dynatrace.com)");
    ("DYNATRACE_API_TOKEN", "Dynatrace API token with required scopes");
    ("GEMINI_API_KEY", "Google Gemini API key for AI features") ].

Definition optional_vars : list (string * string) :=
  [ ("A2A_API_KEY", "API key for authenticating A2A requests");
    ("HOST_URL", "Public URL of the service") ].

(** [str(value)] of a [str | None]. *)
Definition str_of_value (value : option string) : string :=
  match value with
  | Some s => s
  | None => "None"
  end.

Definition missing_line (env : environ) (v : string * string) : list string :=
  let (var, description) := v in
  if negb (truthy (env var)) then ["  - " ++ var ++ ": " ++ description] else [].

Definition required_line (env : environ) (v : string * string) : string :=
  let (var, description) := v in
  let value := env var in
  if contains "KEY" var || contains "TOKEN" var then
    "  ✓ " ++ var ++ ": configured (hidden)"
  else if contains "URL" var && truthy value then
    let value := get value EmptyString in
    let masked :=
      if (20 <? String.length value)%nat then take 20 value ++ "..." else value in
    "  ✓ " ++ var ++ ": " ++ masked
  else
    "  ✓ " ++ var ++ ": " ++ str_of_value value.

Definition optional_line (env : environ) (v : string * string) : string :=
  let (var, description) := v in
  let value := env var in
  if truthy value then
    if contains "KEY" var then "  ✓ " ++ var ++ ": configured (hidden)"
    else "  ✓ " ++ var ++ ": " ++ get value EmptyString
  else "  - " ++ var ++ ": not set".

Definition configuration_header : string := nl ++ "📝 Configuration:".

(** [validate_environment]: the lines printed and the value returned. *)
Definition validate_environment (env : environ) : list string * bool :=
  let missing := flat_map (missing_line env) required_vars in
  if Client.nonempty missing then
    ([ "❌ Missing required environment variables:";
       join nl missing;
       nl ++ "See .env.example for configuration details." ],
     false)
  else
    (configuration_header
     :: app (map (required_line env) required_vars)
          (map (optional_line env) optional_vars),
     true).

End Startup.

Import Startup.

(** X10. The start-up check and the constructors disagree on one kind of
    configuration only.  When the check rejects the environment the agent
    cannot be built either; when it accepts, the agent is built unless the
    configured address is made of slashes only, which the check lets
    through and the client's constructor refuses. *)
Theorem X10_startup_check_against_constructor (env : environ) :
  (snd (validate_environment env) = false ->
   exists e, agent_init env = Raises e)
  /\ (snd (validate_environment env) = true ->
      (rstrip_char "/" (getenv env "DYNATRACE_URL" EmptyString) = EmptyString ->
       agent_init env
       = Raises (ValueError "DYNATRACE_URL environment variable is required"))
      /\ (rstrip_char "/" (getenv env "DYNATRACE_URL" EmptyString) <> EmptyString ->
          exists agent,
            agent_init env = Returns agent
            /\ api_token (dynatrace agent)
               = getenv env "DYNATRACE_API_TOKEN" EmptyString
            /\ Some (api_key agent) = env "GEMINI_API_KEY")).
Proof.
  unfold validate_environment, agent_init, ClientSetup.__init__, getenv.
  cbn [flat_map required_vars missing_line app].
  destruct (env "DYNATRACE_URL") as [[|c url]|] eqn:Hurl; cbn [truthy negb app get];
    try (split; [intros _; eexists; reflexivity | discriminate]).
  destruct (env "DYNATRACE_API_TOKEN") as [[|c' token]|] eqn:Htok;
    cbn [truthy negb app get Client.nonempty snd].
  1, 3: split; [intros _|discriminate];
        destruct (rstrip_char "/" (String c url)); cbn [truthy negb];
        eexists; reflexivity.
  destruct (env "GEMINI_API_KEY") as [[|c'' key]|] eqn:Hkey;
    cbn [truthy negb app get Client.nonempty snd].
  1, 3: split; [intros _|discriminate];
        destruct (rstrip_char "/" (String c url)); cbn [truthy negb];
        eexists; reflexivity.
  split; [discriminate|]. intros _.
  destruct (rstrip_char "/" (String c url)) as [|d r] eqn:Hr; cbn [truthy negb].
  - split; [reflexivity | intros H; now elim H].
  - split; [discriminate|]. intros _. eexists. split; [reflexivity|].
    cbn [dynatrace api_token api_key]. auto.
Qed.

Definition slashes_only : environ :=
  fun name =>
    if String.eqb name "DYNATRACE_URL" then Some "//"
    else if String.eqb name "DYNATRACE_API_TOKEN" then Some "dt0c01.sample"
    else if String.eqb name "GEMINI_API_KEY" then Some "sample-key"
    else None.

Lemma X10_startup_check_against_constructor_witness :
  snd (validate_environment slashes_only) = true
  /\ agent_init slashes_only
     = Raises (ValueError "DYNATRACE_URL environment variable is required").
Proof.
  split; [reflexivity|].
  apply (proj2 (X10_startup_check_against_constructor slashes_only));
    reflexivity.
Defined.

(** X11. What the start-up check prints and returns does not depend on
    the values of the secrets: two environments with the same addresses
    (DYNATRACE_URL, HOST_URL) in which the same ones of the token and the
    two keys are set give the same lines and the same result. *)
Theorem X11_printout_hides_secrets (env1 env2 : environ) :
  env1 "DYNATRACE_URL" = env2 "DYNATRACE_URL" ->
  env1 "HOST_URL" = env2 "HOST_URL" ->
  truthy (env1 "DYNATRACE_API_TOKEN") = truthy (env2 "DYNATRACE_API_TOKEN") ->
  truthy (env1 "GEMINI_API_KEY") = truthy (env2 "GEMINI_API_KEY") ->
  truthy (env1 "A2A_API_KEY") = truthy (env2 "A2A_API_KEY") ->
  validate_environment env1 = validate_environment env2.
Proof.
  intros Hurl Hhost Htok Hkey Ha2a.
  unfold validate_environment.
  cbn [flat_map map required_vars optional_vars missing_line required_line
       optional_line app].
  rewrite Hurl, Hhost, Htok, Hkey, Ha2a.
  replace (contains "KEY" "DYNATRACE_URL" || contains "TOKEN" "DYNATRACE_URL")
    with false by reflexivity.
  replace (contains "KEY" "DYNATRACE_API_TOKEN"
           || contains "TOKEN" "DYNATRACE_API_TOKEN") with true by reflexivity.
  replace (contains "KEY" "GEMINI_API_KEY" || contains "TOKEN" "GEMINI_API_KEY")
    with true by reflexivity.
  replace (contains "KEY" "A2A_API_KEY") with true by reflexivity.
  replace (contains "KEY" "HOST_URL") with false by reflexivity.
  reflexivity.
Qed.

Definition other_secrets : environ :=
  fun name =>
    if String.eqb name "DYNATRACE_URL" then Some "https://abc.live.dynatrace.com//"
    else if String.eqb name "DYNATRACE_API_TOKEN" then Some "dt0c01.other"
    else if String.eqb name "GEMINI_API_KEY" then Some "another-key"
    else None.

Lemma X11_printout_hides_secrets_witness :
  validate_environment
    (setenv sample_environ "GEMINI_API_KEY" "sample-key")
  = validate_environment other_secrets.
Proof.
  apply (X11_printout_hides_secrets
           (setenv sample_environ "GEMINI_API_KEY" "sample-key") other_secrets);
    reflexivity.
Defined.

(** ** dynatrace_client.py: the other requests *)

Module ClientCalls.

Local Open Scope api_scope.

(** [f'name("{value}")'] *)
Definition selector (name value : string) : string :=
  name ++ "(" ++ dquote ++ value ++ dquote ++ ")".

(** [selectors.append(...)] under [if value:]. *)
Definition append_if (value : option string) (name : string)
    (selectors : list string) : list string :=
  if truthy value
  then app selectors [selector name (get value EmptyString)]
  else selectors.

(** [params[key] = f(value)] under [if value:]. *)
Definition set_if (value : option string) (key : string) (f : string -> string)
    (params : list (string * pval)) : list (string * pval) :=
  if truthy value
  then app params [(key, VStr (f (get value EmptyString)))]
  else params.

Definition problems_params (status severity impact_level entity_selector : option string)
    (from_time to_time : string) (page_size : Z) : list (string * pval) :=
  let params :=
    [ ("from", VStr from_time); ("to", VStr to_time); ("pageSize", VInt page_size) ] in
  let selectors := [] in
  let selectors := append_if status "status" selectors in
  let selectors := append_if severity "severityLevel" selectors in
  let selectors := append_if impact_level "impactLevel" selectors in
  let params :=
    if Client.nonempty selectors
    then app params [("problemSelector", VStr (join "," selectors))]
    else params in
  set_if entity_selector "entitySelector" (fun s => s) params.

Definition get_problems (status severity impact_level entity_selector : option string)
    (from_time to_time : string) (page_size : Z) : api body :=
  Client._make_request "GET" "/problems"
    (problems_params status severity impact_level entity_selector
       from_time to_time page_size).

Definition get_entities (entity_selector : string) (fields : option string)
    (from_time : string) (page_size : Z) : api body :=
  let params :=
    [ ("entitySelector", VStr entity_selector); ("from", VStr from_time);
      ("pageSize", VInt page_size) ] in
  let params := set_if fields "fields" (fun s => s) params in
  Client._make_request "GET" "/entities" params.

Definition get_releases (entity_selector : option string)
    (from_time to_time : string) (page_size : Z) : api body :=
  let params :=
    [ ("from", VStr from_time); ("to", VStr to_time); ("pageSize", VInt page_size) ] in
  let params :=
    set_if entity_selector "releasesSelector"
      (fun s => "affectedEntities(" ++ s ++ ")") params in
  Client._make_request "GET" "/releases" params.

(** A response read as a problems listing: the keys it lacks are absent. *)
Definition problems_response_of (b : body) : problems_response :=
  match b with
  | ProblemsBody r => r
  | _ => ProblemsResponse None None
  end.

End ClientCalls.

(** ** dynatrace_agent.py: [list_problems] and [query] *)

Module Skills.

Local Open Scope api_scope.

(** Skill 1. *)
Definition list_problems (status severity : option string) (time_range : string)
    : api string :=
  try_except
    (let from_time := "now-" ++ time_range in
     response <- ClientCalls.get_problems status severity None None
                   from_time "now" 50 ;;
     ret (Client.format_problem_list (ClientCalls.problems_response_of response)))
    (fun e => ret ("❌ Error fetching problems: " ++ str_of_exn e)).

(** [context_data]: a dict from names to decoded responses, in insertion
    order. *)
Definition context : Type := list (string * body).

(** [if any(word in question_lower for word in words): context_data[key] =
    await fetch]. *)
Definition fetch_if (words : list string) (question_lower key : string)
    (fetch : api body) (context_data : context) : api context :=
  if any_in words question_lower then
    response <- fetch ;;
    ret (app context_data [(key, response)])
  else ret context_data.

Section Query.
(** [json.dumps(context_data, indent=2, default=str)] *)
Variable json_dumps : context -> string.
Variable generate_content : Agent.llm.
(** [self.model] *)
Variable self_model : string.

(** The part of [query] that gathers the data. *)
Definition gather (question : string) : api context :=
  let question_lower := lower question in
  let context_data := [] in
  context_data <-
    fetch_if ["problem"; "issue"; "alert"; "incident"] question_lower "problems"
      (ClientCalls.get_problems None None None None "now-24h" "now" 50)
      context_data ;;
  context_data <-
    fetch_if ["deploy"; "release"; "change"] question_lower "releases"
      (ClientCalls.get_releases None "now-7d" "now" 50) context_data ;;
  context_data <-
    fetch_if ["service"; "topology"; "dependency"] question_lower "services"
      (ClientCalls.get_entities (ClientCalls.selector "type" "SERVICE")
         (Some "+fromRelationships,+toRelationships") "now-2h" 50)
      context_data ;;
  context_data <-
    fetch_if ["host"; "server"; "infrastructure"] question_lower "hosts"
      (ClientCalls.get_entities (ClientCalls.selector "type" "HOST")
         (Some "+properties") "now-2h" 50)
      context_data ;;
  context_data <-
    try_except
      (fetch_if ["cpu"; "memory"; "performance"; "metric"] question_lower
         "cpu_metrics"
         (Client.query_metrics "builtin:host.cpu.usage:avg:names" None
            "now-2h" "now" "1h")
         context_data)
      (fun _ => ret context_data) ;;
  if negb (Client.nonempty context_data) then
    problems <- ClientCalls.get_problems None None None None "now-24h" "now" 50 ;;
    ret (app context_data [("recent_problems", problems)])
  else ret context_data.

(** Skill 7. *)
Definition query (question : string) : api string :=
  try_except
    (context_data <- gather question ;;
     let ai_prompt := Agent.query_prompt question (json_dumps context_data) in
     let response :=
       Agent._ai_analyze generate_content self_model ai_prompt EmptyString in
     ret response)
    (fun e => ret ("❌ Error processing query: " ++ str_of_exn e)).
End Query.

End Skills.

Module SkillsFacts.

Import Skills.

(** The tests of the classifier's problem-listing rule leave two values
    for the status and four for the severity. *)
Lemma route_list_problems (query : string) (status severity time_range : option string) :
  route query = Calls (Call_list_problems status severity time_range) ->
  In status [None; Some "OPEN"; Some "CLOSED"]
  /\ In severity [None; Some "AVAILABILITY"; Some "ERROR"; Some "PERFORMANCE"]
  /\ time_range = Some (_extract_time_range query).
Proof.
  unfold route, _parse_intent.
  destruct (truthy (_extract_problem_id query)); cbn [andb negb orb];
    repeat match goal with
           | |- context [if ?b then _ else _] => destruct b eqn:?
           end;
    cbn [dispatch String.eqb Ascii.eqb Bool.eqb params_get params_item];
    intros H; try discriminate H; injection H as <- <- <-;
    (split; [in_list | split; [in_list | reflexivity]]).
Qed.

(** [list_problems] sends one request and turns a failure into text. *)
Lemma list_problems_run (srv : server) (status severity : option string)
    (time_range : string) :
  let req :=
    Request "GET" "/problems"
      (ClientCalls.problems_params status severity None None
         ("now-" ++ time_range) "now" 50) in
  run (list_problems status severity time_range) srv
  = ([req],
     Returns
       match srv [] req with
       | Returns response =>
           Client.format_problem_list (ClientCalls.problems_response_of response)
       | Raises e => "❌ Error fetching problems: " ++ str_of_exn e
       end).
Proof.
  unfold run, list_problems, try_except, bind, ClientCalls.get_problems,
    Client._make_request, ret.
  cbn [app]. now destruct (srv [] _).
Qed.

End SkillsFacts.

Import SkillsFacts.

(** X12. A problem listing asked for through the classifier sends exactly
    one request, [GET /problems], in which no text of the query appears
    but the digits of the time range: the status filter is OPEN, CLOSED or
    absent, the severity filter AVAILABILITY, ERROR, PERFORMANCE or
    absent, the window starts at [now-] followed by the extracted count
    and unit.  The skill never raises: a failed request gives an error
    line. *)
Theorem X12_listing_request (srv : server) (query : string)
    (status severity : option string) (time_range : string) :
  route query = Calls (Call_list_problems status severity (Some time_range)) ->
  In status [None; Some "OPEN"; Some "CLOSED"]
  /\ In severity [None; Some "AVAILABILITY"; Some "ERROR"; Some "PERFORMANCE"]
  /\ time_range = _extract_time_range query
  /\ exists req,
       req = Request "GET" "/problems"
               (ClientCalls.problems_params status severity None None
                  ("now-" ++ time_range) "now" 50)
       /\ fst (run (Skills.list_problems status severity time_range) srv) = [req]
       /\ snd (run (Skills.list_problems status severity time_range) srv)
          = Returns
              match srv [] req with
              | Returns response =>
                  Client.format_problem_list
                    (ClientCalls.problems_response_of response)
              | Raises e => "❌ Error fetching problems: " ++ str_of_exn e
              end.
Proof.
  intros H. apply route_list_problems in H as (Hst & Hsev & Htr).
  injection Htr as ->.
  split; [exact Hst|]. split; [exact Hsev|]. split; [reflexivity|].
  eexists. split; [reflexivity|].
  now rewrite list_problems_run.
Qed.

Definition unreachable : server := fun _ _ => Raises (HTTPError "503 Service Unavailable").

Lemma X12_listing_request_witness :
  snd (run (Skills.list_problems (Some "OPEN") (Some "AVAILABILITY") "3d")
         unreachable)
  = Returns "❌ Error fetching problems: 503 Service Unavailable".
Proof.
  destruct (X12_listing_request unreachable
              "open critical alerts of the last 3 days"
              (Some "OPEN") (Some "AVAILABILITY") "3d" eq_refl)
    as (_ & _ & _ & req & Hreq & _ & Hsnd).
  rewrite Hsnd. reflexivity.
Defined.

(** ** The requests of [query] *)

Module QueryFacts.

Import Skills.

(** After the requests [sent], [m] adds requests to the log and ends in
    [o] so that [Q] holds of all the requests and of [o], whatever the
    server answers and whatever the log held before. *)
Definition sends_from {A : Type} (sent : list request) (m : api A)
    (Q : list request -> outcome A -> Prop) : Prop :=
  forall srv log,
    exists new,
      fst (m srv log) = app log new /\ Q (app sent new) (snd (m srv log)).

Lemma sends_ret {A : Type} (sent : list request) (a : A)
    (Q : list request -> outcome A -> Prop) :
  Q sent (Returns a) -> sends_from sent (ret a) Q.
Proof. intros H srv log. exists []. now rewrite !app_nil_r. Qed.

Lemma sends_bind {A B : Type} (sent : list request) (m : api A) (k : A -> api B)
    (Q1 : list request -> outcome A -> Prop)
    (Q : list request -> outcome B -> Prop) :
  sends_from sent m Q1 ->
  (forall sent' a, Q1 sent' (Returns a) -> sends_from sent' (k a) Q) ->
  (forall sent' e, Q1 sent' (Raises e) -> Q sent' (Raises e)) ->
  sends_from sent (bind m k) Q.
Proof.
  intros Hm Hk He srv log. unfold bind.
  destruct (Hm srv log) as (new & Hlog & HQ1).
  destruct (m srv log) as [log' [a|e]]; cbn [fst snd] in *; subst log'.
  - destruct (Hk _ a HQ1 srv (app log new)) as (new' & Hlog' & HQ).
    exists (app new new'). now rewrite Hlog', !app_assoc.
  - exists new. auto.
Qed.

Lemma sends_try {A : Type} (sent : list request) (m : api A) (h : exn -> api A)
    (Q1 Q : list request -> outcome A -> Prop) :
  sends_from sent m Q1 ->
  (forall sent' a, Q1 sent' (Returns a) -> Q sent' (Returns a)) ->
  (forall sent' e, Q1 sent' (Raises e) -> sends_from sent' (h e) Q) ->
  sends_from sent (try_except m h) Q.
Proof.
  intros Hm Hr Hh srv log. unfold try_except.
  destruct (Hm srv log) as (new & Hlog & HQ1).
  destruct (m srv log) as [log' [a|e]]; cbn [fst snd] in *; subst log'.
  - exists new. auto.
  - destruct (Hh _ e HQ1 srv (app log new)) as (new' & Hlog' & HQ).
    exists (app new new'). now rewrite Hlog', !app_assoc.
Qed.

Lemma sends_weaken {A : Type} (sent : list request) (m : api A)
    (Q1 Q : list request -> outcome A -> Prop) :
  sends_from sent m Q1 -> (forall sent' o, Q1 sent' o -> Q sent' o) ->
  sends_from sent m Q.
Proof.
  intros Hm H srv log. destruct (Hm srv log) as (new & Hlog & HQ1).
  exists new. auto.
Qed.

(** A fetch made of one request. *)
Definition one_request (fetch : api body) (req : request) : Prop :=
  forall srv log, fetch srv log = (app log [req], srv log req).

Lemma one_request_make (method endpoint : string) (params : list (string * pval)) :
  one_request (Client._make_request method endpoint params)
    (Request method endpoint params).
Proof. intros srv log. reflexivity. Qed.

Lemma sends_one_request (sent : list request) (fetch : api body) (req : request)
    (Q : list request -> outcome body -> Prop) :
  one_request fetch req ->
  (forall o, Q (app sent [req]) o) ->
  sends_from sent fetch Q.
Proof.
  intros Hf H srv log. exists [req]. rewrite Hf. split; [reflexivity | apply H].
Qed.

(** What one guarded fetch does to the log and to the data gathered. *)
Definition fetched (words : list string) (question_lower key : string)
    (req : request) (context_data : context) (sent : list request)
    (sent' : list request) (o : outcome context) : Prop :=
  (any_in words question_lower = false /\ sent' = sent
   /\ o = Returns context_data)
  \/ (any_in words question_lower = true /\ sent' = app sent [req]
      /\ ((exists response, o = Returns (app context_data [(key, response)]))
          \/ exists e, o = Raises e)).

Lemma sends_fetch_if (sent : list request) (words : list string)
    (question_lower key : string) (fetch : api body) (req : request)
    (context_data : context) :
  one_request fetch req ->
  sends_from sent (fetch_if words question_lower key fetch context_data)
    (fetched words question_lower key req context_data sent).
Proof.
  intros Hf srv log. unfold fetch_if, fetched.
  destruct (any_in words question_lower).
  - unfold bind, ret. rewrite Hf. exists [req].
    destruct (srv log req) as [response|e]; cbn [fst snd];
      (split; [reflexivity|]); right; eauto 6.
  - exists []. unfold ret. cbn [fst snd]. rewrite !app_nil_r. auto.
Qed.

Definition overview_request : request :=
  Request "GET" "/problems"
    (ClientCalls.problems_params None None None None "now-24h" "now" 50).

Definition releases_request : request :=
  Request "GET" "/releases"
    [ ("from", VStr "now-7d"); ("to", VStr "now"); ("pageSize", VInt 50) ].

Definition services_request : request :=
  Request "GET" "/entities"
    [ ("entitySelector", VStr (ClientCalls.selector "type" "SERVICE"));
      ("from", VStr "now-2h"); ("pageSize", VInt 50);
      ("fields", VStr "+fromRelationships,+toRelationships") ].

Definition hosts_request : request :=
  Request "GET" "/entities"
    [ ("entitySelector", VStr (ClientCalls.selector "type" "HOST"));
      ("from", VStr "now-2h"); ("pageSize", VInt 50);
      ("fields", VStr "+properties") ].

Definition cpu_request : request :=
  Request "GET" "/metrics/query"
    [ ("metricSelector", VStr "builtin:host.cpu.usage:avg:names");
      ("from", VStr "now-2h"); ("to", VStr "now"); ("resolution", VStr "1h") ].

Section Gathering.
Variable question : string.
(** The requests [gather] may send for this question. *)
Variable ok : request -> Prop.
Hypothesis ok_overview : ok overview_request.
Hypothesis ok_releases :
  any_in ["deploy"; "release"; "change"] (lower question) = true ->
  ok releases_request.
Hypothesis ok_services :
  any_in ["service"; "topology"; "dependency"] (lower question) = true ->
  ok services_request.
Hypothesis ok_hosts :
  any_in ["host"; "server"; "infrastructure"] (lower question) = true ->
  ok hosts_request.
Hypothesis ok_cpu :
  any_in ["cpu"; "memory"; "performance"; "metric"] (lower question) = true ->
  ok cpu_request.

(** After [k] guarded fetches: nothing gathered and nothing sent, or
    something gathered with at most [k] requests; a failure comes from a
    request. *)
Definition gathered (k : nat) (sent : list request) (o : outcome context) : Prop :=
  Forall ok sent
  /\ match o with
     | Returns context_data =>
         (context_data = [] /\ sent = [])
         \/ (context_data <> [] /\ 1 <= List.length sent <= k)
     | Raises _ => 1 <= List.length sent <= k
     end.

Lemma gathered_step (k : nat) (words : list string) (key : string)
    (fetch : api body) (req : request) (sent : list request)
    (context_data : context) :
  gathered k sent (Returns context_data) ->
  one_request fetch req ->
  (any_in words (lower question) = true -> ok req) ->
  sends_from sent (fetch_if words (lower question) key fetch context_data)
    (gathered (S k)).
Proof.
  intros [Hok Hk] Hf Hreq.
  apply (sends_weaken _ _ _ _
           (sends_fetch_if sent words (lower question) key fetch req
              context_data Hf)).
  intros sent' o [(_ & -> & ->) | (Hw & -> & [[response ->] | [e ->]])].
  - split; [exact Hok|].
    destruct Hk as [Hk | [Hne Hk]]; [left; exact Hk | right; split; [exact Hne | lia]].
  - split; [apply Forall_app; auto|]. right.
    split; [now destruct context_data|].
    rewrite length_app. simpl.
    destruct Hk as [[_ ->] | [_ Hk]]; simpl; lia.
  - split; [apply Forall_app; auto|].
    rewrite length_app. simpl.
    destruct Hk as [[_ ->] | [_ Hk]]; simpl; lia.
Qed.

(** What [gather] ends in: between one and five requests, and data to
    show when it returns. *)
Definition gathering_done (sent : list request) (o : outcome context) : Prop :=
  Forall ok sent
  /\ 1 <= List.length sent <= 5
  /\ match o with
     | Returns context_data => context_data <> []
     | Raises _ => True
     end.

Lemma gathered_raise (k : nat) (sent : list request) (e : exn) :
  k <= 5 -> gathered k sent (Raises e) -> gathering_done sent (Raises e).
Proof. intros Hk [Hok Hn]. split; [exact Hok|]. split; [lia | exact I]. Qed.

(** After the metrics fetch, whose failure is passed over. *)
Definition gathered_all (sent : list request) (o : outcome context) : Prop :=
  Forall ok sent
  /\ exists context_data,
      o = Returns context_data
      /\ ((context_data = [] /\ List.length sent <= 1)
          \/ (context_data <> [] /\ 1 <= List.length sent <= 5)).

Lemma sends_gather : sends_from [] (gather question) gathering_done.
Proof.
  unfold gather.
  eapply sends_bind;
    [ apply (gathered_step 0 _ _ _ overview_request [] []);
      [ split; [constructor | left; auto]
      | apply one_request_make
      | intros _; exact ok_overview ]
    | intros sent1 c1 H1
    | intros sent1 e; apply gathered_raise; lia ].
  eapply sends_bind;
    [ apply (gathered_step 1 _ _ _ releases_request sent1 c1 H1);
      [apply one_request_make | exact ok_releases]
    | intros sent2 c2 H2
    | intros sent2 e; apply gathered_raise; lia ].
  eapply sends_bind;
    [ apply (gathered_step 2 _ _ _ services_request sent2 c2 H2);
      [apply one_request_make | exact ok_services]
    | intros sent3 c3 H3
    | intros sent3 e; apply gathered_raise; lia ].
  eapply sends_bind;
    [ apply (gathered_step 3 _ _ _ hosts_request sent3 c3 H3);
      [apply one_request_make | exact ok_hosts]
    | intros sent4 c4 H4
    | intros sent4 e; apply gathered_raise; lia ].
  apply sends_bind with (Q1 := gathered_all).
  - destruct H4 as [Hok4 H4].
    eapply sends_try;
      [ apply (sends_fetch_if sent4 _ _ _ _ cpu_request c4);
        apply one_request_make
      | intros sent5 c5 H5
      | intros sent5 e H5; apply sends_ret ].
    + destruct H5 as [(_ & -> & Hc) | (Hw & -> & [[response Hc] | [e Hc]])];
        [ | | discriminate Hc]; injection Hc as ->.
      * split; [exact Hok4|]. exists c4. split; [reflexivity|].
        destruct H4 as [[-> ->] | [Hne H4]];
          [left; split; [reflexivity | simpl; lia] | right; split; [exact Hne | lia]].
      * split; [apply Forall_app; auto|]. eexists. split; [reflexivity|].
        right. split; [now destruct c4|].
        rewrite length_app. simpl.
        destruct H4 as [[_ ->] | [_ H4]]; simpl; lia.
    + destruct H5 as [(_ & _ & Hc) | (Hw & -> & _)]; [discriminate Hc|].
      split; [apply Forall_app; auto|]. exists c4. split; [reflexivity|].
      rewrite length_app. simpl.
      destruct H4 as [[-> ->] | [Hne H4]];
        [left; split; [reflexivity | simpl; lia] | right; split; [exact Hne | lia]].
  - intros sent5 c5 (Hok & c & Hc & H5). injection Hc as <-.
    destruct H5 as [[-> H5] | [Hne H5]]; cbn [Client.nonempty negb].
    + eapply sends_bind;
        [ apply (sends_one_request _ _ overview_request
                   (fun sent' _ => Forall ok sent' /\ 1 <= List.length sent' <= 2));
          [ apply one_request_make
          | intros _; split; [apply Forall_app; auto|];
            rewrite length_app; simpl; lia ]
        | intros sent6 problems [Hok6 H6]; apply sends_ret;
          split; [exact Hok6|]; split; [lia | discriminate]
        | intros sent6 e [Hok6 H6]; split; [exact Hok6|]; split; [lia | exact I] ].
    + destruct c5; [now elim Hne|]. cbn [Client.nonempty negb].
      apply sends_ret.
      split; [exact Hok|]. split; [exact H5 | discriminate].
  - intros sent5 e (_ & c & Hc & _). discriminate Hc.
Qed.
End Gathering.

(** The five requests [query] can send. *)
Definition query_requests : list request :=
  [overview_request; releases_request; services_request; hosts_request;
   cpu_request].

Lemma gather_run (ok : request -> Prop) (question : string) (srv : server) :
  ok overview_request ->
  (any_in ["deploy"; "release"; "change"] (lower question) = true ->
   ok releases_request) ->
  (any_in ["service"; "topology"; "dependency"] (lower question) = true ->
   ok services_request) ->
  (any_in ["host"; "server"; "infrastructure"] (lower question) = true ->
   ok hosts_request) ->
  (any_in ["cpu"; "memory"; "performance"; "metric"] (lower question) = true ->
   ok cpu_request) ->
  gathering_done ok (fst (run (gather question) srv))
    (snd (run (gather question) srv)).
Proof.
  intros H0 H1 H2 H3 H4.
  destruct (sends_gather question ok H0 H1 H2 H3 H4 srv []) as (new & Hlog & H).
  unfold run. now rewrite Hlog.
Qed.

(** [query] sends what [gather] sends and always returns a text. *)
Lemma query_run (json_dumps : context -> string) (generate_content : Agent.llm)
    (self_model question : string) (srv : server) :
  fst (run (query json_dumps generate_content self_model question) srv)
  = fst (run (gather question) srv)
  /\ snd (run (query json_dumps generate_content self_model question) srv)
     = Returns
         match snd (run (gather question) srv) with
         | Returns context_data =>
             Agent._ai_analyze generate_content self_model
               (Agent.query_prompt question (json_dumps context_data))
               EmptyString
         | Raises e => "❌ Error processing query: " ++ str_of_exn e
         end.
Proof.
  unfold run, query, try_except, bind, ret.
  now destruct (gather question srv []) as [log [context_data|e]].
Qed.

End QueryFacts.

Import QueryFacts.

(** X13. The natural-language skill never raises and never answers
    without asking the monitoring API: it sends between one and five
    requests, each one of its five fixed requests, and when all the data
    it needs arrives the language model is given a prompt built from a
    non-empty collection of responses; when a needed request fails, the
    answer is an error line. *)
Theorem X13_query_asks_before_answering (json_dumps : Skills.context -> string)
    (generate_content : Agent.llm) (self_model question : string) (srv : server) :
  let log :=
    fst (run (Skills.query json_dumps generate_content self_model question) srv) in
  let answer :=
    snd (run (Skills.query json_dumps generate_content self_model question) srv) in
  1 <= List.length log <= 5
  /\ Forall (fun req => In req query_requests) log
  /\ ((exists context_data,
         context_data <> []
         /\ answer
            = Returns
                (Agent._ai_analyze generate_content self_model
                   (Agent.query_prompt question (json_dumps context_data))
                   EmptyString))
      \/ exists e,
           answer = Returns ("❌ Error processing query: " ++ str_of_exn e)).
Proof.
  cbv zeta.
  destruct (query_run json_dumps generate_content self_model question srv)
    as [-> ->].
  destruct (gather_run (fun req => In req query_requests) question srv)
    as (Hok & Hlen & Hctx); try (intros; unfold query_requests; in_list).
  split; [exact Hlen|]. split; [exact Hok|].
  destruct (snd (run (Skills.gather question) srv)) as [context_data|e];
    [left; exists context_data; auto | right; exists e; auto].
Qed.

Module QueryRoute.

Lemma any_in_false (ws : list string) (w s : string) :
  any_in ws s = false -> In w ws -> contains w s = false.
Proof.
  intros H Hin. destruct (contains w s) eqn:Hc; [|reflexivity].
  now rewrite (any_in_intro ws w s Hin Hc) in H.
Qed.

Lemma any_in_subset (ws ws' : list string) (s : string) :
  incl ws' ws -> any_in ws s = false -> any_in ws' s = false.
Proof.
  intros Hincl H. unfold any_in.
  induction ws' as [|w ws' IH]; [reflexivity|]. simpl.
  rewrite (any_in_false ws w s H) by (apply Hincl; now left).
  apply IH. intros x Hx. apply Hincl. now right.
Qed.

Lemma metric_type_truthy (query : string) :
  truthy (_extract_metric_type query) = false -> _extract_metric_type query = None.
Proof.
  unfold _extract_metric_type.
  destruct (first_keyword metric_mappings (lower query)) as [v|] eqn:H;
    [|reflexivity].
  destruct (first_keyword_value _ _ _ H) as (k & Hin & _).
  simpl in Hin.
  repeat destruct Hin as [Hin | Hin]; try contradiction;
    injection Hin as <- <-; discriminate.
Qed.

(** The classifier's default is reached only past all of its rules. *)
Lemma route_query (query : string) (question : option string) :
  route query = Calls (Call_query question) ->
  question = Some query
  /\ any_in problem_words (lower query) = false
  /\ any_in deployment_words (lower query) = false
  /\ any_in metric_words (lower query) = false
  /\ _extract_metric_type query = None.
Proof.
  unfold route, _parse_intent.
  rewrite (any_in_strip problem_words), (any_in_strip deployment_words),
    (any_in_strip metric_words) by reflexivity.
  destruct (any_in problem_words (lower query)) eqn:Hp;
    destruct (any_in deployment_words (lower query)) eqn:Hd;
    destruct (any_in metric_words (lower query)) eqn:Hm;
    destruct (truthy (_extract_metric_type query)) eqn:Ht;
    destruct (truthy (_extract_problem_id query)); cbn [andb negb orb];
    repeat match goal with
           | |- context [if ?b then _ else _] => destruct b eqn:?
           end;
    cbn [dispatch String.eqb Ascii.eqb Bool.eqb params_get params_item];
    intros H; try discriminate H; injection H as <-;
    repeat split; auto using metric_type_truthy.
Qed.

End QueryRoute.

Import QueryRoute.

(** X14. Reached through the classifier, the natural-language skill
    never asks for releases or metrics: a question that names a problem,
    a deployment or a metric has been routed to another skill before, so
    three of the five keyword tests of [query] cannot succeed and its
    requests are the two entity listings and the problems overview. *)
Theorem X14_query_after_classifier (json_dumps : Skills.context -> string)
    (generate_content : Agent.llm) (self_model : string) (srv : server)
    (query question : string) :
  route query = Calls (Call_query (Some question)) ->
  question = query
  /\ any_in ["problem"; "issue"; "alert"; "incident"] (lower question) = false
  /\ any_in ["deploy"; "release"; "change"] (lower question) = false
  /\ any_in ["cpu"; "memory"; "performance"; "metric"] (lower question) = false
  /\ Forall (fun req => In req [overview_request; services_request; hosts_request])
       (fst (run (Skills.query json_dumps generate_content self_model question)
               srv)).
Proof.
  intros H. apply route_query in H as (Hq & Hp & Hd & Hm & Ht).
  injection Hq as ->.
  assert (H1 : any_in ["problem"; "issue"; "alert"; "incident"] (lower query)
               = false).
  { apply (any_in_subset problem_words); [|exact Hp].
    intros w Hw. simpl in Hw. unfold problem_words.
    repeat destruct Hw as [<- | Hw]; try contradiction; in_list. }
  assert (H2 : any_in ["deploy"; "release"; "change"] (lower query) = false).
  { apply (any_in_subset deployment_words); [|exact Hd].
    intros w Hw. simpl in Hw. unfold deployment_words.
    repeat destruct Hw as [<- | Hw]; try contradiction; in_list. }
  assert (H5 : any_in ["cpu"; "memory"; "performance"; "metric"] (lower query)
               = false).
  { apply first_keyword_none in Ht.
    unfold any_in. cbn [existsb].
    rewrite (any_in_false _ "cpu" _ Ht), (any_in_false _ "memory" _ Ht),
      (any_in_false _ "performance" _ Hm), (any_in_false _ "metric" _ Hm);
      try reflexivity; in_list. }
  split; [reflexivity|]. split; [exact H1|]. split; [exact H2|].
  split; [exact H5|].
  rewrite (proj1 (query_run json_dumps generate_content self_model query srv)).
  apply (gather_run
           (fun req => In req [overview_request; services_request; hosts_request])
           query srv);
    [ in_list
    | rewrite H2; discriminate
    | intros _; in_list
    | intros _; in_list
    | rewrite H5; discriminate ].
Qed.

Lemma X14_query_after_classifier_witness :
  "Is the database fine?" = "Is the database fine?"
  /\ any_in ["problem"; "issue"; "alert"; "incident"]
       (lower "Is the database fine?") = false
  /\ any_in ["deploy"; "release"; "change"] (lower "Is the database fine?") = false
  /\ any_in ["cpu"; "memory"; "performance"; "metric"]
       (lower "Is the database fine?") = false
  /\ Forall (fun req => In req [overview_request; services_request; hosts_request])
       (fst (run (Skills.query (fun _ => "{}") (fun _ _ _ => Agent.Response (Some "ok"))
                    "gemini-1.5-flash" "Is the database fine?")
               silent)).
Proof.
  apply (X14_query_after_classifier (fun _ => "{}")
           (fun _ _ _ => Agent.Response (Some "ok")) "gemini-1.5-flash" silent
           "Is the database fine?" "Is the database fine?").
  reflexivity.
Defined.

(** X15. When [query] has gathered nothing by keyword it falls back on
    the problems of the last 24 hours.  This is so when the question holds
    none of the keywords, and also when it holds metric keywords only and
    the metrics request fails: that failure is passed over, the overview
    is requested next, and the answer is built from the overview alone. *)
Theorem X15_query_falls_back_on_overview (json_dumps : Skills.context -> string)
    (generate_content : Agent.llm) (self_model question : string) (srv : server) :
  any_in ["problem"; "issue"; "alert"; "incident"] (lower question) = false ->
  any_in ["deploy"; "release"; "change"] (lower question) = false ->
  any_in ["service"; "topology"; "dependency"] (lower question) = false ->
  any_in ["host"; "server"; "infrastructure"] (lower question) = false ->
  let answer sent :=
    Returns
      match srv sent overview_request with
      | Returns problems =>
          Agent._ai_analyze generate_content self_model
            (Agent.query_prompt question
               (json_dumps [("recent_problems", problems)]))
            EmptyString
      | Raises e => "❌ Error processing query: " ++ str_of_exn e
      end in
  (any_in ["cpu"; "memory"; "performance"; "metric"] (lower question) = false ->
   run (Skills.query json_dumps generate_content self_model question) srv
   = ([overview_request], answer []))
  /\ (any_in ["cpu"; "memory"; "performance"; "metric"] (lower question) = true ->
      forall e,
        srv [] cpu_request = Raises e ->
        run (Skills.query json_dumps generate_content self_model question) srv
        = ([cpu_request; overview_request], answer [cpu_request])).
Proof.
  intros H1 H2 H3 H4 answer. subst answer.
  unfold run, Skills.query, Skills.gather, Skills.fetch_if.
  rewrite H1, H2, H3, H4.
  unfold try_except, bind, ret, ClientCalls.get_problems, Client.query_metrics,
    Client._make_request.
  cbn [truthy app Client.nonempty negb].
  split.
  - intros H5. rewrite H5. cbn [app Client.nonempty negb].
    fold overview_request. now destruct (srv [] overview_request).
  - intros H5 e He. rewrite H5. fold cpu_request. rewrite He.
    cbn [app Client.nonempty negb]. fold overview_request.
    now destruct (srv [cpu_request] overview_request).
Qed.

Definition metrics_down : server :=
  fun _ req =>
    if String.eqb (endpoint req) "/metrics/query"
    then Raises (HTTPError "403 Forbidden")
    else Returns (ProblemsBody (ProblemsResponse (Some 0%Z) (Some []))).

Lemma X15_query_falls_back_on_overview_witness :
  fst (run (Skills.query (fun _ => "{}") (fun _ _ _ => Agent.Response (Some "ok"))
              "gemini-1.5-flash" "How much RAM and memory is in use?")
         metrics_down)
  = [cpu_request; overview_request].
Proof.
  rewrite (proj2 (X15_query_falls_back_on_overview (fun _ => "{}")
                    (fun _ _ _ => Agent.Response (Some "ok")) "gemini-1.5-flash"
                    "How much RAM and memory is in use?" metrics_down
                    eq_refl eq_refl eq_refl eq_refl)
             eq_refl (HTTPError "403 Forbidden") eq_refl).
  reflexivity.
Defined.

(** ** The calls of the narrative augmenter *)

Module AugmenterMore.

Import Agent.

(** The call ended in an exception whose text marks a rate limit. *)
Definition rate_limited (reply : llm_reply) : Prop :=
  exists error_str,
    error_of reply = Some error_str /\ is_rate_limit error_str = true.

(** The text a [return] inside the loop gives for the call that ends it. *)
Definition returned_for (reply : llm_reply) (answer : string) : Prop :=
  match reply with
  | Response (Some text) => answer = strip text
  | _ =>
      let error_str := get (error_of reply) EmptyString in
      if is_rate_limit error_str then answer = rate_limit_notice
      else answer = "AI analysis error: " ++ take 100 error_str
  end.

(** The loop over a list that ends with [final] stops inside the list. *)
Lemma try_models_trace (generate_content : llm) (full final : string)
    (models : list string) :
  models <> [] ->
  last models EmptyString = final ->
  forall n,
    exists k,
      1 <= k <= List.length models
      /\ fst (try_models generate_content full final n models) = firstn k models
      /\ (forall i, S i < k ->
            rate_limited (generate_content (n + i) (nth i models EmptyString) full))
      /\ returned_for
           (generate_content (n + (k - 1)) (nth (k - 1) models EmptyString) full)
           (snd (try_models generate_content full final n models)).
Proof.
  induction models as [|model rest IH]; intros Hne Hlast n; [now elim Hne|].
  assert (Hone : forall answer,
             returned_for (generate_content n model full) answer ->
             exists k,
               1 <= k <= List.length (model :: rest)
               /\ [model] = firstn k (model :: rest)
               /\ (forall i, S i < k ->
                     rate_limited
                       (generate_content (n + i)
                          (nth i (model :: rest) EmptyString) full))
               /\ returned_for
                    (generate_content (n + (k - 1))
                       (nth (k - 1) (model :: rest) EmptyString) full)
                    answer).
  { intros answer Ha. exists 1. cbn [firstn nth Nat.sub List.length].
    rewrite Nat.add_0_r. repeat split; auto; try lia. }
  assert (Htail : forall error_str,
             error_of (generate_content n model full) = Some error_str ->
             (forall text, generate_content n model full <> Response (Some text)) ->
             let result :=
               if is_rate_limit error_str
               then
                 if negb (model =? final)%string
                 then
                   (model :: fst (try_models generate_content full final (S n) rest),
                    snd (try_models generate_content full final (S n) rest))
                 else ([model], rate_limit_notice)
               else ([model], "AI analysis error: " ++ take 100 error_str) in
             exists k,
               1 <= k <= List.length (model :: rest)
               /\ fst result = firstn k (model :: rest)
               /\ (forall i, S i < k ->
                     rate_limited
                       (generate_content (n + i)
                          (nth i (model :: rest) EmptyString) full))
               /\ returned_for
                    (generate_content (n + (k - 1))
                       (nth (k - 1) (model :: rest) EmptyString) full)
                    (snd result)).
  { intros error_str He Hnot result. subst result.
    assert (Hret : forall answer,
               (if is_rate_limit error_str then answer = rate_limit_notice
                else answer = "AI analysis error: " ++ take 100 error_str) ->
               returned_for (generate_content n model full) answer).
    { intros answer Ha. unfold returned_for.
      destruct (generate_content n model full) as [[text|]|e] eqn:Hg;
        [now elim (Hnot text) | |]; cbn [error_of get] in *;
        injection He as <-; exact Ha. }
    destruct (is_rate_limit error_str) eqn:Hrl.
    - destruct (String.eqb model final) eqn:Hm; cbn [negb fst snd].
      + apply Hone, Hret. reflexivity.
      + destruct rest as [|model' rest'].
        { simpl in Hlast. apply String.eqb_neq in Hm. now elim Hm. }
        destruct (IH ltac:(discriminate) Hlast (S n)) as (k & Hk & Hf & Hi & Ha).
        exists (S k). split; [simpl in *; lia|].
        split; [cbn [firstn]; now rewrite Hf|].
        split.
        * intros [|i] Hlt.
          -- rewrite Nat.add_0_r. cbn [nth]. exists error_str. auto.
          -- cbn [nth]. replace (n + S i) with (S n + i) by lia.
             apply Hi. lia.
        * destruct k as [|k]; [lia|].
          cbn [Nat.sub nth] in *. rewrite Nat.sub_0_r in *.
          replace (n + S k) with (S n + k) by lia. exact Ha.
    - cbn [fst snd]. apply Hone, Hret. reflexivity. }
  cbn [try_models].
  destruct (generate_content n model full) as [[text|]|e] eqn:Hg.
  - cbn [fst snd]. now apply Hone.
  - specialize (Htail _ eq_refl ltac:(discriminate)). cbv zeta in Htail.
    cbn [error_of get].
    now destruct (try_models generate_content full final (S n) rest).
  - specialize (Htail _ eq_refl ltac:(discriminate)). cbv zeta in Htail.
    cbn [error_of get].
    now destruct (try_models generate_content full final (S n) rest).
Qed.

End AugmenterMore.

Import AugmenterMore.
(** X16. [_ai_analyze] calls the language model at least once and at
    most three times, on the models of its list in order and always with
    the same prompt; every call but the last ended in a rate limit, and
    the text returned is the one a [return] inside the loop gives for the
    last call.  The statement after the loop is therefore never reached. *)
Theorem X16_augmenter_calls (generate_content : Agent.llm)
    (self_model prompt context : string) :
  let models := Agent.models_to_try self_model in
  let full := Agent.full_prompt prompt context in
  let trace := Agent._ai_analyze_trace generate_content self_model prompt context in
  exists k,
    1 <= k <= 3
    /\ fst trace = firstn k models
    /\ (forall i, S i < k ->
          rate_limited (generate_content i (nth i models EmptyString) full))
    /\ returned_for
         (generate_content (k - 1) (nth (k - 1) models EmptyString) full)
         (snd trace).
Proof.
  cbv zeta. unfold Agent._ai_analyze_trace.
  destruct (try_models_trace generate_content (Agent.full_prompt prompt context)
              (last (Agent.models_to_try self_model) EmptyString)
              (Agent.models_to_try self_model)
              ltac:(discriminate) eq_refl 0) as (k & Hk & Hf & Hi & Ha).
  exists k. split; [exact Hk|]. split; [exact Hf|]. split; [exact Hi | exact Ha].
Qed.

(** ** main.py: the agent card *)

Module Card.

Record AgentSkill : Type := Build_AgentSkill {
  id : string;
  name : string;
  description : string;
  tags : list string;
  examples : list string
}.

Record AgentCapabilities : Type := Build_AgentCapabilities {
  streaming : bool;
  pushNotifications : bool
}.

Record AgentCard : Type := Build_AgentCard {
  card_name : string;
  card_description : string;
  url : string;
  version : string;
  defaultInputModes : list string;
  defaultOutputModes : list string;
  capabilities : AgentCapabilities;
  skills : list AgentSkill
}.

(** [DynatraceAgent.SUPPORTED_CONTENT_TYPES] *)
Definition SUPPORTED_CONTENT_TYPES : list string := ["text"; "text/plain"].

Definition list_problems_skill : AgentSkill :=
  Build_AgentSkill "list_problems" "List Problems"
    "List active problems and alerts from Dynatrace with filtering by status, severity, and time range."
    ["problems"; "alerts"; "incidents"; "monitoring"]
    [ "Show me open problems";
      "List critical alerts from last 24 hours";
      "Any performance issues today?" ].

Definition analyze_problem_skill : AgentSkill :=
  Build_AgentSkill "analyze_problem" "Analyze Problem"
    "Get detailed analysis of a specific problem including evidence, affected entities, and AI insights."
    ["analysis"; "investigation"; "troubleshooting"]
    [ "Analyze problem P-12345";
      "Investigate P-12345";
      "What's wrong with P-12345?" ].

Definition rca_skill : AgentSkill :=
  Build_AgentSkill "root_cause_analysis" "Root Cause Analysis"
    "AI-powered root cause analysis correlating problems with deployments, metrics, and topology."
    ["rca"; "root-cause"; "ai"; "investigation"]
    [ "Root cause analysis for P-12345";
      "Why is the service slow?";
      "What caused the database latency?" ].

Definition topology_skill : AgentSkill :=
  Build_AgentSkill "get_topology" "Service Topology"
    "Get service topology, dependencies, and entity relationships from Dynatrace Smartscape."
    ["topology"; "smartscape"; "dependencies"; "architecture"]
    [ "Show service topology";
      "List all hosts";
      "Service dependencies for payment-service" ].

Definition metrics_skill : AgentSkill :=
  Build_AgentSkill "query_metrics" "Query Metrics"
    "Query performance metrics including CPU, memory, response time, error rates, and throughput."
    ["metrics"; "performance"; "monitoring"; "data"]
    [ "Show CPU usage for last 2 hours";
      "Memory metrics for production hosts";
      "Response time performance" ].

Definition deployments_skill : AgentSkill :=
  Build_AgentSkill "get_deployments" "Recent Deployments"
    "Get recent deployments and releases for correlation with problems and performance changes."
    ["deployments"; "releases"; "changes"; "cicd"]
    [ "Recent deployments";
      "What was deployed this week?";
      "Show releases for payment-service" ].

Definition health_skill : AgentSkill :=
  Build_AgentSkill "health_summary" "Health Summary"
    "Get comprehensive health summary of the monitored environment with AI insights."
    ["health"; "status"; "overview"; "dashboard"]
    [ "Environment health status";
      "Give me an overview";
      "How's production looking?" ].

Definition query_skill : AgentSkill :=
  Build_AgentSkill "query" "Natural Language Query"
    "Ask any question about your Dynatrace monitoring data in natural language."
    ["question"; "natural-language"; "ai"; "ask"]
    [ "Is there anything I should worry about?";
      "What's happening with production?";
      "Should I be concerned about the database?" ].

Definition get_agent_card (env : environ) (host : string) (port : Z) : AgentCard :=
  let capabilities := Build_AgentCapabilities false false in
  let host_url := env "HOST_URL" in
  let url :=
    if truthy host_url
    then rstrip_char "/" (get host_url EmptyString) ++ "/"
    else "http://" ++ host ++ ":" ++ str_of_Z port ++ "/" in
  Build_AgentCard "Dynatrace AI Agent"
    ("AI-powered observability agent for SRE/Ops workflows. "
     ++ "Provides problem detection, root cause analysis, service topology, "
     ++ "performance metrics, and deployment correlation from Dynatrace. "
     ++ "Powered by Dynatrace API and Gemini AI.")
    url "1.0.0" SUPPORTED_CONTENT_TYPES SUPPORTED_CONTENT_TYPES capabilities
    [ list_problems_skill; analyze_problem_skill; rca_skill; topology_skill;
      metrics_skill; deployments_skill; health_skill; query_skill ].

(** The examples of a skill that the classifier sends to another skill. *)
Definition misrouted (skill : AgentSkill) : list (string * string) :=
  flat_map
    (fun example =>
       let routed := fst (_parse_intent example) in
       if String.eqb routed (id skill) then [] else [(example, routed)])
    (examples skill).

End Card.

Import Card.

Module CardFacts.

Lemma append_last_inj (a b : string) (c d : ascii) :
  a ++ String c EmptyString = b ++ String d EmptyString -> a = b /\ c = d.
Proof.
  revert b. induction a as [|h a IH]; intros [|h' b] H; simpl in H.
  - now injection H.
  - injection H as _ H. destruct b; discriminate.
  - injection H as _ H. destruct a; discriminate.
  - injection H as -> H. apply IH in H as [-> ->]. auto.
Qed.

Lemma split_last_char (s : string) :
  s <> EmptyString -> exists init c, s = init ++ String c EmptyString.
Proof.
  induction s as [|h s IH]; intros Hne; [now elim Hne|].
  destruct s as [|h' s'].
  - now exists EmptyString, h.
  - destruct (IH ltac:(discriminate)) as (init & c & Hs).
    exists (String h init), c. simpl. now rewrite Hs.
Qed.

(** The last character decides [endswith] for a one-character suffix. *)
Lemma endswith_last (a c : ascii) (init : string) :
  endswith (String a EmptyString) (init ++ String c EmptyString) = Ascii.eqb a c.
Proof.
  destruct (Ascii.eqb a c) eqn:E.
  - apply Ascii.eqb_eq in E. subst c. apply endswith_app.
  - destruct (endswith (String a EmptyString) (init ++ String c EmptyString))
      eqn:H; [|reflexivity].
    apply endswith_iff in H as [x Hx]. apply append_last_inj in Hx as [_ ->].
    now rewrite Ascii.eqb_refl in E.
Qed.

Lemma rstrip_char_last (a : ascii) (s : string) :
  endswith (String a EmptyString) (rstrip_char a s) = false.
Proof.
  destruct (rstrip_char a s) as [|h r] eqn:Hr; [reflexivity|].
  destruct (split_last_char (String h r) ltac:(discriminate)) as (init & c & Hs).
  rewrite Hs, endswith_last.
  destruct (Ascii.eqb a c) eqn:E; [|reflexivity].
  apply Ascii.eqb_eq in E. subst c.
  (* a text that ends with [a] is changed by another [rstrip] *)
  pose proof (rstrip_char_idem a s) as Hidem. rewrite Hr, Hs in Hidem.
  assert (Hdrop : forall t, rstrip_char a (t ++ String a EmptyString)
                            = rstrip_char a t).
  { induction t as [|d t IHt]; simpl; [now rewrite Ascii.eqb_refl|].
    now rewrite IHt. }
  rewrite Hdrop in Hidem.
  assert (Hlen : forall t, String.length (rstrip_char a t) <= String.length t).
  { induction t as [|d t IHt]; simpl; [lia|].
    destruct (rstrip_char a t); [destruct (Ascii.eqb d a)|]; simpl in *; lia. }
  specialize (Hlen init). rewrite Hidem, length_append in Hlen. simpl in Hlen. lia.
Qed.

Lemma endswith_two (a : ascii) (s : string) :
  endswith (String a (String a EmptyString)) (s ++ String a EmptyString)
  = endswith (String a EmptyString) s.
Proof.
  destruct (endswith (String a EmptyString) s) eqn:H.
  - apply endswith_iff in H as [x ->]. apply endswith_iff. exists x.
    now rewrite append_assoc.
  - destruct (endswith (String a (String a EmptyString))
                (s ++ String a EmptyString)) eqn:H2; [|reflexivity].
    apply endswith_iff in H2 as [x Hx].
    change (String a (String a EmptyString))
      with (String a EmptyString ++ String a EmptyString) in Hx.
    rewrite <- append_assoc in Hx. apply append_last_inj in Hx as [-> _].
    now rewrite endswith_app in H.
Qed.

Lemma str_of_Z_last (z : Z) :
  exists init c, str_of_Z z = init ++ String c EmptyString /\ isdigit c = true.
Proof.
  assert (HN : forall n, exists init c,
               str_of_N n = init ++ String c EmptyString /\ isdigit c = true).
  { intros n. destruct (RangeFacts.str_of_N_digits n) as [Hne Hd].
    destruct (split_last_char _ Hne) as (init & c & Hs).
    exists init, c. split; [exact Hs|].
    rewrite Hs, all_chars_app in Hd. simpl in Hd.
    apply andb_true_iff in Hd as [_ Hd]. now rewrite andb_true_r in Hd. }
  destruct z as [|p|p]; unfold str_of_Z; try apply HN.
  destruct (HN (Npos p)) as (init & c & Hs & Hc).
  exists ("-" ++ init), c. split; [|exact Hc]. rewrite Hs. reflexivity.
Qed.

End CardFacts.

Import CardFacts.

(** X17. The card and the classifier agree: the card lists the eight
    skills that [execute] dispatches on, under the same names, and every
    example phrase it advertises for a skill is classified to that
    skill. *)
Theorem X17_card_examples_reach_their_skill (env : environ) (host : string)
    (port : Z) :
  map id (skills (get_agent_card env host port))
  = ["list_problems"; "analyze_problem"; "root_cause_analysis"; "get_topology";
     "query_metrics"; "get_deployments"; "health_summary"; "query"]
  /\ Forall
       (fun skill =>
          Forall (fun example => fst (_parse_intent example) = id skill)
            (examples skill))
       (skills (get_agent_card env host port)).
Proof.
  unfold get_agent_card. cbn [skills]. split; [reflexivity|].
  repeat (apply Forall_cons;
          [repeat (apply Forall_cons; [vm_compute; reflexivity|]);
           apply Forall_nil|]).
  apply Forall_nil.
Qed.

(** X18. The address published in the card ends in exactly one slash,
    whether it comes from HOST_URL, with any number of trailing slashes,
    or from the host and the port. *)
Theorem X18_card_url_one_trailing_slash (env : environ) (host : string)
    (port : Z) :
  endswith "/" (url (get_agent_card env host port)) = true
  /\ endswith "//" (url (get_agent_card env host port)) = false.
Proof.
  unfold get_agent_card. cbn [url].
  destruct (truthy (env "HOST_URL")).
  - split; [apply endswith_app|].
    rewrite (endswith_two "/"). apply rstrip_char_last.
  - destruct (str_of_Z_last port) as (init & c & Hs & Hc). rewrite Hs.
    replace ("http://" ++ host ++ ":" ++ (init ++ String c EmptyString) ++ "/")
      with (("http://" ++ host ++ ":" ++ init ++ String c EmptyString) ++ "/")
      by now rewrite !append_assoc.
    split; [apply endswith_app|].
    rewrite (endswith_two "/").
    replace ("http://" ++ host ++ ":" ++ init ++ String c EmptyString)
      with (("http://" ++ host ++ ":" ++ init) ++ String c EmptyString)
      by now rewrite !append_assoc.
    rewrite endswith_last.
    destruct (Ascii.eqb "/" c) eqn:E; [|reflexivity].
    apply Ascii.eqb_eq in E. subst c. discriminate Hc.
Qed.

(** ** dynatrace_agent.py: the skills that read entities and releases

    The responses of the entity and release endpoints are read through
    typed views: a record per object, a field being [None] when the key
    is absent.  The views are parameters of the skills' models. *)

Module Views.

Record release : Type := Build_release {
  release_name : option string;
  release_version : option string;
  stage : option string;
  product : option string;
  releaseTime : option Z;
  (** only its length is read *)
  release_affectedEntities : option nat
}.

Record releases_response : Type := Build_releases_response {
  releases : option (list release);
  releases_totalCount : option Z
}.

Record target : Type := Build_target {
  target_name : option string;
  target_id : option string
}.

Record tag : Type := Build_tag {
  key : option string;
  value : option string
}.

Record entity : Type := Build_entity {
  displayName : option string;
  entityId : option string;
  fromRelationships : option (list (string * list target));
  toRelationships : option (list (string * list target));
  entity_tags : option (list tag)
}.

Record entities_response : Type := Build_entities_response {
  entities : option (list entity);
  entities_totalCount : option Z
}.

End Views.

Module MoreSkills.

Import Views.
Local Open Scope api_scope.

Section Skills.
(** [response.json()] of the release and of the entity endpoint. *)
Variable releases_of : body -> releases_response.
Variable entities_of : body -> entities_response.
(** [datetime.fromtimestamp(ms / 1000).strftime("%Y-%m-%d %H:%M")] *)
Variable strftime_YmdHM : Z -> string.

(** *** Skill 3: [get_topology] *)

Definition relation_line (arrow : string) (relation : string * list target)
    : string :=
  let (rel_type, targets) := relation in
  let names :=
    map (fun t => get (target_name t) (get (target_id t) "?")) (firstn 3 targets) in
  "  " ++ arrow ++ " **" ++ rel_type ++ ":** " ++ join ", " names.

Definition tag_text (t : tag) : string :=
  str_of_value (key t) ++ ":" ++ get (value t) EmptyString.

Definition entity_output (e : entity) : list string :=
  let display_name := get (displayName e) "Unknown" in
  let entity_id := get (entityId e) EmptyString in
  let from_rels := get (fromRelationships e) [] in
  let to_rels := get (toRelationships e) [] in
  let tags := get (entity_tags e) [] in
  app [ "## " ++ display_name; "**ID:** `" ++ entity_id ++ "`" ]
    (app (map (relation_line "→") (firstn 3 from_rels))
       (app (map (relation_line "←") (firstn 3 to_rels))
          (app (if Client.nonempty tags
                then ["  **Tags:** " ++ join ", " (map tag_text (firstn 5 tags))]
                else [])
             [EmptyString]))).

Definition topology_fields : string :=
  "+fromRelationships,+toRelationships,+properties,+tags".

Definition topology_selector (entity_type : string) (tag name_filter : option string)
    : string :=
  let selectors := [ClientCalls.selector "type" entity_type] in
  let selectors := ClientCalls.append_if tag "tag" selectors in
  let selectors :=
    ClientCalls.append_if name_filter "entityName.contains" selectors in
  join "," selectors.

Definition get_topology (entity_type : string) (tag name_filter : option string)
    : api string :=
  try_except
    (let entity_selector := topology_selector entity_type tag name_filter in
     let fields := topology_fields in
     response <- ClientCalls.get_entities entity_selector (Some fields)
                   "now-2h" 50 ;;
     let entities := get (entities (entities_of response)) [] in
     let total := get (entities_totalCount (entities_of response)) 0%Z in
     if negb (Client.nonempty entities) then
       ret ("📊 No " ++ entity_type ++ " entities found matching criteria.")
     else
       ret (join nl
              (("# 🗺️ Topology: " ++ entity_type ++ " (" ++ str_of_Z total
                ++ " total)" ++ nl)
               :: flat_map entity_output (firstn 10 entities))))
    (fun e => ret ("❌ Error fetching topology: " ++ str_of_exn e)).

(** *** Skill 5: [get_deployments] *)

Definition release_output (r : release) : list string :=
  let name := get (release_name r) "Unknown" in
  let version := get (release_version r) "?" in
  let stage := get (stage r) "?" in
  let product := get (product r) "?" in
  let timestamp := get (releaseTime r) 0%Z in
  let release_time :=
    if negb (timestamp =? 0)%Z then strftime_YmdHM timestamp else "Unknown" in
  let affected_count := get (release_affectedEntities r) 0 in
  [ "## " ++ name ++ " v" ++ version;
    "**Product:** " ++ product;
    "**Stage:** " ++ stage;
    "**Released:** " ++ release_time;
    "**Affected Entities:** " ++ str_of_N (N.of_nat affected_count);
    EmptyString ].

Definition get_deployments (time_range : string) (entity_filter : option string)
    : api string :=
  try_except
    (let entity_selector :=
       if truthy entity_filter
       then Some (ClientCalls.selector "entityName.contains"
                    (get entity_filter EmptyString))
       else None in
     response <- ClientCalls.get_releases entity_selector
                   ("now-" ++ time_range) "now" 50 ;;
     let releases := get (releases (releases_of response)) [] in
     let total := get (releases_totalCount (releases_of response)) 0%Z in
     if negb (Client.nonempty releases) then
       ret "🚀 No deployments found in the specified timeframe."
     else
       ret (join nl
              (("# 🚀 Recent Deployments (" ++ str_of_Z total ++ " total)" ++ nl)
               :: flat_map release_output (firstn 15 releases))))
    (fun e => ret ("❌ Error fetching deployments: " ++ str_of_exn e)).

End Skills.

End MoreSkills.

Module MoreSkillsFacts.

Import Views MoreSkills.

Definition entity_types : list string :=
  ["SERVICE"; "HOST"; "PROCESS_GROUP"; "APPLICATION"; "DATABASE"].

Lemma classified_entity_type (query : string) :
  In (or_else (_extract_entity_type query) "SERVICE") entity_types.
Proof.
  unfold _extract_entity_type.
  destruct (first_keyword entity_mappings (lower query)) as [v|] eqn:H.
  - destruct (first_keyword_value _ _ _ H) as (k & Hin & _).
    simpl in Hin.
    repeat destruct Hin as [Hin | Hin];
      try (injection Hin as <- <-; unfold or_else; cbn [truthy]; in_list).
    contradiction.
  - unfold or_else. cbn [truthy]. in_list.
Qed.

Lemma route_get_topology (query : string)
    (entity_type tag name_filter : option string) :
  route query = Calls (Call_get_topology entity_type tag name_filter) ->
  entity_type = Some (or_else (_extract_entity_type query) "SERVICE")
  /\ tag = None /\ name_filter = None.
Proof.
  unfold route, _parse_intent.
  destruct (truthy (_extract_problem_id query)); cbn [andb negb orb];
    repeat match goal with
           | |- context [if ?b then _ else _] => destruct b eqn:?
           end;
    cbn [dispatch String.eqb Ascii.eqb Bool.eqb params_get params_item];
    intros H; try discriminate H; injection H as <- <- <-; auto.
Qed.

Lemma route_get_deployments (query : string)
    (time_range entity_filter : option string) :
  route query = Calls (Call_get_deployments time_range entity_filter) ->
  time_range = Some (_extract_time_range query) /\ entity_filter = None.
Proof.
  unfold route, _parse_intent.
  destruct (truthy (_extract_problem_id query)); cbn [andb negb orb];
    repeat match goal with
           | |- context [if ?b then _ else _] => destruct b eqn:?
           end;
    cbn [dispatch String.eqb Ascii.eqb Bool.eqb params_get params_item];
    intros H; try discriminate H; injection H as <- <-; auto.
Qed.

(** The one request of [get_topology], and its answer as a text. *)
Lemma get_topology_run (entities_of : body -> entities_response) (srv : server)
    (entity_type : string) (tag name_filter : option string) :
  exists text,
    run (get_topology entities_of entity_type tag name_filter) srv
    = ([ Request "GET" "/entities"
           [ ("entitySelector",
              VStr (topology_selector entity_type tag name_filter));
             ("from", VStr "now-2h"); ("pageSize", VInt 50);
             ("fields", VStr topology_fields) ] ],
       Returns text).
Proof.
  unfold run, get_topology, try_except, bind, ClientCalls.get_entities,
    Client._make_request, ret, ClientCalls.set_if.
  cbn [truthy app get topology_fields].
  destruct (srv [] _) as [response|e]; [|eexists; reflexivity].
  destruct (negb _); eexists; reflexivity.
Qed.

(** The one request of [get_deployments], and its answer as a text. *)
Lemma get_deployments_run (releases_of : body -> releases_response)
    (strftime_YmdHM : Z -> string) (srv : server) (time_range : string) :
  exists text,
    run (get_deployments releases_of strftime_YmdHM time_range None) srv
    = ([ Request "GET" "/releases"
           [ ("from", VStr ("now-" ++ time_range)); ("to", VStr "now");
             ("pageSize", VInt 50) ] ],
       Returns text).
Proof.
  unfold run, get_deployments, try_except, bind, ClientCalls.get_releases,
    Client._make_request, ret, ClientCalls.set_if.
  cbn [truthy app get].
  destruct (srv [] _) as [response|e]; [|eexists; reflexivity].
  destruct (negb _); eexists; reflexivity.
Qed.

End MoreSkillsFacts.

Import MoreSkillsFacts.

(** X19. A topology request that comes from the classifier names one of
    five entity types and nothing of the user's text: the tag and the name
    filter are never set, so the one request sent is [GET /entities] with
    the selector [type("T")], T being SERVICE, HOST, PROCESS_GROUP,
    APPLICATION or DATABASE.  The skill never raises. *)
Theorem X19_topology_request (entities_of : body -> Views.entities_response)
    (srv : server) (query entity_type : string) (tag name_filter : option string) :
  route query = Calls (Call_get_topology (Some entity_type) tag name_filter) ->
  In entity_type ["SERVICE"; "HOST"; "PROCESS_GROUP"; "APPLICATION"; "DATABASE"]
  /\ tag = None
  /\ name_filter = None
  /\ exists text,
       run (MoreSkills.get_topology entities_of entity_type tag name_filter) srv
       = ([ Request "GET" "/entities"
              [ ("entitySelector", VStr (ClientCalls.selector "type" entity_type));
                ("from", VStr "now-2h"); ("pageSize", VInt 50);
                ("fields",
                 VStr "+fromRelationships,+toRelationships,+properties,+tags") ] ],
          Returns text).
Proof.
  intros H. apply route_get_topology in H as (Het & -> & ->).
  injection Het as ->.
  split; [apply classified_entity_type|]. split; [reflexivity|].
  split; [reflexivity|].
  apply (get_topology_run entities_of srv _ None None).
Qed.

Lemma X19_topology_request_witness :
  exists text,
    run (MoreSkills.get_topology (fun _ => Views.Build_entities_response None None)
           "HOST" None None) silent
    = ([ Request "GET" "/entities"
           [ ("entitySelector", VStr (ClientCalls.selector "type" "HOST"));
             ("from", VStr "now-2h"); ("pageSize", VInt 50);
             ("fields",
              VStr "+fromRelationships,+toRelationships,+properties,+tags") ] ],
       Returns text).
Proof.
  apply (X19_topology_request (fun _ => Views.Build_entities_response None None)
           silent "List all hosts" "HOST" None None).
  reflexivity.
Defined.

(** X20. A deployment listing that comes from the classifier is never
    filtered by entity, and its window is the extracted time range: when
    the query holds no time expression the releases of the last 24 hours
    are requested, not those of the 7 days that [execute] and the skill
    name as their defaults.  The skill sends one request and never
    raises. *)
Theorem X20_deployments_request (releases_of : body -> Views.releases_response)
    (strftime_YmdHM : Z -> string) (srv : server) (query time_range : string)
    (entity_filter : option string) :
  route query = Calls (Call_get_deployments (Some time_range) entity_filter) ->
  entity_filter = None
  /\ time_range = _extract_time_range query
  /\ (first_match time_range_patterns query = None -> time_range = "24h")
  /\ exists text,
       run (MoreSkills.get_deployments releases_of strftime_YmdHM time_range
              entity_filter) srv
       = ([ Request "GET" "/releases"
              [ ("from", VStr ("now-" ++ time_range)); ("to", VStr "now");
                ("pageSize", VInt 50) ] ],
          Returns text).
Proof.
  intros H. apply route_get_deployments in H as (Htr & ->).
  injection Htr as ->.
  split; [reflexivity|]. split; [reflexivity|]. split.
  - intros Hnone. unfold _extract_time_range. now rewrite Hnone.
  - apply get_deployments_run.
Qed.

Lemma X20_deployments_request_witness :
  exists text,
    run (MoreSkills.get_deployments
           (fun _ => Views.Build_releases_response None None)
           (fun _ => "2026-01-01 00:00") "24h" None) silent
    = ([ Request "GET" "/releases"
           [ ("from", VStr "now-24h"); ("to", VStr "now"); ("pageSize", VInt 50) ] ],
       Returns text).
Proof.
  apply (X20_deployments_request
           (fun _ => Views.Build_releases_response None None)
           (fun _ => "2026-01-01 00:00") silent "Recent deployments" "24h" None).
  reflexivity.
Defined.

(** ** dynatrace_agent.py: [root_cause_analysis] and [get_health_summary] *)

Module Analysis.

Import Views.
Local Open Scope api_scope.

(** An entry of [affectedEntities]: [{"entityId": {"id": ...}}]. *)
Record entity_ref : Type := Build_entity_ref {
  ref_id : option string
}.

Record affected_entity : Type := Build_affected_entity {
  affected_entityId : option entity_ref
}.

(** A value of the [context_data] dict of [root_cause_analysis]. *)
Inductive context_value : Type :=
| Whole (response : body)
| Releases (l : list release)
| Problems (l : list problem).

(** [severity_counts[sev] = severity_counts.get(sev, 0) + 1] *)
Fixpoint count_up (sev : string) (counts : list (string * Z)) : list (string * Z) :=
  match counts with
  | [] => [(sev, 1%Z)]
  | (k, n) :: rest =>
      if String.eqb k sev then (k, (n + 1)%Z) :: rest
      else (k, n) :: count_up sev rest
  end.

Definition severity_counts (problems : list problem) : list (string * Z) :=
  fold_left (fun counts p => count_up (get (severityLevel p) "UNKNOWN") counts)
    problems [].

(** [sorted(severity_counts.items())]: the keys are distinct, so the items
    are ordered by key. *)
Fixpoint insert_sorted (item : string * Z) (l : list (string * Z))
    : list (string * Z) :=
  match l with
  | [] => [item]
  | x :: rest =>
      if String.leb (fst item) (fst x) then item :: l
      else x :: insert_sorted item rest
  end.

Definition sorted (l : list (string * Z)) : list (string * Z) :=
  fold_right insert_sorted [] l.

Definition severity_emoji (sev : string) : string :=
  Agent.dict_get [("AVAILABILITY", "⛔"); ("ERROR", "❌"); ("PERFORMANCE", "⚡")]
    sev "⚠️".

Definition health_emoji (open_count : Z) : string :=
  if (open_count =? 0)%Z then "🟢"
  else if (open_count <? 5)%Z then "🟡" else "🔴".

Section Skills.
Variable releases_of : body -> releases_response.
(** [problem.get("affectedEntities")] of a problem's details. *)
Variable affectedEntities_of : body -> option (list affected_entity).
(** [json.dumps(context_data, indent=2, default=str)] *)
Variable json_dumps : list (string * context_value) -> string.
(** [json.dumps(severity_counts)] *)
Variable json_dumps_counts : list (string * Z) -> string.
Variable generate_content : Agent.llm.
Variable self_model : string.

(** *** Skill 6 *)

(** The branch of [root_cause_analysis] for a given problem. *)
Definition gather_for_problem (problem_id : string)
    (context_data : list (string * context_value))
    : api (list (string * context_value)) :=
  problem <- Client.get_problem_details problem_id Client.default_fields ;;
  let context_data := app context_data [("problem", Whole problem)] in
  let affected := get (affectedEntities_of problem) [] in
  context_data <-
    match affected with
    | first :: _ =>
        let entity_id :=
          get (ref_id (get (affected_entityId first) (Build_entity_ref None)))
            EmptyString in
        if truthy (Some entity_id) then
          try_except
            (cpu_metrics <-
               Client.query_metrics "builtin:host.cpu.usage:avg"
                 (Some (ClientCalls.selector "entityId" entity_id))
                 "now-6h" "now" "1h" ;;
             ret (app context_data [("cpu_metrics", Whole cpu_metrics)]))
            (fun _ => ret context_data)
        else ret context_data
    | [] => ret context_data
    end ;;
  try_except
    (releases <- ClientCalls.get_releases None "now-7d" "now" 50 ;;
     ret (app context_data
            [("recent_releases",
              Releases (firstn 5 (get (Views.releases (releases_of releases)) [])))]))
    (fun _ => ret context_data).

(** The branch without a problem. *)
Definition gather_open_problems (context_data : list (string * context_value))
    : api (list (string * context_value)) :=
  problems_response <-
    ClientCalls.get_problems (Some "OPEN") None None None "now-24h" "now" 50 ;;
  ret (app context_data
         [("open_problems",
           Problems (firstn 5 (Client.problems_of problems_response)))]).

Definition root_cause_analysis (problem_id symptoms : option string) : api string :=
  try_except
    (let context_data := [] in
     context_data <-
       (if truthy problem_id
        then gather_for_problem (get problem_id EmptyString) context_data
        else gather_open_problems context_data) ;;
     let ai_prompt := Agent.rca_prompt symptoms (json_dumps context_data) in
     let analysis :=
       Agent._ai_analyze generate_content self_model ai_prompt EmptyString in
     ret analysis)
    (fun e => ret ("❌ Error performing root cause analysis: " ++ str_of_exn e)).

(** *** Skill 8 *)

Definition severity_output (counts : list (string * Z)) : list string :=
  if Client.nonempty counts then
    app ("## 🔥 Problems by Severity"
         :: map (fun item =>
                   "  " ++ severity_emoji (fst item) ++ " **" ++ fst item
                   ++ ":** " ++ str_of_Z (snd item))
              (sorted counts))
      [EmptyString]
  else [].

Definition active_output (problems : list problem) : list string :=
  if Client.nonempty problems then
    app ("## 🔴 Active Problems"
         :: map (fun p =>
                   "• **" ++ str_of_value (displayId p) ++ ":** "
                   ++ str_of_value (title p))
              (firstn 5 problems))
      [EmptyString]
  else [].

Definition get_health_summary : api string :=
  try_except
    (open_problems <-
       ClientCalls.get_problems (Some "OPEN") None None None "now-24h" "now" 50 ;;
     recent_releases <- ClientCalls.get_releases None "now-7d" "now" 50 ;;
     let open_count :=
       get (totalCount (ClientCalls.problems_response_of open_problems)) 0%Z in
     let release_count :=
       get (releases_totalCount (releases_of recent_releases)) 0%Z in
     let problems := Client.problems_of open_problems in
     let severity_counts := severity_counts problems in
     let output :=
       [ "# " ++ health_emoji open_count ++ " Environment Health Summary";
         EmptyString;
         "## 📊 Current Status";
         "**Open Problems:** " ++ str_of_Z open_count;
         "**Recent Deployments (7d):** " ++ str_of_Z release_count;
         EmptyString ] in
     let output := app output (severity_output severity_counts) in
     let output := app output (active_output problems) in
     let ai_context :=
       Agent.health_context open_count (json_dumps_counts severity_counts)
         release_count in
     let ai_summary :=
       Agent._ai_analyze generate_content self_model Agent.health_instruction
         ai_context in
     let output := app output ["## 🤖 AI Summary"; ai_summary] in
     ret (join nl output))
    (fun e => ret ("❌ Error generating health summary: " ++ str_of_exn e)).

End Skills.

End Analysis.

Module AnalysisFacts.

Import Views Analysis.

Definition open_problems_request : request :=
  Request "GET" "/problems"
    [ ("from", VStr "now-24h"); ("to", VStr "now"); ("pageSize", VInt 50);
      ("problemSelector", VStr (ClientCalls.selector "status" "OPEN")) ].

Definition recent_releases_request : request :=
  Request "GET" "/releases"
    [ ("from", VStr "now-7d"); ("to", VStr "now"); ("pageSize", VInt 50) ].

Lemma route_root_cause (query : string) (problem_id symptoms : option string) :
  route query = Calls (Call_root_cause_analysis problem_id symptoms) ->
  problem_id = _extract_problem_id query
  /\ symptoms = (if negb (truthy (_extract_problem_id query))
                 then Some query else None)
  /\ any_in root_cause_phrases (lower query) = true.
Proof.
  unfold route, _parse_intent.
  rewrite (any_in_strip root_cause_phrases) by reflexivity.
  destruct (any_in root_cause_phrases (lower query)) eqn:Hr;
    destruct (truthy (_extract_problem_id query)); cbn [andb negb orb];
    repeat match goal with
           | |- context [if ?b then _ else _] => destruct b eqn:?
           end;
    cbn [dispatch String.eqb Ascii.eqb Bool.eqb params_get params_item];
    intros H; try discriminate H; injection H as <- <-; auto.
Qed.

(** A line of a prompt is a piece of the prompt. *)
Lemma contains_middle (a b c : string) : contains b (a ++ b ++ c) = true.
Proof. apply contains_iff. now exists a, c. Qed.

Lemma symptoms_in_prompt (symptoms context_dump : string) :
  symptoms <> EmptyString ->
  contains ("Symptoms reported: " ++ symptoms)
    (Agent.rca_prompt (Some symptoms) context_dump) = true.
Proof.
  intros Hne. destruct symptoms as [|c s]; [now elim Hne|].
  apply contains_iff.
  exists (take 99 (Agent.rca_head None)). eexists.
  unfold Agent.rca_prompt, Agent.rca_head, Agent.lines.
  cbn [truthy get join]. simpl. rewrite !append_assoc. reflexivity.
Qed.

(** The counting loop. *)
Definition total (counts : list (string * Z)) : Z :=
  fold_right Z.add 0%Z (map snd counts).

Lemma count_up_total (sev : string) (counts : list (string * Z)) :
  total (count_up sev counts) = (total counts + 1)%Z.
Proof.
  unfold total. induction counts as [|[k n] counts IH]; simpl; [reflexivity|].
  destruct (String.eqb k sev); simpl; lia.
Qed.

Lemma count_up_keys (sev : string) (counts : list (string * Z)) :
  map fst (count_up sev counts)
  = if existsb (String.eqb sev) (map fst counts) then map fst counts
    else app (map fst counts) [sev].
Proof.
  induction counts as [|[k n] counts IH]; simpl; [reflexivity|].
  rewrite (String.eqb_sym sev k).
  destruct (String.eqb k sev); simpl; [reflexivity|].
  rewrite IH. now destruct (existsb _ _).
Qed.

Lemma count_up_nodup (sev : string) (counts : list (string * Z)) :
  NoDup (map fst counts) -> NoDup (map fst (count_up sev counts)).
Proof.
  intros H. rewrite count_up_keys.
  destruct (existsb (String.eqb sev) (map fst counts)) eqn:E; [exact H|].
  apply NoDup_app; [exact H | repeat constructor; auto |].
  intros k Hin [Hk | []].
  assert (Ht : existsb (String.eqb sev) (map fst counts) = true)
    by (apply existsb_exists; exists k; split;
        [exact Hin | rewrite Hk; apply String.eqb_refl]).
  congruence.
Qed.

Lemma count_up_positive (sev : string) (counts : list (string * Z)) :
  Forall (fun item => (1 <= snd item)%Z) counts ->
  Forall (fun item => (1 <= snd item)%Z) (count_up sev counts).
Proof.
  induction 1 as [|[k n] counts Hn Hrest IH]; simpl.
  - constructor; [simpl; lia | constructor].
  - destruct (String.eqb k sev); constructor; simpl in *; auto; lia.
Qed.

Lemma count_up_key (sev : string) (counts : list (string * Z)) :
  In sev (map fst (count_up sev counts)).
Proof.
  rewrite count_up_keys.
  destruct (existsb (String.eqb sev) (map fst counts)) eqn:E.
  - apply existsb_exists in E as (k & Hin & Hk).
    apply String.eqb_eq in Hk. now subst k.
  - apply in_or_app. right. now left.
Qed.

Lemma count_up_keeps (sev k : string) (counts : list (string * Z)) :
  In k (map fst counts) -> In k (map fst (count_up sev counts)).
Proof.
  intros H. rewrite count_up_keys.
  destruct (existsb _ _); [exact H | apply in_or_app; now left].
Qed.

Lemma severity_counts_from (problems : list problem) (counts : list (string * Z)) :
  let result :=
    fold_left (fun counts p => count_up (get (severityLevel p) "UNKNOWN") counts)
      problems counts in
  NoDup (map fst counts) ->
  Forall (fun item => (1 <= snd item)%Z) counts ->
  total result = (total counts + Z.of_nat (List.length problems))%Z
  /\ NoDup (map fst result)
  /\ Forall (fun item => (1 <= snd item)%Z) result
  /\ (forall k, In k (map fst counts) -> In k (map fst result))
  /\ forall p, In p problems ->
       In (get (severityLevel p) "UNKNOWN") (map fst result).
Proof.
  revert counts. induction problems as [|p problems IH]; intros counts result Hnd Hpos.
  - subst result. simpl. repeat split; auto; [lia | contradiction].
  - subst result. cbn [fold_left].
    destruct (IH (count_up (get (severityLevel p) "UNKNOWN") counts)
                (count_up_nodup _ _ Hnd) (count_up_positive _ _ Hpos))
      as (Ht & Hn & Hp & Hk & Hin).
    rewrite count_up_total in Ht.
    split; [rewrite Ht; cbn [List.length]; lia|].
    split; [exact Hn|]. split; [exact Hp|]. split.
    + intros k Hkin. apply Hk. now apply count_up_keeps.
    + intros q [<- | Hq]; [apply Hk, count_up_key | now apply Hin].
Qed.

End AnalysisFacts.

Import AnalysisFacts.

(** X21. A root-cause analysis asked for without a problem identifier
    sends one request, for the open problems of the last 24 hours, and
    gives the language model the first five of them together with the
    user's words: the prompt holds the line "Symptoms reported: " followed
    by the query as typed.  When the request fails the answer is an error
    line and the model is not consulted. *)
Theorem X21_root_cause_from_symptoms
    (releases_of : body -> Views.releases_response)
    (affectedEntities_of : body -> option (list Analysis.affected_entity))
    (json_dumps : list (string * Analysis.context_value) -> string)
    (generate_content : Agent.llm) (self_model : string) (srv : server)
    (query : string) (symptoms : option string) :
  route query = Calls (Call_root_cause_analysis None symptoms) ->
  symptoms = Some query
  /\ (forall context_dump,
        contains ("Symptoms reported: " ++ query)
          (Agent.rca_prompt symptoms context_dump) = true)
  /\ run (Analysis.root_cause_analysis releases_of affectedEntities_of json_dumps
            generate_content self_model None symptoms) srv
     = ([open_problems_request],
        Returns
          match srv [] open_problems_request with
          | Returns response =>
              Agent._ai_analyze generate_content self_model
                (Agent.rca_prompt symptoms
                   (json_dumps
                      [("open_problems",
                        Analysis.Problems
                          (firstn 5 (Client.problems_of response)))]))
                EmptyString
          | Raises e =>
              "❌ Error performing root cause analysis: " ++ str_of_exn e
          end).
Proof.
  intros H.
  assert (Hne : query <> EmptyString) by (intros ->; discriminate H).
  apply route_root_cause in H as (Hid & -> & _).
  rewrite <- Hid. cbn [truthy negb].
  split; [reflexivity|]. split; [intros d; now apply symptoms_in_prompt|].
  unfold run, Analysis.root_cause_analysis, Analysis.gather_open_problems,
    try_except, bind, ret, ClientCalls.get_problems, Client._make_request.
  change (Request "GET" "/problems"
            (ClientCalls.problems_params (Some "OPEN") None None None
               "now-24h" "now" 50))
    with open_problems_request.
  cbn [truthy app].
  now destruct (srv [] open_problems_request).
Qed.

Lemma X21_root_cause_from_symptoms_witness :
  Some "Why is checkout slow?" = Some "Why is checkout slow?"
  /\ (forall context_dump,
        contains ("Symptoms reported: " ++ "Why is checkout slow?")
          (Agent.rca_prompt (Some "Why is checkout slow?") context_dump) = true)
  /\ run (Analysis.root_cause_analysis
            (fun _ => Views.Build_releases_response None None) (fun _ => None)
            (fun _ => "{}") (fun _ _ _ => Agent.Response (Some "ok"))
            "gemini-1.5-flash" None (Some "Why is checkout slow?")) unreachable
     = ([open_problems_request],
        Returns
          match unreachable [] open_problems_request with
          | Returns response =>
              Agent._ai_analyze (fun _ _ _ => Agent.Response (Some "ok"))
                "gemini-1.5-flash"
                (Agent.rca_prompt (Some "Why is checkout slow?")
                   ((fun _ => "{}")
                      [("open_problems",
                        Analysis.Problems
                          (firstn 5 (Client.problems_of response)))]))
                EmptyString
          | Raises e =>
              "❌ Error performing root cause analysis: " ++ str_of_exn e
          end).
Proof.
  apply (X21_root_cause_from_symptoms
           (fun _ => Views.Build_releases_response None None) (fun _ => None)
           (fun _ => "{}") (fun _ _ _ => Agent.Response (Some "ok"))
           "gemini-1.5-flash" unreachable "Why is checkout slow?"
           (Some "Why is checkout slow?")).
  reflexivity.
Defined.

(** X22. A root-cause analysis for a given problem stands or falls with
    the problem's details.  When fetching them fails (for a display
    identifier: the problem is not found), the answer is an error line
    with the failure's text, nothing else is requested and the language
    model is not consulted.  When they arrive, the model is always
    consulted, on a context that starts with the problem: the requests
    for the metrics of the first affected entity and for the releases of
    the last 7 days may fail without consequence, and the releases are
    always asked for. *)
Theorem X22_root_cause_for_problem
    (releases_of : body -> Views.releases_response)
    (affectedEntities_of : body -> option (list Analysis.affected_entity))
    (json_dumps : list (string * Analysis.context_value) -> string)
    (generate_content : Agent.llm) (self_model : string) (srv : server)
    (problem_id : string) (symptoms : option string) :
  problem_id <> EmptyString ->
  (forall log e,
      run (Client.get_problem_details problem_id Client.default_fields) srv
      = (log, Raises e) ->
      run (Analysis.root_cause_analysis releases_of affectedEntities_of json_dumps
             generate_content self_model (Some problem_id) symptoms) srv
      = (log, Returns ("❌ Error performing root cause analysis: " ++ str_of_exn e)))
  /\ (forall log problem,
        run (Client.get_problem_details problem_id Client.default_fields) srv
        = (log, Returns problem) ->
        exists sent more,
          run (Analysis.root_cause_analysis releases_of affectedEntities_of
                 json_dumps generate_content self_model (Some problem_id)
                 symptoms) srv
          = (app log sent,
             Returns
               (Agent._ai_analyze generate_content self_model
                  (Agent.rca_prompt symptoms
                     (json_dumps (("problem", Analysis.Whole problem) :: more)))
                  EmptyString))
          /\ List.length more <= 2
          /\ 1 <= List.length sent <= 2
          /\ last sent recent_releases_request = recent_releases_request
          /\ In recent_releases_request sent).
Proof.
  intros Hne.
  assert (Ht : truthy (Some problem_id) = true) by now destruct problem_id.
  unfold run, Analysis.root_cause_analysis, Analysis.gather_for_problem.
  rewrite Ht. cbn [get].
  split.
  - intros log e H. unfold try_except, bind, ret. now rewrite H.
  - intros log problem H. unfold try_except, bind, ret.
    rewrite H. cbn [app].
    unfold ClientCalls.get_releases, Client.query_metrics, Client._make_request,
      ClientCalls.set_if.
    change (truthy None) with false. cbv iota.
    change (Request "GET" "/releases"
              [("from", VStr "now-7d"); ("to", VStr "now"); ("pageSize", VInt 50)])
      with recent_releases_request.
    destruct (affectedEntities_of problem) as [[|first rest]|]; cbn [get];
      [ | destruct (get (Analysis.ref_id
                           (get (Analysis.affected_entityId first)
                              (Analysis.Build_entity_ref None))) EmptyString)
            as [|c entity_id];
          cbn [truthy] | ];
      repeat (cbv beta iota zeta;
              match goal with
              | |- context [srv ?l ?r] => destruct (srv l r)
              end);
      cbv beta iota zeta; rewrite <- ?app_assoc; cbn [app];
      eexists; eexists; (split; [reflexivity|]); cbn [List.length last In app];
      repeat split; auto; lia.
Qed.

Definition empty_listing : server :=
  fun _ _ => Returns (ProblemsBody (ProblemsResponse (Some 0%Z) (Some []))).

Lemma X22_root_cause_for_problem_witness :
  run (Analysis.root_cause_analysis
         (fun _ => Views.Build_releases_response None None) (fun _ => None)
         (fun _ => "{}") (fun _ _ _ => Agent.Response (Some "ok"))
         "gemini-1.5-flash" (Some "P-99999") None) empty_listing
  = ([Client.search_request "P-99999"],
     Returns "❌ Error performing root cause analysis: Problem P-99999 not found").
Proof.
  apply (proj1 (X22_root_cause_for_problem
                  (fun _ => Views.Build_releases_response None None)
                  (fun _ => None) (fun _ => "{}")
                  (fun _ _ _ => Agent.Response (Some "ok")) "gemini-1.5-flash"
                  empty_listing "P-99999" None ltac:(discriminate))
           [Client.search_request "P-99999"]
           (ValueError "Problem P-99999 not found")).
  reflexivity.
Defined.

(** X23. The severity tally of the health summary counts every listed
    problem once: the counts add up to the number of problems, each
    severity has one entry with a count of at least 1, and the severity of
    every problem (UNKNOWN when it has none) has an entry. *)
Theorem X23_severity_tally (problems : list problem) :
  let counts := Analysis.severity_counts problems in
  fold_right Z.add 0%Z (map snd counts) = Z.of_nat (List.length problems)
  /\ NoDup (map fst counts)
  /\ Forall (fun item => (1 <= snd item)%Z) counts
  /\ forall p, In p problems ->
       In (get (severityLevel p) "UNKNOWN") (map fst counts).
Proof.
  destruct (severity_counts_from problems [] (NoDup_nil _) (Forall_nil _))
    as (Ht & Hn & Hp & _ & Hin).
  cbv zeta. unfold Analysis.severity_counts. unfold total in Ht. simpl in Ht.
  auto.
Qed.

(** X24. The health summary asks for the open problems of the last 24
    hours and then for the releases of the last 7 days, and never raises.
    Unlike the root-cause analysis it needs both: when either request
    fails the answer is an error line (after a failed first request the
    second is not sent).  When both arrive, the heading shows the colour
    that the reported total alone decides: green for 0 or no total, yellow
    below 5, red from 5 on, whatever problems are listed. *)
Theorem X24_health_summary
    (releases_of : body -> Views.releases_response)
    (json_dumps_counts : list (string * Z) -> string)
    (generate_content : Agent.llm) (self_model : string) (srv : server) :
  let summary :=
    run (Analysis.get_health_summary releases_of json_dumps_counts
           generate_content self_model) srv in
  match srv [] open_problems_request with
  | Raises e =>
      summary
      = ([open_problems_request],
         Returns ("❌ Error generating health summary: " ++ str_of_exn e))
  | Returns open_problems =>
      match srv [open_problems_request] recent_releases_request with
      | Raises e =>
          summary
          = ([open_problems_request; recent_releases_request],
             Returns ("❌ Error generating health summary: " ++ str_of_exn e))
      | Returns recent_releases =>
          let open_count :=
            get (totalCount (ClientCalls.problems_response_of open_problems))
              0%Z in
          exists rest,
            summary
            = ([open_problems_request; recent_releases_request],
               Returns
                 (("# " ++ Analysis.health_emoji open_count
                   ++ " Environment Health Summary") ++ nl ++ rest))
      end
  end.
Proof.
  cbv zeta.
  unfold run, Analysis.get_health_summary, try_except, bind, ret,
    ClientCalls.get_problems, ClientCalls.get_releases, Client._make_request,
    ClientCalls.set_if.
  change (truthy None) with false. cbv iota.
  change (Request "GET" "/problems"
            (ClientCalls.problems_params (Some "OPEN") None None None
               "now-24h" "now" 50))
    with open_problems_request.
  change (Request "GET" "/releases"
            [("from", VStr "now-7d"); ("to", VStr "now"); ("pageSize", VInt 50)])
    with recent_releases_request.
  cbn [app].
  destruct (srv [] open_problems_request) as [open_problems|e]; [|reflexivity].
  destruct (srv [open_problems_request] recent_releases_request)
    as [recent_releases|e]; [|reflexivity].
  eexists. cbn [app join]. reflexivity.
Qed.

(** X25. A metric query that comes from the classifier is filtered by
    entity type only, never by an entity identifier: the request carries
    the selector [type("T")] for one of the five entity types when the
    query names one, and no entity selector otherwise.  The skill never
    raises. *)
Theorem X25_metric_request_filter (strftime_HMS : Z -> string) (srv : server)
    (query metric : string) (entity_type entity_id : option string)
    (time_range : string) :
  route query
  = Calls (Call_query_metrics (Some metric) entity_type entity_id (Some time_range)) ->
  entity_id = None
  /\ (entity_type = None
      \/ exists T,
           entity_type = Some T
           /\ In T ["SERVICE"; "HOST"; "PROCESS_GROUP"; "APPLICATION"; "DATABASE"])
  /\ sent_param "entitySelector"
       (fst (run (Agent.query_metrics strftime_HMS metric entity_type entity_id
                    time_range) srv))
     = option_map (fun T => VStr (ClientCalls.selector "type" T)) entity_type
  /\ exists text,
       snd (run (Agent.query_metrics strftime_HMS metric entity_type entity_id
                   time_range) srv)
       = Returns text.
Proof.
  intros H. apply route_query_metrics in H as (_ & -> & -> & _).
  split; [reflexivity|].
  assert (Hcases :
    _extract_entity_type query = None
    \/ exists T, _extract_entity_type query = Some T /\ In T entity_types
                 /\ truthy (Some T) = true).
  { unfold _extract_entity_type.
    destruct (first_keyword entity_mappings (lower query)) as [v|] eqn:Hv;
      [right | now left].
    destruct (first_keyword_value _ _ _ Hv) as (k & Hin & _).
    exists v. split; [reflexivity|]. simpl in Hin.
    repeat destruct Hin as [Hin | Hin]; try contradiction;
      injection Hin as <- <-; (split; [in_list | reflexivity]). }
  unfold run, Agent.query_metrics, try_except, bind, ret, Client.query_metrics,
    Client._make_request.
  destruct Hcases as [-> | (T & -> & HT & Htruthy)].
  - split; [now left|]. cbn [truthy app option_map].
    destruct (srv [] _); (split; [reflexivity | eexists; reflexivity]).
  - split; [right; exists T; auto|].
    change (truthy None) with false. cbv iota. rewrite Htruthy.
    cbn [app get option_map].
    destruct (srv [] _); (split; [reflexivity | eexists; reflexivity]).
Qed.

Lemma X25_metric_request_filter_witness :
  (None : option string) = None
  /\ (Some "HOST" = None
      \/ exists T,
           Some "HOST" = Some T
           /\ In T ["SERVICE"; "HOST"; "PROCESS_GROUP"; "APPLICATION"; "DATABASE"])
  /\ sent_param "entitySelector"
       (fst (run (Agent.query_metrics (fun _ => "00:00:00") "memory"
                    (Some "HOST") None "2h") silent))
     = option_map (fun T => VStr (ClientCalls.selector "type" T)) (Some "HOST")
  /\ exists text,
       snd (run (Agent.query_metrics (fun _ => "00:00:00") "memory"
                   (Some "HOST") None "2h") silent)
       = Returns text.
Proof.
  apply (X25_metric_request_filter (fun _ => "00:00:00") silent
           "RAM of the hosts, last 2 hours" "memory" (Some "HOST") None "2h").
  reflexivity.
Defined.
